(** * dat_to_json: the AMPL-style [.dat] reader of [src/dat_to_json.py]

    A shallow embedding of [parse_dat] and of the Python primitives it
    calls ([str.strip], [str.split], [str.replace], [str.splitlines],
    [re.match], [float], [dict] assignment), followed by the properties
    of the reader.

    Text is modelled as [string]: every character is a code point below
    256, classified as Python classifies it. *)

From Stdlib Require Import List String Ascii Bool Arith NArith ZArith Lia.
From Stdlib Require Import SpecFloat.
Import ListNotations.
Local Open Scope list_scope.
Local Open Scope string_scope.

(** ** Characters *)

Definition code (c : ascii) : N := N_of_ascii c.

Definition in_range (lo hi : N) (c : ascii) : bool :=
  ((lo <=? code c) && (code c <=? hi))%N.

(** [str.isspace] on one character: TAB..CR, FS..US, space, NEL, NBSP. *)
Definition isspace (c : ascii) : bool :=
  in_range 9 13 c || in_range 28 32 c || (code c =? 133)%N || (code c =? 160)%N.

(** The line boundaries of [str.splitlines]: LF, VT, FF, CR, FS, GS, RS, NEL. *)
Definition is_linebreak (c : ascii) : bool :=
  in_range 10 13 c || in_range 28 30 c || (code c =? 133)%N.

Definition isdigit (c : ascii) : bool := in_range 48 57 c.

(** [str.isalnum] on one character below 256. *)
Definition isalnum (c : ascii) : bool :=
  in_range 48 57 c || in_range 65 90 c || in_range 97 122 c
  || (code c =? 170)%N || in_range 178 179 c || (code c =? 181)%N
  || in_range 185 186 c || in_range 188 190 c
  || in_range 192 214 c || in_range 216 246 c || in_range 248 255 c.

(** [str.isprintable] on one character below 256. *)
Definition isprintable (c : ascii) : bool :=
  in_range 32 126 c || (in_range 161 255 c && negb (code c =? 173)%N).

(** ** Strings *)

Definition is_empty (s : string) : bool :=
  match s with "" => true | _ => false end.

(** [c in s] for a one-character [c]. *)
Fixpoint mem_char (c : ascii) (s : string) : bool :=
  match s with
  | "" => false
  | String d s' => Ascii.eqb c d || mem_char c s'
  end.

(** [s.startswith(p)] *)
Fixpoint startswith (p s : string) : bool :=
  match p, s with
  | "", _ => true
  | String a p', String b s' => Ascii.eqb a b && startswith p' s'
  | String _ _, "" => false
  end.

(** [s[n:]] *)
Fixpoint drop (n : nat) (s : string) : string :=
  match n, s with
  | O, _ => s
  | S n', String _ s' => drop n' s'
  | S _, "" => ""
  end.

(** [sep in s] for a non-empty [sep]. *)
Fixpoint contains (sep s : string) : bool :=
  startswith sep s ||
  match s with
  | "" => false
  | String _ s' => contains sep s'
  end.

(** [s.split(sep, 1)] for a non-empty [sep]: the text before the first
    occurrence of [sep], and the text after it when there is one. *)
Fixpoint split1 (sep s : string) : string * option string :=
  if startswith sep s then ("", Some (drop (length sep) s))
  else match s with
       | "" => ("", None)
       | String c s' => let '(b, a) := split1 sep s' in (String c b, a)
       end.

(** [s.split(sep)[0]] and [s.split(sep, 1)[0]] *)
Definition before (sep s : string) : string := fst (split1 sep s).

Fixpoint lstrip_with (sp : ascii -> bool) (s : string) : string :=
  match s with
  | "" => ""
  | String c s' => if sp c then lstrip_with sp s' else s
  end.

Fixpoint rstrip_with (sp : ascii -> bool) (s : string) : string :=
  match s with
  | "" => ""
  | String c s' =>
      let r := rstrip_with sp s' in
      if sp c && is_empty r then "" else String c r
  end.

Definition strip_with (sp : ascii -> bool) (s : string) : string :=
  rstrip_with sp (lstrip_with sp s).

(** [s.strip()] *)
Definition strip (s : string) : string := strip_with isspace s.

(** [s.split()]: the maximal runs of characters that are not whitespace. *)
Fixpoint split_ws (s : string) : list string :=
  match s with
  | "" => []
  | String c s' =>
      if isspace c then split_ws s'
      else match s' with
           | "" => [String c ""]
           | String d _ =>
               if isspace d then String c "" :: split_ws s'
               else match split_ws s' with
                    | w :: ws => String c w :: ws
                    | [] => [String c ""]
                    end
           end
  end.

(** [s.replace(old, new)] for a non-empty [old]: the occurrences of [old]
    are replaced from left to right, without overlap; [skip] counts the
    characters of an occurrence that are still to be passed over. *)
Fixpoint replace_from (old new : string) (skip : nat) (s : string) : string :=
  match s with
  | "" => ""
  | String c s' =>
      match skip with
      | S k => replace_from old new k s'
      | O =>
          if startswith old s
          then new ++ replace_from old new (length old - 1) s'
          else String c (replace_from old new 0 s')
      end
  end.

Definition replace (old new s : string) : string := replace_from old new 0 s.

(** [sep.join(parts)] *)
Definition join (sep : string) (parts : list string) : string :=
  String.concat sep parts.

(** [s.splitlines()]: a line ends at a line boundary, CR LF counting as
    one; the text after the last boundary is a line when it is not empty. *)
Fixpoint splitlines (s : string) : list string :=
  match s with
  | "" => []
  | String c s' =>
      if is_linebreak c then
        match s' with
        | String d s'' =>
            if Ascii.eqb c "013" && Ascii.eqb d "010"
            then "" :: splitlines s''
            else "" :: splitlines s'
        | "" => [""]
        end
      else match splitlines s' with
           | [] => [String c ""]
           | l :: ls => String c l :: ls
           end
  end.


Definition dquote : ascii := ascii_of_N 34.

Definition hexdigit (n : N) : ascii :=
  if (n <? 10)%N then ascii_of_N (48 + n) else ascii_of_N (87 + n).

Fixpoint repr_body (q : ascii) (s : string) : string :=
  match s with
  | "" => ""
  | String c s' =>
      let r := repr_body q s' in
      if Ascii.eqb c q || Ascii.eqb c "\" then String "\" (String c r)
      else if Ascii.eqb c "009" then String "\" (String "t" r)
      else if Ascii.eqb c "010" then String "\" (String "n" r)
      else if Ascii.eqb c "013" then String "\" (String "r" r)
      else if isprintable c then String c r
      else String "\" (String "x"
             (String (hexdigit (code c / 16)) (String (hexdigit (code c mod 16)) r)))
  end.

(** [repr(s)]: single quotes, unless the text holds a single quote and no
    double quote. *)
Definition repr (s : string) : string :=
  let q := if mem_char "'" s && negb (mem_char dquote s) then dquote else "'"%char in
  String q (repr_body q s ++ String q "").

(** ** [float(s)]

    The value is an IEEE 754 binary64 number, [spec_float] at precision 53
    with exponents below 1024; a decimal literal is rounded to the nearest
    one, ties to even. *)

Definition prec : Z := 53.
Definition emax : Z := 1024.

Definition pyfloat : Type := spec_float.

(** The double nearest to [(-1)^neg * m * 10^e]. *)
Definition float_of_decimal (neg : bool) (m : N) (e : Z) : pyfloat :=
  match m with
  | N0 => S754_zero neg
  | Npos p =>
      if (0 <=? e)%Z
      then binary_round prec emax neg (p * Z.to_pos (10 ^ e))%positive 0
      else SFdiv prec emax (S754_finite neg p 0)
                           (S754_finite false (Z.to_pos (10 ^ (- e))) 0)
  end.

Definition float_of_Z (z : Z) : pyfloat :=
  float_of_decimal (z <? 0)%Z (Z.abs_N z) 0.

Definition lower (c : ascii) : ascii :=
  if in_range 65 90 c then ascii_of_N (code c + 32) else c.

Fixpoint lowercase (s : string) : string :=
  match s with
  | "" => ""
  | String c s' => String (lower c) (lowercase s')
  end.

(** An underscore is accepted between two digits only, and dropped. *)
Fixpoint drop_underscores (prev : ascii) (s : string) : option string :=
  match s with
  | "" => if Ascii.eqb prev "_" then None else Some ""
  | String c s' =>
      if Ascii.eqb c "_" then
        if isdigit prev then drop_underscores c s' else None
      else if Ascii.eqb prev "_" && negb (isdigit c) then None
      else option_map (String c) (drop_underscores c s')
  end.

(** The longest prefix of digits, and what follows it. *)
Fixpoint span_digits (s : string) : string * string :=
  match s with
  | "" => ("", "")
  | String c s' =>
      if isdigit c then let '(d, r) := span_digits s' in (String c d, r)
      else ("", s)
  end.

Fixpoint digits_value (acc : N) (s : string) : N :=
  match s with
  | "" => acc
  | String c s' => digits_value (10 * acc + (code c - 48))%N s'
  end.

Definition take_sign (s : string) : bool * string :=
  match s with
  | String "-" r => (true, r)
  | String "+" r => (false, r)
  | _ => (false, s)
  end.

(** digits [. digits] [e [sign] digits], with a digit before or after the
    point; the result is the mantissa and the power of ten. *)
Definition parse_decimal (s : string) : option (N * Z) :=
  let '(ip, r1) := span_digits s in
  let '(fp, r2) := match r1 with
                   | String "." r => span_digits r
                   | _ => ("", r1)
                   end in
  if is_empty ip && is_empty fp then None
  else
    let m := digits_value 0 (ip ++ fp) in
    let shift := Z.of_nat (length fp) in
    match r2 with
    | "" => Some (m, (- shift)%Z)
    | String c r3 =>
        if Ascii.eqb (lower c) "e" then
          let '(eneg, r4) := take_sign r3 in
          let '(ed, r5) := span_digits r4 in
          if is_empty ed || negb (is_empty r5) then None
          else
            let e := Z.of_N (digits_value 0 ed) in
            Some (m, ((if eneg then - e else e) - shift)%Z)
        else None
    end.

(** The whitespace of C: TAB..CR and space. *)
Definition c_isspace (c : ascii) : bool :=
  in_range 9 13 c || (code c =? 32)%N.

(** The characters that [float] drops at the ends of a text: the
    whitespace of C and, of the characters that are not ASCII, those of
    [str.isspace], which [float] reads as blanks (NEL and the no-break
    space). The separators FS to US are whitespace for [str.isspace]
    but not for [float]. *)
Definition float_space (c : ascii) : bool :=
  c_isspace c || (code c =? 133)%N || (code c =? 160)%N.

(** [float(s)] on a string: [None] stands for ValueError. Whitespace at
    both ends is dropped first (both calls in [parse_dat] pass text
    that has none at its ends). *)
Definition py_float (s : string) : option pyfloat :=
  let t := strip_with float_space s in
  if is_empty t then None
  else match drop_underscores "000" t with
       | None => None
       | Some u =>
           let '(neg, body) := take_sign u in
           let lo := lowercase body in
           if String.eqb lo "inf" || String.eqb lo "infinity" then Some (S754_infinity neg)
           else if String.eqb lo "nan" then Some S754_nan
           else match parse_decimal body with
                | Some (m, e) => Some (float_of_decimal neg m e)
                | None => None
                end
       end.

(** ** [re.match] for a sequence of quantified character classes

    A pattern is a list of items, each a character class read once, zero
    or more times, or one or more times (greedy, giving back characters
    when the rest of the pattern fails), closed by [$]. The result holds
    the text each item has consumed. *)

Inductive quant : Type := One | Star | Plus.

Record item : Type := Item { cls : ascii -> bool; rep : quant; grp : nat }.

(** [$]: the end of the text, or the position before a final line feed. *)
Definition at_end (s : string) : bool :=
  match s with
  | "" => true
  | String c "" => Ascii.eqb c "010"
  | _ => false
  end.

Fixpoint re_match (pat : list item) (s : string) {struct pat} : option (list string) :=
  match pat with
  | [] => if at_end s then Some [] else None
  | it :: pat' =>
      let stop (s : string) : option (list string) :=
        match re_match pat' s with
        | Some gs => Some ("" :: gs)
        | None => None
        end in
      let star :=
        fix star (s : string) : option (list string) :=
          match s with
          | String c s' =>
              if cls it c then
                match star s' with
                | Some (g :: gs) => Some (String c g :: gs)
                | _ => stop s
                end
              else stop s
          | "" => stop s
          end in
      match rep it with
      | Star => star s
      | One =>
          match s with
          | String c s' =>
              if cls it c then
                match re_match pat' s' with
                | Some gs => Some (String c "" :: gs)
                | None => None
                end
              else None
          | "" => None
          end
      | Plus =>
          match s with
          | String c s' =>
              if cls it c then
                match star s' with
                | Some (g :: gs) => Some (String c g :: gs)
                | _ => None
                end
              else None
          | "" => None
          end
      end
  end.

(** [m.group(n)]: the text consumed by the items of group [n]. *)
Fixpoint group (n : nat) (pat : list item) (gs : list string) : string :=
  match pat, gs with
  | it :: pat', g :: gs' =>
      if Nat.eqb (grp it) n then g ++ group n pat' gs' else group n pat' gs'
  | _, _ => ""
  end.

Definition lit (c : ascii) : item := Item (Ascii.eqb c) One 0.
Definition is_alpha_us (c : ascii) : bool :=
  in_range 65 90 c || in_range 97 122 c || Ascii.eqb c "_".
Definition is_word (c : ascii) : bool := isalnum c || Ascii.eqb c "_".
Definition not_semicolon (c : ascii) : bool := negb (Ascii.eqb c ";").

(** The end of the pattern of a scalar statement, from the value on:
    optional whitespace, the value (group 2: one or more characters
    other than a semicolon), optional whitespace, a semicolon, optional
    whitespace, the end. *)
Definition value_re : list item :=
  [ Item isspace Star 0; Item not_semicolon Plus 2; Item isspace Star 0;
    lit ";"; Item isspace Star 0 ].

(** The pattern of a scalar statement: the word param, whitespace, a
    name (group 1: a letter or underscore, then word characters),
    optional whitespace, an equals sign, and the end of the pattern. *)
Definition scalar_re : list item :=
  [ lit "p"; lit "a"; lit "r"; lit "a"; lit "m";
    Item isspace Plus 0;
    Item is_alpha_us One 1; Item is_word Star 1;
    Item isspace Star 0;
    lit "=" ] ++ value_re.

Definition m_scalar (line : string) : option (string * string) :=
  match re_match scalar_re line with
  | Some gs => Some (group 1 scalar_re gs, group 2 scalar_re gs)
  | None => None
  end.

(** ** Lists and dictionaries *)

(** [x in l] *)
Definition mem_str (x : string) (l : list string) : bool :=
  existsb (String.eqb x) l.

(** [l.index(x)]: [None] stands for ValueError. *)
Fixpoint index_of (x : string) (l : list string) : option nat :=
  match l with
  | [] => None
  | y :: l' => if String.eqb y x then Some 0 else option_map S (index_of x l')
  end.

(** [l[start:stop]] for indices that are not negative. *)
Definition slice {A : Type} (start stop : nat) (l : list A) : list A :=
  firstn (stop - start) (skipn start l).

(** A [dict] with text keys, in insertion order. *)
Definition dict (V : Type) : Type := list (string * V).

Fixpoint dict_get {V : Type} (k : string) (d : dict V) : option V :=
  match d with
  | [] => None
  | (k', v) :: d' => if String.eqb k' k then Some v else dict_get k d'
  end.

(** [d[k] = v]: a key that is present keeps its place. *)
Fixpoint dict_set {V : Type} (k : string) (v : V) (d : dict V) : dict V :=
  match d with
  | [] => [(k, v)]
  | (k', v') :: d' =>
      if String.eqb k' k then (k', v) :: d' else (k', v') :: dict_set k v d'
  end.

Definition keys {V : Type} (d : dict V) : list string := map fst d.

(** ** Exceptions and results *)

Inductive exn : Type :=
| ValueError_malformed (msg : string)  (* raise ValueError(...) of the set branch *)
| ValueError_index (x : string)        (* tokens.index(x), x not in the list *)
| ValueError_float (s : string)        (* float(s), s not a number *)
| ValueError_unpack                    (* a, b = one-element list *)
| IndexError.                          (* tokens[1], vals[j] past the end *)

(** The text of the exception, [str(e)]. *)
Definition message (e : exn) : string :=
  match e with
  | ValueError_malformed msg => msg
  | ValueError_index x => repr x ++ " is not in list"
  | ValueError_float s => "could not convert string to float: " ++ repr s
  | ValueError_unpack => "not enough values to unpack (expected 2, got 1)"
  | IndexError => "list index out of range"
  end.

Inductive result (A : Type) : Type :=
| Ok (a : A)
| Raise (e : exn).
Arguments Ok {A} a.
Arguments Raise {A} e.

Definition bind {A B : Type} (r : result A) (f : A -> result B) : result B :=
  match r with
  | Ok a => f a
  | Raise e => Raise e
  end.

Notation "x <- r ;; k" := (bind r (fun x => k))
  (at level 61, r at next level, right associativity).
Notation "' p <- r ;; k" := (bind r (fun x => match x with p => k end))
  (at level 61, p pattern, r at next level, right associativity).

(** ** The document *)

Inductive value : Type :=
| VFloat (x : pyfloat)
| VStr (s : string)
| VMap (m : dict pyfloat)
| VTable (t : dict (dict pyfloat)).

Record Document : Type :=
  { sets : dict (list string); params : dict value }.

Definition set_sets (name : string) (elems : list string) (doc : Document) : Document :=
  {| sets := dict_set name elems (sets doc); params := params doc |}.

Definition set_params (name : string) (v : value) (doc : Document) : Document :=
  {| sets := sets doc; params := dict_set name v (params doc) |}.

(** ** The reader *)

Definition tab : string := String "009" "".

Definition _strip_comments (line : string) : string := strip (before "#" line).

Fixpoint _tokenize_block (lines : list string) : list string :=
  match lines with
  | [] => []
  | ln :: rest =>
      let ln := _strip_comments ln in
      if is_empty ln then _tokenize_block rest
      else (split_ws (replace tab " " ln) ++ _tokenize_block rest)%list
  end.

(** The lines appended to a block after [last], out of [rest]: lines are
    taken until the last one taken holds a semicolon, or to the end. *)
Fixpoint collect (last : string) (rest : list string) : list string :=
  if mem_char ";" last then []
  else match rest with
       | [] => []
       | l :: rest' => l :: collect l rest'
       end.

(** *** Set blocks (lines 71 to 92 of the source) *)

Definition set_joined (block : list string) : string :=
  replace ":=" " := " (join " " (map _strip_comments block)).

Definition set_tokens (block : list string) : list string :=
  split_ws (replace ";" " ; " (set_joined block)).

Definition parse_set (dat_name : string) (block : list string)
  : result (string * list string) :=
  let joined := set_joined block in
  let tokens := split_ws (replace ";" " ; " joined) in
  match nth_error tokens 1 with
  | None => Raise IndexError
  | Some name =>
      if negb (mem_str ":=" tokens)
      then Raise (ValueError_malformed
                    ("Malformed set block in " ++ dat_name ++ ": " ++ joined))
      else
        match index_of ":=" tokens with
        | None => Raise (ValueError_index ":=")
        | Some i =>
            let start := i + 1 in
            match index_of ";" tokens with
            | None => Raise (ValueError_index ";")
            | Some stop => Ok (name, slice start stop tokens)
            end
        end
  end.

(** *** Data lines of the two param blocks *)

(** The tokens of a data line, given without its comment. *)
Definition data_tokens (ln : string) : list string :=
  let ln := if mem_char ";" ln then replace ";" " " ln else ln in
  split_ws (replace tab " " ln).

(** *** 1D param blocks (lines 95 to 123) *)

Fixpoint param_rows (lines : list string) (mapping : dict pyfloat)
  : result (dict pyfloat) :=
  match lines with
  | [] => Ok mapping
  | ln :: rest =>
      let ln := _strip_comments ln in
      if is_empty ln then param_rows rest mapping
      else
        match data_tokens ln with
        | k :: v :: _ =>
            match py_float v with
            | Some x => param_rows rest (dict_set k x mapping)
            | None => Raise (ValueError_float v)
            end
        | _ => param_rows rest mapping
        end
  end.

Definition parse_param1d (line : string) (data : list string)
  : result (string * dict pyfloat) :=
  let first := _strip_comments line in
  match nth_error (split_ws first) 1 with
  | None => Raise IndexError
  | Some t =>
      let name := strip (before ":=" t) in
      mapping <- param_rows data [] ;;
      Ok (name, mapping)
  end.

(** *** 2D table blocks (lines 126 to 162) *)

(** The row of a table, [cols[j]: float(vals[j])] for each column [j],
    in the order of the columns; a column without a value is [vals[j]]
    past the end of [vals]. *)
Fixpoint row_dict (cols vals : list string) (d : dict pyfloat)
  : result (dict pyfloat) :=
  match cols with
  | [] => Ok d
  | c :: cols' =>
      match vals with
      | [] => Raise IndexError
      | v :: vals' =>
          match py_float v with
          | Some x => row_dict cols' vals' (dict_set c x d)
          | None => Raise (ValueError_float v)
          end
      end
  end.

Fixpoint table_rows (cols : list string) (lines : list string)
  (table : dict (dict pyfloat)) : result (dict (dict pyfloat)) :=
  match lines with
  | [] => Ok table
  | ln :: rest =>
      let ln := _strip_comments ln in
      if is_empty ln then table_rows cols rest table
      else
        match data_tokens ln with
        | [] => table_rows cols rest table
        | row :: more =>
            let vals := firstn (List.length cols) more in
            if negb (Nat.eqb (List.length vals) (List.length cols))
            then table_rows cols rest table
            else
              match row_dict cols vals [] with
              | Ok d => table_rows cols rest (dict_set row d table)
              | Raise e => Raise e
              end
        end
  end.

(** The columns declared by the text between the colon and [:=]. *)
Definition table_cols (rest : string) : list string :=
  let cols_part := strip (before ":=" rest) in
  filter (fun c => negb (is_empty c)) (split_ws (replace tab " " cols_part)).

Definition parse_table (line : string) (data : list string)
  : result (string * dict (dict pyfloat)) :=
  let header := _strip_comments line in
  let after_param := drop (length "param ") header in
  match split1 ":" after_param with
  | (_, None) => Raise ValueError_unpack
  | (name_part, Some rest) =>
      let name := strip name_part in
      let cols := table_cols rest in
      table <- table_rows cols data [] ;;
      Ok (name, table)
  end.

(** *** The scan (lines 42 to 167) *)

Definition scalar_value (val_str : string) : value :=
  match py_float val_str with
  | Some val => VFloat val
  | None => VStr val_str
  end.

Definition is_param_block (line : string) : bool :=
  startswith "param " line && contains ":=" line.

Definition colon_before_assign (line : string) : bool :=
  mem_char ":" (before ":=" line).

(** One turn of the scan, at the line [raw] with the lines [rest] after
    it: the number of lines of [rest] that the statement has taken, and
    the document after it. *)
Definition statement (dat_name : string) (raw : string) (rest : list string)
  (doc : Document) : result (nat * Document) :=
  let line := _strip_comments raw in
  if is_empty line then Ok (0, doc)
  else
    match m_scalar line with
    | Some (name, val) => Ok (0, set_params name (scalar_value (strip val)) doc)
    | None =>
        if startswith "set " line then
          let data := collect line rest in
          '(name, elems) <- parse_set dat_name (line :: data) ;;
          Ok (List.length data, set_sets name elems doc)
        else if is_param_block line && negb (colon_before_assign line) then
          let data := collect line rest in
          '(name, mapping) <- parse_param1d line data ;;
          Ok (List.length data, set_params name (VMap mapping) doc)
        else if is_param_block line && colon_before_assign line then
          let data := collect line rest in
          '(name, table) <- parse_table line data ;;
          Ok (List.length data, set_params name (VTable table) doc)
        else Ok (0, doc)
    end.

(** The scan of the lines from the cursor on; [skip] lines are passed
    over first, as part of the block read last. *)
Fixpoint parse_loop (dat_name : string) (skip : nat) (lines : list string)
  (doc : Document) : result Document :=
  match lines with
  | [] => Ok doc
  | raw :: rest =>
      match skip with
      | S k => parse_loop dat_name k rest doc
      | O =>
          match statement dat_name raw rest doc with
          | Ok (k, doc') => parse_loop dat_name k rest doc'
          | Raise e => Raise e
          end
      end
  end.

(** The file read by [parse_dat]: its name and its decoded text. *)
Record Path : Type := { name : string; read_text : string }.

Definition empty_document : Document := {| sets := []; params := [] |}.

Definition parse_dat (dat_path : Path) : result Document :=
  parse_loop (name dat_path) 0 (splitlines (read_text dat_path)) empty_document.

(** ** Reading the rows of a block, in the words of the specification *)

(** The pair that a data line of a 1D block gives: its first two tokens. *)
Definition line_pair (ln : string) : option (string * string) :=
  let ln := _strip_comments ln in
  if is_empty ln then None
  else match data_tokens ln with
       | k :: v :: _ => Some (k, v)
       | _ => None
       end.

(** The value that the data lines give to the key [k]: that of the last
    line whose first token is [k]. *)
Fixpoint last_value (k : string) (data : list string) (acc : option pyfloat)
  : option pyfloat :=
  match data with
  | [] => acc
  | ln :: rest =>
      match line_pair ln with
      | Some (k', v) =>
          if String.eqb k' k then last_value k rest (py_float v)
          else last_value k rest acc
      | None => last_value k rest acc
      end
  end.

(** The row identifier and the value tokens of a data line of a table,
    when the line has a token at all. *)
Definition line_row (ln : string) : option (string * list string) :=
  let ln := _strip_comments ln in
  if is_empty ln then None
  else match data_tokens ln with
       | row :: more => Some (row, more)
       | [] => None
       end.

(** A data line is accepted by a table of [n] columns when the tokens
    after its row identifier, cut to [n], are [n]. *)
Definition row_accepted (n : nat) (ln : string) : bool :=
  match line_row ln with
  | Some (_, more) => Nat.eqb (List.length (firstn n more)) n
  | None => false
  end.

(** A token that the set reader leaves as it is: not empty, free of
    whitespace, of [#] and of [;], and without [:=] inside. *)
Definition plain_char (c : ascii) : bool :=
  negb (isspace c) && negb (Ascii.eqb c "#") && negb (Ascii.eqb c ";").

Fixpoint all_chars (p : ascii -> bool) (s : string) : bool :=
  match s with
  | "" => true
  | String c s' => p c && all_chars p s'
  end.

Definition plain (t : string) : bool :=
  negb (is_empty t) && all_chars plain_char t && negb (contains ":=" t).

(** ** Names for the parts of a statement *)

Definition nonspace (c : ascii) : bool := negb (isspace c).

(** The text is at its end or goes on with a character outside the class. *)
Definition stops (p : ascii -> bool) (t : string) : bool :=
  match t with
  | "" => true
  | String c _ => negb (p c)
  end.

Definition param1d_name (line : string) : string :=
  match split_ws line with
  | _ :: t :: _ => strip (before ":=" t)
  | _ => ""
  end.

(** The name and the columns that the header of a table declares. *)
Definition table_name (line : string) : string :=
  strip (fst (split1 ":" (drop (length "param ") line))).

Definition header_cols (line : string) : list string :=
  match snd (split1 ":" (drop (length "param ") line)) with
  | Some rest => table_cols rest
  | None => []
  end.

(** The tokens that the set reader finds in a text. *)
Definition tok (s : string) : list string :=
  split_ws (replace ";" " ; " (replace ":=" " := " s)).

Definition token_char (c : ascii) : bool :=
  negb (isspace c) && negb (Ascii.eqb c "#").

(** A token as it stands in the file: not empty, without whitespace or [#]. *)
Definition is_token (t : string) : bool :=
  negb (is_empty t) && all_chars token_char t.

(** The text that a match has consumed, group after group. *)
Fixpoint consumed (gs : list string) : string :=
  match gs with
  | [] => ""
  | g :: gs' => g ++ consumed gs'
  end.

(** Each item has read characters of its class: one for an item read
    once, one or more for an item read one or more times. *)
Definition item_read (it : item) (g : string) : Prop :=
  all_chars (cls it) g = true
  /\ match rep it with
     | One => length g = 1
     | Plus => g <> ""
     | Star => True
     end.

(** ** Values that [float] refuses, and the rows that are kept *)

(** The first value, in reading order, that [float] refuses. *)
Fixpoint bad_value (vals : list string) : option string :=
  match vals with
  | [] => None
  | v :: vals' =>
      match py_float v with
      | Some _ => bad_value vals'
      | None => Some v
      end
  end.

Fixpoint first_bad_1d (data : list string) : option string :=
  match data with
  | [] => None
  | ln :: rest =>
      match line_pair ln with
      | Some (_, v) =>
          match py_float v with
          | Some _ => first_bad_1d rest
          | None => Some v
          end
      | None => first_bad_1d rest
      end
  end.

Fixpoint first_bad_table (n : nat) (data : list string) : option string :=
  match data with
  | [] => None
  | ln :: rest =>
      match line_row ln with
      | Some (_, more) =>
          if Nat.eqb (List.length (firstn n more)) n then
            match bad_value (firstn n more) with
            | Some v => Some v
            | None => first_bad_table n rest
            end
          else first_bad_table n rest
      | None => first_bad_table n rest
      end
  end.

(** The first value of a param block that [float] refuses. *)
Definition first_bad (line : string) (data : list string) : option string :=
  if colon_before_assign line
  then first_bad_table (List.length (header_cols line)) data
  else first_bad_1d data.

(** The row that the data lines give to the identifier [r]: that of the
    last accepted line whose first token is [r]. *)
Fixpoint last_row (cols : list string) (r : string) (data : list string)
  (acc : option (dict pyfloat)) : option (dict pyfloat) :=
  match data with
  | [] => acc
  | ln :: rest =>
      match line_row ln with
      | Some (r', more) =>
          if Nat.eqb (List.length (firstn (List.length cols) more)) (List.length cols)
             && String.eqb r' r
          then match row_dict cols (firstn (List.length cols) more) [] with
               | Ok d => last_row cols r rest (Some d)
               | Raise _ => last_row cols r rest acc
               end
          else last_row cols r rest acc
      | None => last_row cols r rest acc
      end
  end.

(** ** Bindings *)

(** What a statement writes: a set or a param under a name. *)
Inductive binding : Type :=
| Bind_set (name : string) (elems : list string)
| Bind_param (name : string) (v : value).

Definition write (b : binding) (doc : Document) : Document :=
  match b with
  | Bind_set n elems => set_sets n elems doc
  | Bind_param n v => set_params n v doc
  end.

(** The name of the binding is declared already, in the mapping of its kind. *)
Definition declared (b : binding) (doc : Document) : Prop :=
  match b with
  | Bind_set n _ => In n (keys (sets doc))
  | Bind_param n _ => In n (keys (params doc))
  end.

(** The binding is the one entry of its name in the mapping of its kind,
    which has the keys of [old] in their order; the other mapping is
    that of [old]. *)
Definition replaces (b : binding) (old new : Document) : Prop :=
  match b with
  | Bind_set n elems =>
      dict_get n (sets new) = Some elems
      /\ (forall x, In (n, x) (sets new) -> x = elems)
      /\ keys (sets new) = keys (sets old)
      /\ params new = params old
  | Bind_param n v =>
      dict_get n (params new) = Some v
      /\ (forall x, In (n, x) (params new) -> x = v)
      /\ keys (params new) = keys (params old)
      /\ sets new = sets old
  end.

Definition well_keyed (doc : Document) : Prop :=
  NoDup (keys (sets doc)) /\ NoDup (keys (params doc)).

(** ** Names and lines, as the reader sees them *)

(** A token free of the semicolon: not empty, without whitespace, [#] or [;]. *)
Definition bare (t : string) : bool := negb (is_empty t) && all_chars plain_char t.

(** The keys that the reader has given to the value of a param: the keys
    of a 1D mapping, the row identifiers of a table. *)
Definition value_keys (v : value) : list string :=
  match v with
  | VMap m => keys m
  | VTable t => keys t
  | VFloat _ | VStr _ => []
  end.

Definition bare_sets (doc : Document) : Prop :=
  forall name elems e, In (name, elems) (sets doc) -> In e elems -> bare e = true.

Definition bare_keys (doc : Document) : Prop :=
  forall name v k, In (name, v) (params doc) -> In k (value_keys v) -> bare k = true.

(** Two lines that the reader cannot tell apart: the same text once the
    comment and the whitespace at the ends are removed, and a semicolon
    in both or in neither. *)
Definition same_line (a b : string) : Prop :=
  _strip_comments a = _strip_comments b /\ mem_char ";" a = mem_char ";" b.

(** ** Sample data *)

Definition nl : string := String "010" "".

Definition file (text : string) : Path := {| name := "case.dat"; read_text := text |}.

Definition table_C : dict (dict pyfloat) :=
  [("H01", [("C1", float_of_Z 10); ("C2", float_of_Z 20)]);
   ("H03", [("C1", float_of_Z 7); ("C2", float_of_Z 8)])].

Definition doc_C10 : Document :=
  {| sets := [("S", ["a"]); ("T", ["t"])];
     params := [("P", VFloat (float_of_Z 1)); ("Q", VStr "label")] |}.

(** ** Concrete runs *)

Example run_scenario_A :
  parse_dat (file "set HORAS := H01 H02 H03 ;")
  = Ok {| sets := [("HORAS", ["H01"; "H02"; "H03"])]; params := [] |}.
Proof. vm_compute. reflexivity. Qed.

Example run_float_literals :
  py_float "0.8" = Some (S754_finite false 7205759403792794 (-53))
  /\ py_float "1_0" = Some (float_of_Z 10)
  /\ py_float "-Infinity" = Some (S754_infinity true)
  /\ py_float "1e400" = Some (S754_infinity false)
  /\ py_float "2.4e-324" = Some (S754_zero false)
  /\ py_float "5e-324" = Some (S754_finite false 1 (-1074))
  /\ py_float "9007199254740993" = Some (S754_finite false 4503599627370496 1)
  /\ py_float "." = None /\ py_float "1e" = None /\ py_float "0x10" = None
  /\ py_float "1__0" = None /\ py_float "1 2" = None.
Proof. repeat split; vm_compute; reflexivity. Qed.

Example run_match_scalar :
  m_scalar "param  H_1  =  a b  ;" = Some ("H_1", "a b  ")
  /\ m_scalar "param  H_1  =   ;" = Some ("H_1", " ")
  /\ m_scalar "param X = a:=b;" = Some ("X", "a:=b")
  /\ m_scalar "param X =;" = None.
Proof. repeat split; vm_compute; reflexivity. Qed.

Example run_text_primitives :
  splitlines ("a" ++ String "013" nl ++ nl ++ "b" ++ nl) = ["a"; ""; "b"]
  /\ split_ws "  set  A:= x ;" = ["set"; "A:="; "x"; ";"]
  /\ strip "  a b  " = "a b"
  /\ replace ":=" " := " "A:=b:=" = "A := b := "
  /\ replace ";" " ; " "a;;b" = "a ;  ; b"
  /\ split1 ":" "a:b:c" = ("a", Some "b:c")
  /\ repr "abc" = "'abc'".
Proof. repeat split; vm_compute; reflexivity. Qed.

(** ** Text lemmas *)

Lemma append_nil_r (s : string) : s ++ "" = s.
Proof. induction s as [|c s IH]; simpl; [reflexivity | now rewrite IH]. Qed.

Lemma append_assoc (a b c : string) : (a ++ b) ++ c = a ++ (b ++ c).
Proof. induction a as [|x a IH]; simpl; [reflexivity | now rewrite IH]. Qed.

Lemma length_append (a b : string) : length (a ++ b) = length a + length b.
Proof. induction a as [|x a IH]; simpl; [reflexivity | now rewrite IH]. Qed.

Lemma mem_char_append (c : ascii) (a b : string) :
  mem_char c (a ++ b) = mem_char c a || mem_char c b.
Proof.
  induction a as [|x a IH]; simpl; [reflexivity|].
  rewrite IH. now rewrite orb_assoc.
Qed.

Lemma all_chars_append (p : ascii -> bool) (a b : string) :
  all_chars p (a ++ b) = all_chars p a && all_chars p b.
Proof.
  induction a as [|x a IH]; simpl; [reflexivity|].
  rewrite IH. now rewrite andb_assoc.
Qed.

Lemma all_chars_not_mem (p : ascii -> bool) (c : ascii) (s : string) :
  all_chars p s = true -> p c = false -> mem_char c s = false.
Proof.
  induction s as [|x s IH]; simpl; [reflexivity|].
  intros H Hc. apply andb_true_iff in H as [Hx Hs].
  rewrite (IH Hs Hc), orb_false_r.
  destruct (Ascii.eqb_spec c x) as [->|]; [congruence | reflexivity].
Qed.

Lemma startswith_append (p s t : string) :
  startswith p s = true -> startswith p (s ++ t) = true.
Proof.
  revert s. induction p as [|a p IH]; intros [|b s]; simpl; try easy.
  intros H. apply andb_true_iff in H as [-> H]. now apply IH.
Qed.

Lemma startswith_length (p s : string) :
  startswith p s = true -> length p <= length s.
Proof.
  revert s. induction p as [|a p IH]; intros [|b s]; simpl; try easy; try lia.
  intros H. apply andb_true_iff in H as [_ H]. apply IH in H. lia.
Qed.

(** An occurrence that starts before a character foreign to the pattern
    ends before it. *)
Lemma startswith_before_foreign (p s t : string) (c : ascii) :
  mem_char c p = false ->
  startswith p (s ++ String c t) = true -> startswith p s = true.
Proof.
  revert s. induction p as [|a p IH]; intros s Hc; [reflexivity|].
  simpl in Hc. apply orb_false_iff in Hc as [Hca Hcp].
  destruct s as [|b s]; simpl.
  - rewrite Ascii.eqb_sym, Hca. discriminate.
  - intros H. apply andb_true_iff in H as [-> H]. now apply IH.
Qed.

Lemma startswith_split (p s : string) :
  startswith p s = true -> s = p ++ drop (length p) s.
Proof.
  revert s. induction p as [|a p IH]; intros [|b s]; simpl; try easy.
  intros H. apply andb_true_iff in H as [Hab H].
  apply Ascii.eqb_eq in Hab as ->. f_equal. now apply IH.
Qed.

Lemma startswith_refl_append (p t : string) : startswith p (p ++ t) = true.
Proof.
  induction p as [|a p IH]; simpl; [reflexivity|].
  now rewrite Ascii.eqb_refl.
Qed.

(** *** [replace] *)

Lemma replace_from_absent (old new s : string) :
  contains old s = false -> replace old new s = s.
Proof.
  unfold replace. induction s as [|c s IH]; [reflexivity|].
  cbn [contains replace_from]. intros H.
  apply orb_false_iff in H as [-> H]. now rewrite IH.
Qed.

(** An occurrence of [old] cannot run over a character that [old] does
    not hold, so [replace] works on the two sides of it separately. *)
Lemma replace_from_foreign (old new a b : string) (c : ascii) (skip : nat) :
  mem_char c old = false -> old <> "" -> skip <= length a ->
  replace_from old new skip (a ++ String c b)
  = replace_from old new skip a ++ String c (replace_from old new 0 b).
Proof.
  intros Hc Hold. revert skip.
  induction a as [|x a IH]; intros skip Hskip.
  - simpl in Hskip. assert (skip = 0) as -> by lia.
    cbn [append replace_from].
    destruct old as [|o old']; [congruence|].
    simpl in Hc. apply orb_false_iff in Hc as [Hco _].
    cbn [startswith]. rewrite Ascii.eqb_sym, Hco. reflexivity.
  - destruct skip as [|k].
    + change (String x a ++ String c b) with (String x (a ++ String c b)).
      cbn [replace_from].
      destruct (startswith old (String x (a ++ String c b))) eqn:E.
      * assert (E' : startswith old (String x a) = true)
          by (apply (startswith_before_foreign old (String x a) b c); assumption).
        rewrite E'. rewrite IH.
        -- now rewrite append_assoc.
        -- apply startswith_length in E'. simpl in E'. lia.
      * destruct (startswith old (String x a)) eqn:E'.
        -- apply (startswith_append _ _ (String c b)) in E'. simpl in E'. congruence.
        -- rewrite IH by lia. reflexivity.
    + cbn [append replace_from]. apply IH. simpl in Hskip. lia.
Qed.

Lemma replace_foreign (old new a b : string) (c : ascii) :
  mem_char c old = false -> old <> "" ->
  replace old new (a ++ String c b)
  = replace old new a ++ String c (replace old new b).
Proof. intros. unfold replace. apply replace_from_foreign; auto. lia. Qed.

Lemma mem_char_replace_from (old new s : string) (c : ascii) (skip : nat) :
  mem_char c (replace_from old new skip s) = true ->
  mem_char c s = true \/ mem_char c new = true.
Proof.
  revert skip. induction s as [|x s IH]; intros skip; [simpl; discriminate|].
  destruct skip as [|k]; cbn [replace_from].
  - destruct (startswith old (String x s)).
    + rewrite mem_char_append. intros H. apply orb_true_iff in H as [H|H]; [now right|].
      apply IH in H as [H|H]; [left; simpl; rewrite H; apply orb_true_r | now right].
    + simpl. intros H. apply orb_true_iff in H as [H|H].
      * left. now rewrite H.
      * apply IH in H as [H|H]; [left; rewrite H; apply orb_true_r | now right].
  - intros H. apply IH in H as [H|H]; [left; simpl; rewrite H; apply orb_true_r | now right].
Qed.

(** *** [split] on whitespace *)

Lemma split_ws_head (c : ascii) (s : string) :
  isspace c = false -> split_ws (String c s) <> [].
Proof.
  intros Hc. cbn [split_ws]. rewrite Hc.
  destruct s as [|d s']; [discriminate|].
  destruct (isspace d); [discriminate|].
  destruct (split_ws (String d s')); discriminate.
Qed.

Lemma split_ws_append_space (a b : string) (sp : ascii) :
  isspace sp = true ->
  split_ws (a ++ String sp b) = (split_ws a ++ split_ws b)%list.
Proof.
  intros Hsp. induction a as [|c a IH].
  - cbn [append split_ws]. now rewrite Hsp.
  - change (String c a ++ String sp b) with (String c (a ++ String sp b)).
    cbn [split_ws]. destruct (isspace c) eqn:Hc; [exact IH|].
    destruct a as [|d a'].
    + cbn [append split_ws]. rewrite Hsp. reflexivity.
    + change (String d a' ++ String sp b) with (String d (a' ++ String sp b)) in *.
      destruct (isspace d) eqn:Hd.
      * rewrite Hd, IH. reflexivity.
      * rewrite Hd, IH. pose proof (split_ws_head d a' Hd) as Hne.
        destruct (split_ws (String d a')) as [|w ws]; [congruence | reflexivity].
Qed.

Lemma split_ws_word (t : string) :
  t <> "" -> all_chars nonspace t = true -> split_ws t = [t].
Proof.
  induction t as [|c t IH]; [congruence|]. intros _ H.
  cbn [all_chars] in H. apply andb_true_iff in H as [Hc Ht].
  unfold nonspace in Hc. apply negb_true_iff in Hc.
  cbn [split_ws]. rewrite Hc.
  destruct t as [|d t']; [reflexivity|].
  pose proof Ht as Ht'. cbn [all_chars] in Ht'. apply andb_true_iff in Ht' as [Hd _].
  unfold nonspace in Hd. apply negb_true_iff in Hd. rewrite Hd.
  rewrite IH by (congruence || assumption). reflexivity.
Qed.

Lemma split_ws_all_space (w : string) :
  all_chars isspace w = true -> split_ws w = [].
Proof.
  induction w as [|c w IH]; [reflexivity|].
  cbn [all_chars split_ws]. intros H. apply andb_true_iff in H as [-> H]. auto.
Qed.

(** The tokens hold no whitespace, are not empty, and are made of
    characters of the text. *)
Lemma split_ws_tokens (s t : string) :
  In t (split_ws s) ->
  t <> "" /\ all_chars nonspace t = true
  /\ forall c, mem_char c t = true -> mem_char c s = true.
Proof.
  revert t. induction s as [|c s IH]; intros t; [contradiction|].
  cbn [split_ws]. destruct (isspace c) eqn:Hc.
  - intros H. destruct (IH t H) as (H1 & H2 & H3). repeat split; auto.
    intros x Hx. simpl. rewrite (H3 x Hx). apply orb_true_r.
  - assert (Hone : t = String c "" ->
        t <> "" /\ all_chars nonspace t = true
        /\ forall x, mem_char x t = true -> mem_char x (String c s) = true).
    { intros ->. repeat split; [discriminate| |].
      - simpl. unfold nonspace. now rewrite Hc.
      - intros x. simpl. rewrite orb_false_r. intros ->. reflexivity. }
    assert (Hin : In t (split_ws s) ->
        t <> "" /\ all_chars nonspace t = true
        /\ forall x, mem_char x t = true -> mem_char x (String c s) = true).
    { intros H. destruct (IH t H) as (H1 & H2 & H3). repeat split; auto.
      intros x Hx. simpl. rewrite (H3 x Hx). apply orb_true_r. }
    destruct s as [|d s']; [intros [<-|[]]; auto|].
    destruct (isspace d) eqn:Hd; [intros [<-|H]; auto|].
    destruct (split_ws (String d s')) as [|w ws] eqn:E; [intros [<-|[]]; auto|].
    intros [<-|H].
    + destruct (IH w (or_introl eq_refl)) as (H1 & H2 & H3).
      repeat split; [discriminate| |].
      * simpl. unfold nonspace at 1. rewrite Hc. exact H2.
      * intros x Hx. cbn [mem_char] in Hx.
        change (Ascii.eqb x c || mem_char x (String d s') = true).
        apply orb_true_iff in Hx as [->|Hx]; [reflexivity|].
        rewrite (H3 x Hx). apply orb_true_r.
    + apply Hin. now right.
Qed.

(** *** [strip] *)

Lemma rstrip_with_all (sp : ascii -> bool) (s : string) :
  all_chars sp (rstrip_with sp s) = is_empty (rstrip_with sp s).
Proof.
  induction s as [|c s IH]; [reflexivity|].
  cbn [rstrip_with].
  destruct (sp c && is_empty (rstrip_with sp s)) eqn:E; [reflexivity|].
  cbn [all_chars is_empty]. rewrite IH. exact E.
Qed.

Lemma rstrip_with_empty (sp : ascii -> bool) (s : string) :
  is_empty (rstrip_with sp s) = all_chars sp s.
Proof.
  induction s as [|c s IH]; [reflexivity|].
  cbn [rstrip_with all_chars]. rewrite <- IH.
  destruct (sp c && is_empty (rstrip_with sp s)); reflexivity.
Qed.

(** What follows a whitespace character in a stripped text is not all
    whitespace. *)
Lemma rstrip_with_tail (sp : ascii -> bool) (y a b : string) (c : ascii) :
  rstrip_with sp y = a ++ String c b -> sp c = true -> all_chars sp b = false.
Proof.
  revert y. induction a as [|x a IH]; intros y; destruct y as [|z y]; try discriminate.
  - cbn [rstrip_with append].
    destruct (sp z && is_empty (rstrip_with sp y)) eqn:E; [discriminate|].
    intros [= -> <-] Hc. rewrite Hc in E. simpl in E.
    now rewrite rstrip_with_all.
  - cbn [rstrip_with append].
    destruct (sp z && is_empty (rstrip_with sp y)); [discriminate|].
    intros [= -> H]. now apply IH with (y := y).
Qed.

Lemma rstrip_with_fixed (sp : ascii -> bool) (a : string) (z : ascii) :
  sp z = false -> rstrip_with sp (a ++ String z "") = a ++ String z "".
Proof.
  intros Hz. induction a as [|x a IH].
  - cbn. now rewrite Hz.
  - cbn [append rstrip_with]. rewrite IH.
    destruct (a ++ String z "") eqn:E; [destruct a; discriminate|].
    now rewrite andb_false_r.
Qed.

Lemma lstrip_with_space (sp : ascii -> bool) (w r : string) :
  all_chars sp w = true -> lstrip_with sp (w ++ r) = lstrip_with sp r.
Proof.
  induction w as [|c w IH]; [reflexivity|].
  cbn [all_chars append lstrip_with]. intros H.
  apply andb_true_iff in H as [-> H]. auto.
Qed.

Lemma strip_with_space (sp : ascii -> bool) (w r : string) :
  all_chars sp w = true -> strip_with sp (w ++ r) = strip_with sp r.
Proof. intros H. unfold strip_with. now rewrite lstrip_with_space. Qed.

Lemma strip_all_space (w : string) :
  all_chars isspace w = true -> strip w = "".
Proof.
  intros H. unfold strip, strip_with.
  assert (E : lstrip_with isspace w = "").
  { induction w as [|c w IH]; [reflexivity|].
    cbn [all_chars lstrip_with] in *. apply andb_true_iff in H as [-> H]. auto. }
  now rewrite E.
Qed.

Lemma mem_char_lstrip (sp : ascii -> bool) (c : ascii) (s : string) :
  mem_char c (lstrip_with sp s) = true -> mem_char c s = true.
Proof.
  induction s as [|x s IH]; [easy|]. cbn [lstrip_with].
  destruct (sp x); [|easy]. intros H. simpl. rewrite (IH H). apply orb_true_r.
Qed.

Lemma mem_char_rstrip (sp : ascii -> bool) (c : ascii) (s : string) :
  mem_char c (rstrip_with sp s) = true -> mem_char c s = true.
Proof.
  induction s as [|x s IH]; [easy|]. cbn [rstrip_with].
  destruct (sp x && is_empty (rstrip_with sp s)); [easy|].
  simpl. intros H. apply orb_true_iff in H as [->|H]; [reflexivity|].
  rewrite (IH H). apply orb_true_r.
Qed.

Lemma mem_char_before (sep s : string) (c : ascii) :
  mem_char c (before sep s) = true -> mem_char c s = true.
Proof.
  unfold before. induction s as [|x s IH]; cbn [split1].
  - destruct (startswith sep ""); easy.
  - destruct (startswith sep (String x s)); [easy|].
    destruct (split1 sep s) as [b a]. simpl in *.
    intros H. apply orb_true_iff in H as [->|H]; [reflexivity|].
    rewrite (IH H). apply orb_true_r.
Qed.

Lemma mem_char_strip_comments (c : ascii) (s : string) :
  mem_char c (_strip_comments s) = true -> mem_char c s = true.
Proof.
  unfold _strip_comments, strip, strip_with. intros H.
  apply mem_char_rstrip, mem_char_lstrip, mem_char_before in H. exact H.
Qed.

Lemma rstrip_with_idem (sp : ascii -> bool) (s : string) :
  rstrip_with sp (rstrip_with sp s) = rstrip_with sp s.
Proof.
  induction s as [|c s IH]; [reflexivity|].
  cbn [rstrip_with].
  destruct (sp c && is_empty (rstrip_with sp s)) eqn:E; [reflexivity|].
  cbn [rstrip_with]. rewrite IH, E. reflexivity.
Qed.

Lemma lstrip_with_rstrip (sp : ascii -> bool) (s : string) :
  lstrip_with sp (rstrip_with sp (lstrip_with sp s)) = rstrip_with sp (lstrip_with sp s).
Proof.
  induction s as [|c s IH]; [reflexivity|].
  cbn [lstrip_with]. destruct (sp c) eqn:Hc; [exact IH|].
  cbn [rstrip_with]. rewrite Hc. cbn [andb lstrip_with]. now rewrite Hc.
Qed.

Lemma strip_with_idem (sp : ascii -> bool) (s : string) :
  strip_with sp (strip_with sp s) = strip_with sp s.
Proof.
  unfold strip_with. now rewrite lstrip_with_rstrip, rstrip_with_idem.
Qed.

Lemma split1_absent (c : ascii) (s : string) :
  mem_char c s = false -> split1 (String c "") s = (s, None).
Proof.
  induction s as [|x s IH]; [reflexivity|].
  cbn [mem_char split1 startswith]. intros H.
  apply orb_false_iff in H as [Hx Hs]. rewrite Hx. cbn [andb].
  now rewrite IH.
Qed.

Lemma split1_present (c : ascii) (s : string) :
  mem_char c s = true -> exists b a, split1 (String c "") s = (b, Some a).
Proof.
  induction s as [|x s IH]; [discriminate|].
  cbn [mem_char split1 startswith]. intros H.
  destruct (Ascii.eqb c x) eqn:Hx; cbn [andb orb] in *.
  - destruct s; eauto.
  - destruct (IH H) as (b & a & ->). eauto.
Qed.

Lemma strip_comments_idem (s : string) :
  _strip_comments (_strip_comments s) = _strip_comments s.
Proof.
  unfold _strip_comments at 1.
  assert (H : mem_char "#" (_strip_comments s) = false).
  { destruct (mem_char "#" (_strip_comments s)) eqn:E; [|reflexivity].
    unfold _strip_comments, strip, strip_with in E.
    apply mem_char_rstrip, mem_char_lstrip in E.
    unfold before in E. exfalso. clear -E.
    induction s as [|x s IH]; [discriminate|].
    cbn [split1 startswith] in E. destruct (Ascii.eqb "#" x) eqn:Hx; cbn [andb] in E.
    - destruct s; discriminate.
    - destruct (split1 "#" s) as [b a]. cbn [fst mem_char] in E, IH.
      rewrite Hx in E. auto. }
  unfold before. rewrite split1_absent by exact H. cbn [fst].
  unfold _strip_comments, strip. apply strip_with_idem.
Qed.

Lemma strip_comments_plain (s : string) :
  mem_char "#" s = false -> strip s = s -> _strip_comments s = s.
Proof.
  intros H E. unfold _strip_comments, before. now rewrite split1_absent.
Qed.

(** A stripped line that starts with a keyword and a space holds more
    than whitespace after them. *)
Lemma stripped_after_keyword (x kw : string) :
  startswith (kw ++ " ") (strip x) = true ->
  exists r, strip x = kw ++ String " " r /\ all_chars isspace r = false.
Proof.
  intros H. pose proof (startswith_split _ _ H) as E.
  rewrite append_assoc in E. cbn [append] in E.
  eexists. split; [exact E|].
  unfold strip, strip_with in E.
  eapply rstrip_with_tail; [exact E | reflexivity].
Qed.

Lemma split_ws_nil (s : string) :
  split_ws s = [] -> all_chars isspace s = true.
Proof.
  induction s as [|c s IH]; [reflexivity|].
  destruct (isspace c) eqn:Hc.
  - cbn [split_ws all_chars]. rewrite Hc. exact IH.
  - intros H. now apply split_ws_head in H.
Qed.

Lemma all_space_replace_from (old new s : string) (skip : nat) :
  all_chars isspace new = false ->
  all_chars isspace (replace_from old new skip s) = true ->
  all_chars isspace (drop skip s) = true.
Proof.
  intros Hnew. revert skip. induction s as [|x s IH]; intros skip.
  - destruct skip; reflexivity.
  - destruct skip as [|k]; cbn [replace_from drop].
    + destruct (startswith old (String x s)).
      * rewrite all_chars_append, Hnew. discriminate.
      * cbn [all_chars]. intros H. apply andb_true_iff in H as [-> H].
        apply (IH 0) in H. destruct s; exact H.
    + apply IH.
Qed.

Lemma all_space_replace (old new s : string) :
  all_chars isspace new = false ->
  all_chars isspace s = false ->
  all_chars isspace (replace old new s) = false.
Proof.
  intros Hnew Hs. destruct (all_chars isspace (replace old new s)) eqn:E; [|reflexivity].
  apply all_space_replace_from in E; [|exact Hnew].
  cbn [drop] in E. congruence.
Qed.

(** *** Dictionaries *)

Section Dict.
Context {V : Type}.
Implicit Types (d : dict V) (k : string) (v : V).

Lemma dict_get_set_eq d k v : dict_get k (dict_set k v d) = Some v.
Proof.
  induction d as [|[k' v'] d IH]; simpl.
  - now rewrite String.eqb_refl.
  - destruct (String.eqb k' k) eqn:E; simpl; rewrite E; auto.
Qed.

Lemma dict_get_set_neq d k k' v :
  k <> k' -> dict_get k' (dict_set k v d) = dict_get k' d.
Proof.
  intros N. induction d as [|[k0 v0] d IH]; simpl.
  - apply String.eqb_neq in N. now rewrite N.
  - destruct (String.eqb k0 k) eqn:E; simpl.
    + apply String.eqb_eq in E as ->.
      apply String.eqb_neq in N. now rewrite N.
    + destruct (String.eqb k0 k'); auto.
Qed.

Lemma dict_get_keys d k : dict_get k d <> None <-> In k (keys d).
Proof.
  induction d as [|[k0 v0] d IH]; simpl; [tauto|].
  destruct (String.eqb_spec k0 k) as [->|N].
  - split; [now left | discriminate].
  - rewrite IH. split; [now right | intros [?|?]; [congruence | assumption]].
Qed.

Lemma keys_set_present d k v :
  In k (keys d) -> keys (dict_set k v d) = keys d.
Proof.
  induction d as [|[k0 v0] d IH]; simpl; [contradiction|].
  destruct (String.eqb_spec k0 k) as [->|N]; simpl; [reflexivity|].
  intros [?|H]; [congruence|]. now rewrite IH.
Qed.

Lemma keys_set_absent d k v :
  ~ In k (keys d) -> keys (dict_set k v d) = (keys d ++ [k])%list.
Proof.
  induction d as [|[k0 v0] d IH]; simpl; [reflexivity|].
  destruct (String.eqb_spec k0 k) as [->|N]; simpl; [tauto|].
  intros H. rewrite IH; tauto.
Qed.

Lemma keys_set_in d k k' v :
  In k' (keys (dict_set k v d)) <-> k' = k \/ In k' (keys d).
Proof.
  rewrite <- !dict_get_keys.
  destruct (String.eqb_spec k k') as [->|N].
  - rewrite dict_get_set_eq. split; [now left | discriminate].
  - rewrite dict_get_set_neq by assumption. split; [now right|].
    intros [?|?]; [congruence | assumption].
Qed.

Lemma NoDup_keys_set d k v :
  NoDup (keys d) -> NoDup (keys (dict_set k v d)).
Proof.
  intros H. destruct (in_dec string_dec k (keys d)) as [I|I].
  - now rewrite keys_set_present.
  - rewrite keys_set_absent by assumption.
    apply NoDup_app; [assumption | repeat constructor; intros [] |].
    intros x Hx [<-|[]]. contradiction.
Qed.

(** Under a key there is one entry, the one written last. *)
Lemma dict_set_entry d k v x :
  NoDup (keys d) -> In (k, x) (dict_set k v d) -> x = v.
Proof.
  induction d as [|[k0 v0] d IH]; simpl.
  - intros _ [[= ->]|[]]. reflexivity.
  - intros N. inversion N as [|? ? Hk0 Hd]; subst.
    destruct (String.eqb_spec k0 k) as [->|Ne].
    + intros [[= ->]|H]; [reflexivity|].
      exfalso. apply Hk0. change k with (fst (k, x)). now apply in_map.
    + intros [[= ? ?]|H]; [congruence|]. now apply IH.
Qed.
End Dict.

(** *** Blocks and the scan *)

Lemma collect_closed (last : string) (rest : list string) :
  mem_char ";" last = true -> collect last rest = [].
Proof. intros H. destruct rest; simpl; now rewrite H. Qed.

Lemma collect_open (last l : string) (rest : list string) :
  mem_char ";" last = false -> collect last (l :: rest) = l :: collect l rest.
Proof. intros H. simpl. now rewrite H. Qed.

(** The block is a prefix of the lines that follow its first line. *)
Lemma collect_prefix (last : string) (rest : list string) :
  rest = (collect last rest ++ skipn (List.length (collect last rest)) rest)%list.
Proof.
  revert last. induction rest as [|l rest IH]; intros last.
  - simpl. destruct (mem_char ";" last); reflexivity.
  - simpl. destruct (mem_char ";" last); [reflexivity|].
    simpl. f_equal. apply IH.
Qed.

(** A block runs up to the first line with a semicolon. *)
Lemma collect_until (last dl : string) (d1 rest : list string) :
  mem_char ";" last = false ->
  Forall (fun l => mem_char ";" l = false) d1 ->
  mem_char ";" dl = true ->
  collect last (d1 ++ dl :: rest)%list = (d1 ++ [dl])%list.
Proof.
  intros Hl Hd Hdl. revert last Hl.
  induction Hd as [|l d1 Hl' Hd IH]; intros last Hl.
  - cbn [app]. rewrite collect_open by assumption. now rewrite collect_closed.
  - cbn [app]. rewrite collect_open by assumption. f_equal. now apply IH.
Qed.

(** Without a semicolon a block runs to the end of the file. *)
Lemma collect_to_end (last : string) (rest : list string) :
  mem_char ";" last = false ->
  Forall (fun l => mem_char ";" l = false) rest ->
  collect last rest = rest.
Proof.
  intros Hl Hd. revert last Hl.
  induction Hd as [|l d1 Hl' Hd IH]; intros last Hl.
  - simpl. now rewrite Hl.
  - rewrite collect_open by assumption. f_equal. now apply IH.
Qed.

Lemma parse_loop_skip (dat_name : string) (block rest : list string) (doc : Document) :
  parse_loop dat_name (List.length block) (block ++ rest)%list doc
  = parse_loop dat_name 0 rest doc.
Proof.
  induction block as [|l block IH]; [destruct rest; reflexivity|].
  exact IH.
Qed.

Lemma parse_loop_skip_end (dat_name : string) (block : list string) (doc : Document) :
  parse_loop dat_name (List.length block) block doc = Ok doc.
Proof.
  rewrite <- (app_nil_r block) at 2. now rewrite parse_loop_skip.
Qed.

(** After a turn the scan resumes behind the lines that the turn took. *)
Lemma parse_loop_turn (dat_name raw : string) (data rest : list string)
  (doc doc' : Document) :
  statement dat_name raw (data ++ rest)%list doc = Ok (List.length data, doc') ->
  parse_loop dat_name 0 (raw :: data ++ rest)%list doc
  = parse_loop dat_name 0 rest doc'.
Proof.
  intros H. cbn [parse_loop]. rewrite H. apply parse_loop_skip.
Qed.

(** *** Classification of a line *)

Lemma startswith_nonempty (p s : string) :
  p <> "" -> startswith p s = true -> is_empty s = false.
Proof. destruct p; [congruence|]. destruct s; [discriminate | reflexivity]. Qed.

(** The pattern of a scalar statement asks for a first letter p. *)
Lemma m_scalar_first (c : ascii) (s : string) :
  Ascii.eqb "p" c = false -> m_scalar (String c s) = None.
Proof.
  intros H. unfold m_scalar, scalar_re. cbn [app re_match rep lit cls]. now rewrite H.
Qed.

Lemma m_scalar_set (line : string) :
  startswith "set " line = true -> m_scalar line = None.
Proof.
  destruct line as [|c s]; [discriminate|]. cbn [startswith]. intros H.
  apply andb_true_iff in H as [H _]. apply Ascii.eqb_eq in H as <-.
  now apply m_scalar_first.
Qed.

(** The tokens of a block that opens with a keyword and a space: the
    keyword, then one token at least. *)
Lemma keyword_tokens (kw r : string) :
  kw <> "" -> all_chars nonspace kw = true -> all_chars isspace r = false ->
  exists t ts, split_ws (kw ++ String " " r) = kw :: t :: ts.
Proof.
  intros Hne Hkw Hr.
  rewrite split_ws_append_space by reflexivity.
  rewrite split_ws_word by assumption.
  destruct (split_ws r) as [|t ts] eqn:E.
  - apply split_ws_nil in E. congruence.
  - now exists t, ts.
Qed.

Lemma join_cons (sep x : string) (l : list string) :
  exists tail, join sep (x :: l) = x ++ tail.
Proof.
  destruct l as [|y l]; cbn [join String.concat].
  - exists "". now rewrite append_nil_r.
  - eexists. reflexivity.
Qed.

Lemma all_space_append_l (a b : string) :
  all_chars isspace a = false -> all_chars isspace (a ++ b) = false.
Proof. intros H. now rewrite all_chars_append, H. Qed.

Lemma set_tokens_head (raw : string) (data : list string) :
  startswith "set " (_strip_comments raw) = true ->
  exists t ts, set_tokens (_strip_comments raw :: data) = "set" :: t :: ts.
Proof.
  intros H. unfold set_tokens, set_joined. cbn [map].
  rewrite strip_comments_idem.
  destruct (join_cons " " (_strip_comments raw) (map _strip_comments data)) as [tail ->].
  destruct (stripped_after_keyword (before "#" raw) "set" H) as (r & E & Hr).
  fold (_strip_comments raw) in E. rewrite E.
  rewrite append_assoc. cbn [append].
  change (String "s" (String "e" (String "t" (String " " (r ++ tail)))))
    with ("set" ++ String " " (r ++ tail)).
  rewrite (replace_foreign ":=" " := " "set" (r ++ tail) " ") by (reflexivity || discriminate).
  change (replace ":=" " := " "set") with "set".
  rewrite (replace_foreign ";" " ; " "set" _ " ") by (reflexivity || discriminate).
  change (replace ";" " ; " "set") with "set".
  apply keyword_tokens; [discriminate | reflexivity |].
  apply all_space_replace; [reflexivity|].
  apply all_space_replace; [reflexivity|].
  now apply all_space_append_l.
Qed.

(** The turn of the scan at a line that opens a set block. *)
Lemma statement_set (dat_name raw : string) (rest : list string) (doc : Document) :
  startswith "set " (_strip_comments raw) = true ->
  statement dat_name raw rest doc
  = ('(name, elems) <-
       parse_set dat_name (_strip_comments raw :: collect (_strip_comments raw) rest) ;;
     Ok (List.length (collect (_strip_comments raw) rest), set_sets name elems doc)).
Proof.
  intros H. unfold statement.
  rewrite (startswith_nonempty "set " _) by (discriminate || assumption).
  rewrite m_scalar_set by assumption. now rewrite H.
Qed.

Lemma mem_str_index (x : string) (l : list string) :
  mem_str x l = true -> exists i, index_of x l = Some i.
Proof.
  unfold mem_str. induction l as [|y l IH]; [discriminate|].
  cbn [existsb index_of]. rewrite String.eqb_sym.
  destruct (String.eqb y x); [intros _; now exists 0|].
  cbn [orb]. intros H. destruct (IH H) as [i ->]. now exists (S i).
Qed.

Lemma index_of_none (x : string) (l : list string) :
  ~ In x l -> index_of x l = None.
Proof.
  induction l as [|y l IH]; [reflexivity|]. cbn [index_of In]. intros H.
  destruct (String.eqb_spec y x); [tauto|]. rewrite IH; tauto.
Qed.

Lemma mem_char_join (c : ascii) (sep : string) (l : list string) :
  mem_char c (join sep l) = true ->
  mem_char c sep = true \/ exists x, In x l /\ mem_char c x = true.
Proof.
  induction l as [|x l IH]; [discriminate|].
  destruct l as [|y l].
  - cbn [join String.concat]. intros H. right. exists x. split; [now left | exact H].
  - change (join sep (x :: y :: l)) with (x ++ sep ++ join sep (y :: l)).
    rewrite !mem_char_append. intros H.
    apply orb_true_iff in H as [H|H]; [right; exists x; split; [now left | exact H]|].
    apply orb_true_iff in H as [H|H]; [now left|].
    destruct (IH H) as [H'|(z & Hz & Hc)]; [now left|].
    right. exists z. split; [now right | exact Hc].
Qed.

(** A block whose lines hold no semicolon has no semicolon token. *)
Lemma set_tokens_no_semicolon (block : list string) :
  Forall (fun l => mem_char ";" l = false) block ->
  ~ In ";" (set_tokens block).
Proof.
  intros Hb Hin. unfold set_tokens in Hin.
  apply split_ws_tokens in Hin as (_ & _ & Hc).
  specialize (Hc ";"%char eq_refl).
  rewrite replace_from_absent in Hc.
  - unfold set_joined in Hc. apply mem_char_replace_from in Hc as [Hc|Hc]; [|discriminate].
    apply mem_char_join in Hc as [Hc|(x & Hx & Hc)]; [discriminate|].
    apply in_map_iff in Hx as (l & <- & Hl).
    apply mem_char_strip_comments in Hc.
    rewrite Forall_forall in Hb. rewrite (Hb l Hl) in Hc. discriminate.
  - destruct (contains ";" (set_joined block)) eqn:E; [|reflexivity].
    exfalso.
    assert (Hm : mem_char ";" (set_joined block) = true).
    { clear -E. induction (set_joined block) as [|x s IH]; [discriminate|].
      cbn [contains startswith] in E. cbn [mem_char].
      destruct (Ascii.eqb ";" x); [reflexivity|]. cbn [andb orb] in *. auto. }
    unfold set_joined in Hm. apply mem_char_replace_from in Hm as [Hm|Hm]; [|discriminate].
    apply mem_char_join in Hm as [Hm|(x & Hx & Hm)]; [discriminate|].
    apply in_map_iff in Hx as (l & <- & Hl).
    apply mem_char_strip_comments in Hm.
    rewrite Forall_forall in Hb. rewrite (Hb l Hl) in Hm. discriminate.
Qed.

Lemma contains_append_r (p a b : string) : contains p (a ++ p ++ b) = true.
Proof.
  induction a as [|x a IH].
  - cbn [append]. destruct (p ++ b) eqn:E; cbn [contains]; rewrite <- E;
      now rewrite startswith_refl_append.
  - cbn [append contains]. now rewrite IH, orb_true_r.
Qed.

(** ** Set blocks without their delimiters *)

(** C3. When the scan arrives at a line that opens a set block (the
    line, without its comment, starts with [set ]) and the tokens of the
    block, accumulated up to the line that holds the semicolon, have no
    [:=] among them, the parse raises the error of a malformed set block
    whatever was read before: its text names the file and quotes the
    joined text of the block, and no document is returned. *)
Theorem C3_set_block_without_assign_is_malformed :
  forall (dat_name raw : string) (rest : list string) (doc : Document),
    startswith "set " (_strip_comments raw) = true ->
    mem_str ":=" (set_tokens (_strip_comments raw :: collect (_strip_comments raw) rest))
    = false ->
    let joined := set_joined (_strip_comments raw :: collect (_strip_comments raw) rest) in
    let msg := "Malformed set block in " ++ dat_name ++ ": " ++ joined in
    parse_loop dat_name 0 (raw :: rest) doc = Raise (ValueError_malformed msg)
    /\ contains dat_name msg = true
    /\ contains joined msg = true.
Proof.
  intros dat_name raw rest doc Hset Hno joined msg.
  split; [|split].
  - cbn [parse_loop]. rewrite statement_set by assumption.
    unfold parse_set. fold joined.
    destruct (set_tokens_head raw (collect (_strip_comments raw) rest) Hset)
      as (t & ts & E).
    unfold set_tokens in E, Hno. fold joined in E, Hno.
    rewrite E in *. cbn [nth_error]. rewrite Hno. reflexivity.
  - unfold msg. apply contains_append_r.
  - replace msg with (("Malformed set block in " ++ dat_name ++ ": ") ++ joined ++ "").
    + apply contains_append_r.
    + unfold msg. now rewrite append_nil_r, !append_assoc.
Qed.

Lemma C3_witness :
  startswith "set " (_strip_comments "set BAD H1 H2 ;") = true
  /\ parse_dat (file "set BAD H1 H2 ;")
     = Raise (ValueError_malformed "Malformed set block in case.dat: set BAD H1 H2 ;").
Proof.
  split; [reflexivity|].
  exact (proj1 (C3_set_block_without_assign_is_malformed
                  "case.dat" "set BAD H1 H2 ;" [] empty_document eq_refl eq_refl)).
Defined.

(** C9. When the scan arrives at a line that opens a set block (the
    line, without its comment, starts with [set ]) and neither that line
    nor any later line of the file holds a semicolon, the accumulation of
    the block stops at the end of the input without an error, with every
    line taken, and the parse then raises whatever was read before: the
    error of the search for the semicolon token, or, when the block has
    no [:=] token either, the error of a malformed block, which is
    tested first. No document is returned. *)
Theorem C9_set_block_without_semicolon_raises :
  forall (dat_name raw : string) (rest : list string) (doc : Document),
    startswith "set " (_strip_comments raw) = true ->
    mem_char ";" raw = false ->
    Forall (fun l => mem_char ";" l = false) rest ->
    collect (_strip_comments raw) rest = rest
    /\ parse_loop dat_name 0 (raw :: rest) doc
       = Raise (if mem_str ":=" (set_tokens (_strip_comments raw :: rest))
                then ValueError_index ";"
                else ValueError_malformed
                       ("Malformed set block in " ++ dat_name ++ ": "
                        ++ set_joined (_strip_comments raw :: rest))).
Proof.
  intros dat_name raw rest doc Hset Hraw Hrest.
  assert (Hline : mem_char ";" (_strip_comments raw) = false).
  { destruct (mem_char ";" (_strip_comments raw)) eqn:E; [|reflexivity].
    apply mem_char_strip_comments in E. congruence. }
  assert (Hcol : collect (_strip_comments raw) rest = rest)
    by (apply collect_to_end; assumption).
  split; [exact Hcol|].
  cbn [parse_loop]. rewrite statement_set by assumption. rewrite Hcol.
  unfold parse_set.
  destruct (set_tokens_head raw rest Hset) as (t & ts & E).
  pose proof (set_tokens_no_semicolon (_strip_comments raw :: rest)) as Hsemi.
  unfold set_tokens in E, Hsemi |- *.
  set (tokens := split_ws (replace ";" " ; " (set_joined (_strip_comments raw :: rest)))) in *.
  rewrite E. cbn [nth_error]. rewrite <- E.
  destruct (mem_str ":=" tokens) eqn:Hm; cbn [negb bind]; [|reflexivity].
  destruct (mem_str_index _ _ Hm) as [i ->].
  rewrite index_of_none; [reflexivity|].
  apply Hsemi. constructor; assumption.
Qed.

Lemma C9_witness :
  startswith "set " (_strip_comments "set A := b") = true
  /\ parse_dat (file ("set A := b" ++ nl ++ "c")) = Raise (ValueError_index ";")
  /\ parse_dat (file ("set A b" ++ nl ++ "c"))
     = Raise (ValueError_malformed "Malformed set block in case.dat: set A b c").
Proof.
  split; [reflexivity|]. split.
  - refine (proj2 (C9_set_block_without_semicolon_raises
                     "case.dat" "set A := b" ["c"] empty_document _ _ _));
      [reflexivity | reflexivity | repeat constructor].
  - refine (proj2 (C9_set_block_without_semicolon_raises
                     "case.dat" "set A b" ["c"] empty_document _ _ _));
      [reflexivity | reflexivity | repeat constructor].
Defined.

(** A line that starts with [set ] inside a param block opened earlier is
    not reached as a statement: it is a data line of that block. *)
Example run_set_line_inside_block :
  parse_dat (file ("param P :=" ++ nl ++ "set 5"))
  = Ok {| sets := []; params := [("P", VMap [("set", float_of_Z 5)])] |}.
Proof. vm_compute. reflexivity. Qed.

(** The claim as it is written, for every file that holds such a line,
    fails where the line stands inside a param block that is not closed:
    it is then a data line of that block. In both files below no line
    holds a semicolon and the last line starts with [set ]; the parse
    returns a document, with the pair read from that line in the first
    file, and with an empty table in the second, where the line is a row
    short of values. *)
Lemma C9_counterexample :
  (In "set 5" (splitlines ("param P :=" ++ nl ++ "set 5"))
   /\ startswith "set " "set 5" = true
   /\ mem_char ";" ("param P :=" ++ nl ++ "set 5") = false
   /\ parse_dat (file ("param P :=" ++ nl ++ "set 5"))
      = Ok {| sets := []; params := [("P", VMap [("set", float_of_Z 5)])] |})
  /\ (In "set S := a b"
         (splitlines ("param T: C1 C2 C3 C4 C5 C6 :=" ++ nl ++ "set S := a b"))
      /\ startswith "set " "set S := a b" = true
      /\ mem_char ";" ("param T: C1 C2 C3 C4 C5 C6 :=" ++ nl ++ "set S := a b") = false
      /\ parse_dat (file ("param T: C1 C2 C3 C4 C5 C6 :=" ++ nl ++ "set S := a b"))
         = Ok {| sets := []; params := [("T", VTable [])] |}).
Proof.
  split; (split; [right; left; reflexivity|]); repeat split; vm_compute; reflexivity.
Qed.

(** ** Param blocks *)

Lemma param_not_set (line : string) :
  startswith "param " line = true -> startswith "set " line = false.
Proof.
  destruct line as [|c s]; [discriminate|]. cbn [startswith]. intros H.
  apply andb_true_iff in H as [H _]. apply Ascii.eqb_eq in H as <-. reflexivity.
Qed.

Lemma is_param_block_prefix (line : string) :
  is_param_block line = true -> startswith "param " line = true.
Proof. unfold is_param_block. intros H. now apply andb_true_iff in H as [H _]. Qed.

(** The second token of the first line of a param block. *)
Lemma param_tokens_head (raw : string) :
  startswith "param " (_strip_comments raw) = true ->
  exists t ts, split_ws (_strip_comments raw) = "param" :: t :: ts.
Proof.
  intros H.
  destruct (stripped_after_keyword (before "#" raw) "param" H) as (r & E & Hr).
  fold (_strip_comments raw) in E. rewrite E.
  apply keyword_tokens; [discriminate | reflexivity | exact Hr].
Qed.

Lemma parse_param1d_eq (raw : string) (data : list string) :
  startswith "param " (_strip_comments raw) = true ->
  parse_param1d (_strip_comments raw) data
  = (mapping <- param_rows data [] ;; Ok (param1d_name (_strip_comments raw), mapping)).
Proof.
  intros H. unfold parse_param1d, param1d_name. rewrite strip_comments_idem.
  destruct (param_tokens_head raw H) as (t & ts & ->). reflexivity.
Qed.

Lemma statement_param1d (dat_name raw : string) (rest : list string) (doc : Document) :
  m_scalar (_strip_comments raw) = None ->
  is_param_block (_strip_comments raw) = true ->
  colon_before_assign (_strip_comments raw) = false ->
  statement dat_name raw rest doc
  = (mapping <- param_rows (collect (_strip_comments raw) rest) [] ;;
     Ok (List.length (collect (_strip_comments raw) rest),
         set_params (param1d_name (_strip_comments raw)) (VMap mapping) doc)).
Proof.
  intros Hs Hp Hc. pose proof (is_param_block_prefix _ Hp) as Hpre.
  unfold statement.
  rewrite (startswith_nonempty "param " _) by (discriminate || assumption).
  rewrite Hs, (param_not_set _ Hpre), Hp, Hc. cbn [negb andb].
  rewrite parse_param1d_eq by assumption.
  destruct (param_rows (collect (_strip_comments raw) rest) []); reflexivity.
Qed.

Lemma parse_table_eq (raw : string) (data : list string) :
  startswith "param " (_strip_comments raw) = true ->
  colon_before_assign (_strip_comments raw) = true ->
  parse_table (_strip_comments raw) data
  = (table <- table_rows (header_cols (_strip_comments raw)) data [] ;;
     Ok (table_name (_strip_comments raw), table)).
Proof.
  intros Hp Hc. unfold parse_table, header_cols, table_name.
  rewrite strip_comments_idem.
  unfold colon_before_assign in Hc. apply mem_char_before in Hc.
  rewrite (startswith_split _ _ Hp) in Hc.
  rewrite mem_char_append in Hc.
  change (mem_char ":" "param ") with false in Hc. cbn [orb] in Hc.
  destruct (split1_present ":" _ Hc) as (b & a & E).
  change (String ":" "") with ":" in E. rewrite E. reflexivity.
Qed.

Lemma statement_table (dat_name raw : string) (rest : list string) (doc : Document) :
  m_scalar (_strip_comments raw) = None ->
  is_param_block (_strip_comments raw) = true ->
  colon_before_assign (_strip_comments raw) = true ->
  statement dat_name raw rest doc
  = (table <- table_rows (header_cols (_strip_comments raw))
                         (collect (_strip_comments raw) rest) [] ;;
     Ok (List.length (collect (_strip_comments raw) rest),
         set_params (table_name (_strip_comments raw)) (VTable table) doc)).
Proof.
  intros Hs Hp Hc. pose proof (is_param_block_prefix _ Hp) as Hpre.
  unfold statement.
  rewrite (startswith_nonempty "param " _) by (discriminate || assumption).
  rewrite Hs, (param_not_set _ Hpre), Hp, Hc. cbn [negb andb].
  rewrite parse_table_eq by assumption.
  destruct (table_rows _ (collect (_strip_comments raw) rest) []); reflexivity.
Qed.

Lemma param_rows_cons (l : string) (rest : list string) (m : dict pyfloat) :
  param_rows (l :: rest) m
  = match line_pair l with
    | Some (k, v) =>
        match py_float v with
        | Some x => param_rows rest (dict_set k x m)
        | None => Raise (ValueError_float v)
        end
    | None => param_rows rest m
    end.
Proof.
  unfold line_pair. cbn [param_rows].
  destruct (is_empty (_strip_comments l)); [reflexivity|].
  destruct (data_tokens (_strip_comments l)) as [|k [|v ts]]; reflexivity.
Qed.

Lemma param_rows_bad (data : list string) (m : dict pyfloat) (v : string) :
  first_bad_1d data = Some v -> param_rows data m = Raise (ValueError_float v).
Proof.
  revert m. induction data as [|l data IH]; intros m; [discriminate|].
  rewrite param_rows_cons. cbn [first_bad_1d].
  destruct (line_pair l) as [[k w]|]; [|apply IH].
  destruct (py_float w); [apply IH|]. now intros [= ->].
Qed.

Lemma param_rows_ok (data : list string) (m0 : dict pyfloat) :
  first_bad_1d data = None ->
  exists m, param_rows data m0 = Ok m
            /\ forall k, dict_get k m = last_value k data (dict_get k m0).
Proof.
  revert m0. induction data as [|l data IH]; intros m0.
  - intros _. exists m0. split; reflexivity.
  - rewrite param_rows_cons. cbn [first_bad_1d last_value].
    destruct (line_pair l) as [[k' w]|]; [|apply IH].
    destruct (py_float w) as [x|]; [|discriminate].
    intros H. destruct (IH (dict_set k' x m0) H) as (m & Hm & Hget).
    exists m. split; [exact Hm|]. intros k. rewrite Hget.
    destruct (String.eqb_spec k' k) as [->|N].
    + now rewrite dict_get_set_eq.
    + now rewrite dict_get_set_neq.
Qed.



Lemma param_rows_nodup (data : list string) (m0 m : dict pyfloat) :
  NoDup (keys m0) -> param_rows data m0 = Ok m -> NoDup (keys m).
Proof.
  revert m0. induction data as [|l data IH]; intros m0 N.
  - now intros [= <-].
  - rewrite param_rows_cons.
    destruct (line_pair l) as [[k v]|]; [|now apply IH].
    destruct (py_float v); [|discriminate].
    apply IH. now apply NoDup_keys_set.
Qed.

Lemma last_value_keys (k : string) (data : list string) (acc : option pyfloat) :
  first_bad_1d data = None ->
  (last_value k data acc <> None
   <-> acc <> None \/ exists l v, In l data /\ line_pair l = Some (k, v)).
Proof.
  revert acc. induction data as [|q data IH]; intros acc.
  - intros _. cbn [last_value]. split; [now left|].
    intros [H|(l & v & [] & _)]. exact H.
  - cbn [first_bad_1d last_value].
    destruct (line_pair q) as [[k' w]|] eqn:E.
    + destruct (py_float w) as [x|] eqn:Ew; [|discriminate]. intros Hb.
      destruct (String.eqb_spec k' k) as [->|N].
      * rewrite (IH (Some x) Hb). split; [|intros _; left; discriminate].
        intros _. right. exists q, w. split; [now left | exact E].
      * rewrite (IH acc Hb). split.
        -- intros [H|(l & v & Hin & Hl)]; [now left|].
           right. exists l, v. split; [now right | exact Hl].
        -- intros [H|(l & v & [<-|Hin] & Hl)]; [now left| |].
           ++ rewrite E in Hl. congruence.
           ++ right. now exists l, v.
    + intros Hb. rewrite (IH acc Hb). split.
      * intros [H|(l & v & Hin & Hl)]; [now left|].
        right. exists l, v. split; [now right | exact Hl].
      * intros [H|(l & v & [<-|Hin] & Hl)]; [now left| |].
        -- rewrite E in Hl. discriminate.
        -- right. now exists l, v.
Qed.



Example run_repeated_key :
  parse_dat (file ("param P :=" ++ nl ++ "a 1" ++ nl ++ "b 2" ++ nl ++ "a 3 ;"))
  = Ok {| sets := [];
          params := [("P", VMap [("a", float_of_Z 3); ("b", float_of_Z 2)])] |}.
Proof. vm_compute. reflexivity. Qed.

(** C2, as the code has it. At a line recognised as a 1D param
    statement, the data lines are the lines taken after the first one,
    up to the line with the semicolon. Each data line gives one pair: its
    first two tokens, once its comment is dropped and its semicolons are
    read as blanks; a line with fewer than two tokens gives none. When
    [float] accepts every value so read, the statement binds its name to
    a mapping whose keys are exactly the keys of these pairs, each with
    the value of the last line that carries it. The first line's text
    after [:=] and the tokens after the second one of a line are not
    read. *)
Theorem C2_param1d_reads_one_pair_per_data_line :
  forall (dat_name raw : string) (rest : list string) (doc : Document),
    m_scalar (_strip_comments raw) = None ->
    is_param_block (_strip_comments raw) = true ->
    colon_before_assign (_strip_comments raw) = false ->
    first_bad_1d (collect (_strip_comments raw) rest) = None ->
    exists m : dict pyfloat,
      statement dat_name raw rest doc
      = Ok (List.length (collect (_strip_comments raw) rest),
            set_params (param1d_name (_strip_comments raw)) (VMap m) doc)
      /\ (forall k, dict_get k m = last_value k (collect (_strip_comments raw) rest) None)
      /\ (forall k, In k (keys m)
                    <-> exists l v, In l (collect (_strip_comments raw) rest)
                                    /\ line_pair l = Some (k, v))
      /\ NoDup (keys m).
Proof.
  intros dat_name raw rest doc Hs Hp Hc Hbad.
  rewrite statement_param1d by assumption.
  destruct (param_rows_ok _ [] Hbad) as (m & Hm & Hget).
  exists m. rewrite Hm. cbn [bind]. repeat split.
  - exact Hget.
  - intros Hin. apply dict_get_keys in Hin. rewrite Hget in Hin.
    apply (last_value_keys k _ None Hbad) in Hin as [H|H]; [congruence | exact H].
  - intros H. apply dict_get_keys. rewrite Hget.
    apply (last_value_keys k _ None Hbad). now right.
  - eapply param_rows_nodup; [|exact Hm]. constructor.
Qed.

Lemma C2_witness :
  exists m : dict pyfloat,
    statement "case.dat" "param P := x 9" ["a 1 b 2"; "c"; "d 4 ;"; "e 5"] empty_document
    = Ok (3, set_params "P" (VMap m) empty_document)
    /\ (forall k, dict_get k m = last_value k ["a 1 b 2"; "c"; "d 4 ;"] None)
    /\ (forall k, In k (keys m)
                  <-> exists l v, In l ["a 1 b 2"; "c"; "d 4 ;"]
                                  /\ line_pair l = Some (k, v))
    /\ NoDup (keys m).
Proof.
  refine (C2_param1d_reads_one_pair_per_data_line
            "case.dat" "param P := x 9" ["a 1 b 2"; "c"; "d 4 ;"; "e 5"] empty_document
            _ _ _ _); reflexivity.
Defined.

(** A statement written on one line binds its name to an empty mapping,
    and a data line with two pairs gives its first pair only. *)
Lemma C2_counterexample :
  parse_dat (file "param P := k1 1 k2 2 ;")
  = Ok {| sets := []; params := [("P", VMap [])] |}
  /\ parse_dat (file ("param P :=" ++ nl ++ "k1 1 k2 2" ++ nl ++ ";"))
     = Ok {| sets := []; params := [("P", VMap [("k1", float_of_Z 1)])] |}.
Proof. split; vm_compute; reflexivity. Qed.

(** ** Table blocks *)

Lemma table_rows_cons (cols : list string) (l : string) (rest : list string)
  (t : dict (dict pyfloat)) :
  table_rows cols (l :: rest) t
  = match line_row l with
    | Some (row, more) =>
        if Nat.eqb (List.length (firstn (List.length cols) more)) (List.length cols)
        then match row_dict cols (firstn (List.length cols) more) [] with
             | Ok d => table_rows cols rest (dict_set row d t)
             | Raise e => Raise e
             end
        else table_rows cols rest t
    | None => table_rows cols rest t
    end.
Proof.
  unfold line_row. cbn [table_rows].
  destruct (is_empty (_strip_comments l)); [reflexivity|].
  destruct (data_tokens (_strip_comments l)) as [|row more]; [reflexivity|].
  destruct (Nat.eqb _ _); reflexivity.
Qed.

Lemma row_dict_bad (cols vals : list string) (d : dict pyfloat) (v : string) :
  List.length vals = List.length cols -> bad_value vals = Some v ->
  row_dict cols vals d = Raise (ValueError_float v).
Proof.
  revert vals d. induction cols as [|c cols IH]; intros [|w vals] d; try discriminate.
  cbn [List.length bad_value row_dict]. intros [= Hlen].
  destruct (py_float w); [now apply IH | now intros [= ->]].
Qed.

Lemma row_dict_ok (cols vals : list string) (d : dict pyfloat) :
  List.length vals = List.length cols ->
  bad_value vals = None -> exists d', row_dict cols vals d = Ok d'.
Proof.
  revert vals d. induction cols as [|c cols IH]; intros vals d; [now exists d|].
  destruct vals as [|w vals]; [discriminate|].
  cbn [List.length bad_value row_dict]. intros [= Hlen].
  destruct (py_float w); [now apply IH | discriminate].
Qed.

Lemma table_rows_bad (cols data : list string) (t : dict (dict pyfloat)) (v : string) :
  first_bad_table (List.length cols) data = Some v ->
  table_rows cols data t = Raise (ValueError_float v).
Proof.
  revert t. induction data as [|l data IH]; intros t; [discriminate|].
  rewrite table_rows_cons. cbn [first_bad_table].
  destruct (line_row l) as [[row more]|]; [|apply IH].
  destruct (Nat.eqb _ _) eqn:E; [|apply IH].
  apply Nat.eqb_eq in E.
  destruct (bad_value (firstn (List.length cols) more)) as [w|] eqn:Eb.
  - intros [= ->]. now rewrite (row_dict_bad _ _ _ v E Eb).
  - destruct (row_dict_ok cols _ [] E Eb) as [d ->]. apply IH.
Qed.

Lemma table_rows_ok (cols data : list string) (t0 : dict (dict pyfloat)) :
  first_bad_table (List.length cols) data = None ->
  exists t, table_rows cols data t0 = Ok t
            /\ forall r, dict_get r t = last_row cols r data (dict_get r t0).
Proof.
  revert t0. induction data as [|l data IH]; intros t0.
  - intros _. exists t0. split; reflexivity.
  - rewrite table_rows_cons. cbn [first_bad_table last_row].
    destruct (line_row l) as [[row more]|]; [|apply IH].
    destruct (Nat.eqb _ _) eqn:E; [|apply IH].
    destruct (bad_value (firstn (List.length cols) more)) as [w|] eqn:Eb; [discriminate|].
    destruct (row_dict_ok cols _ [] (proj1 (Nat.eqb_eq _ _) E) Eb) as [d Hd]. rewrite Hd.
    intros H. destruct (IH (dict_set row d t0) H) as (t & Ht & Hget).
    exists t. split; [exact Ht|]. intros r. rewrite Hget. cbn [andb].
    destruct (String.eqb_spec row r) as [->|N].
    + now rewrite dict_get_set_eq.
    + now rewrite dict_get_set_neq.
Qed.

(** The lines that are not accepted leave no trace. *)
Lemma table_rows_filter (cols data : list string) (t : dict (dict pyfloat)) :
  table_rows cols data t
  = table_rows cols (filter (row_accepted (List.length cols)) data) t.
Proof.
  revert t. induction data as [|l data IH]; intros t; [reflexivity|].
  cbn [filter]. unfold row_accepted at 1.
  destruct (line_row l) as [[row more]|] eqn:El.
  - destruct (Nat.eqb _ _) eqn:E.
    + rewrite !table_rows_cons, El, E.
      destruct (row_dict cols _ []); [apply IH | reflexivity].
    + rewrite table_rows_cons, El, E. apply IH.
  - rewrite table_rows_cons, El. apply IH.
Qed.

Lemma table_rows_nodup (cols data : list string) (t0 t : dict (dict pyfloat)) :
  NoDup (keys t0) -> table_rows cols data t0 = Ok t -> NoDup (keys t).
Proof.
  revert t0. induction data as [|l data IH]; intros t0 N.
  - now intros [= <-].
  - rewrite table_rows_cons.
    destruct (line_row l) as [[row more]|]; [|now apply IH].
    destruct (Nat.eqb _ _); [|now apply IH].
    destruct (row_dict cols _ []); [|discriminate].
    apply IH. now apply NoDup_keys_set.
Qed.

Lemma last_row_keys (cols : list string) (r : string) (data : list string)
  (acc : option (dict pyfloat)) :
  first_bad_table (List.length cols) data = None ->
  (last_row cols r data acc <> None
   <-> acc <> None
       \/ exists l more, In l data /\ line_row l = Some (r, more)
                         /\ row_accepted (List.length cols) l = true).
Proof.
  revert acc. induction data as [|q data IH]; intros acc.
  - intros _. cbn [last_row]. split; [now left|].
    intros [H|(l & more & [] & _)]. exact H.
  - cbn [first_bad_table last_row]. unfold row_accepted.
    assert (Hstep : first_bad_table (List.length cols) data = None ->
      line_row q <> None \/ True ->
      (forall more, line_row q = Some (r, more) ->
         Nat.eqb (List.length (firstn (List.length cols) more)) (List.length cols) = false) ->
      (last_row cols r data acc <> None
       <-> acc <> None
           \/ exists l more, In l (q :: data) /\ line_row l = Some (r, more)
              /\ match line_row l with
                 | Some (_, more0) =>
                     Nat.eqb (List.length (firstn (List.length cols) more0)) (List.length cols)
                 | None => false
                 end = true)).
    { intros Hb _ Hq. rewrite (IH acc Hb). unfold row_accepted. split.
      - intros [H|(l & more & Hin & Hl & Ha)]; [now left|].
        right. exists l, more. repeat split; [now right | exact Hl | exact Ha].
      - intros [H|(l & more & [<-|Hin] & Hl & Ha)]; [now left| |].
        + rewrite Hl in Ha. rewrite (Hq more Hl) in Ha. discriminate.
        + right. now exists l, more. }
    destruct (line_row q) as [[r' more]|] eqn:E.
    + destruct (Nat.eqb _ _) eqn:Ea.
      * destruct (bad_value (firstn (List.length cols) more)) as [w|] eqn:Eb; [discriminate|].
        intros Hb. cbn [andb].
        destruct (String.eqb_spec r' r) as [->|N].
        -- destruct (row_dict_ok cols _ [] (proj1 (Nat.eqb_eq _ _) Ea) Eb) as [d ->].
           rewrite (IH (Some d) Hb). split; [|intros _; left; discriminate].
           intros _. right. exists q, more. rewrite E. repeat split; [now left | exact Ea].
        -- rewrite (IH acc Hb). unfold row_accepted. split.
           ++ intros [H|(l & more' & Hin & Hl & Ha)]; [now left|].
              right. exists l, more'. repeat split; [now right | exact Hl | exact Ha].
           ++ intros [H|(l & more' & [<-|Hin] & Hl & Ha)]; [now left| |].
              ** rewrite E in Hl. congruence.
              ** right. now exists l, more'.
      * intros Hb. cbn [andb]. apply Hstep; [exact Hb | now right |].
        intros more' [= _ <-]. exact Ea.
    + intros Hb. apply Hstep; [exact Hb | now right |]. discriminate.
Qed.

(** A line is accepted when it has a row identifier and, after it, at
    least as many tokens as there are columns. *)
Lemma row_accepted_iff (n : nat) (l : string) :
  row_accepted n l = true
  <-> exists r more, line_row l = Some (r, more) /\ n <= List.length more.
Proof.
  unfold row_accepted. destruct (line_row l) as [[r more]|].
  - rewrite Nat.eqb_eq, length_firstn. split.
    + intros H. exists r, more. split; [reflexivity | lia].
    + intros (r' & more' & [= <- <-] & H). lia.
  - split; [discriminate | intros (r & more & H & _); discriminate].
Qed.

(** C1, as the code has it. At a line recognised as the header of a 2D
    table, a data line of the block is accepted when it has a row
    identifier and, after it, at least as many tokens as there are
    declared columns, and it is dropped otherwise, without an error. The
    values of an accepted line are its tokens after the row identifier,
    cut to the number of columns. When [float] accepts these values, the
    statement binds the name of the table to a table that is the one
    read from the accepted lines alone, whose row identifiers are
    exactly those of the accepted lines, each with the row of the last
    accepted line that carries it. *)
Theorem C1_table_drops_short_rows_only :
  forall (dat_name raw : string) (rest : list string) (doc : Document),
    m_scalar (_strip_comments raw) = None ->
    is_param_block (_strip_comments raw) = true ->
    colon_before_assign (_strip_comments raw) = true ->
    first_bad_table (List.length (header_cols (_strip_comments raw)))
                    (collect (_strip_comments raw) rest) = None ->
    let cols := header_cols (_strip_comments raw) in
    let data := collect (_strip_comments raw) rest in
    exists t : dict (dict pyfloat),
      statement dat_name raw rest doc
      = Ok (List.length data, set_params (table_name (_strip_comments raw)) (VTable t) doc)
      /\ table_rows cols (filter (row_accepted (List.length cols)) data) [] = Ok t
      /\ (forall l, row_accepted (List.length cols) l = true
                    <-> exists r more, line_row l = Some (r, more)
                                       /\ List.length cols <= List.length more)
      /\ (forall r, In r (keys t)
                    <-> exists l more, In l data /\ line_row l = Some (r, more)
                                       /\ List.length cols <= List.length more)
      /\ (forall r, dict_get r t = last_row cols r data None)
      /\ NoDup (keys t).
Proof.
  intros dat_name raw rest doc Hs Hp Hc Hbad cols data.
  rewrite statement_table by assumption. fold cols data in Hbad |- *.
  destruct (table_rows_ok cols data [] Hbad) as (t & Ht & Hget).
  exists t. rewrite Ht. cbn [bind]. repeat split.
  - now rewrite <- table_rows_filter.
  - now apply row_accepted_iff.
  - now apply row_accepted_iff.
  - intros Hin. apply dict_get_keys in Hin. rewrite Hget in Hin.
    apply (last_row_keys cols r data None Hbad) in Hin as [H|(l & more & Hl & Hr & Ha)];
      [congruence|].
    exists l, more. repeat split; try assumption.
    apply row_accepted_iff in Ha as (r' & more' & E & Hle). congruence.
  - intros (l & more & Hl & Hr & Hle). apply dict_get_keys. rewrite Hget.
    apply (last_row_keys cols r data None Hbad). right.
    exists l, more. repeat split; try assumption.
    apply row_accepted_iff. now exists r, more.
  - exact Hget.
  - eapply table_rows_nodup; [|exact Ht]. constructor.
Qed.

Lemma C1_witness :
  parse_dat (file ("param DemandaPPA: C1 C2 :=" ++ nl ++ "H01 10 20" ++ nl
                   ++ "H02 5" ++ nl ++ "H03 7 8 ;"))
  = Ok {| sets := []; params := [("DemandaPPA", VTable table_C)] |}
  /\ row_accepted 2 "H02 5" = false
  /\ exists t : dict (dict pyfloat),
      statement "case.dat" "param DemandaPPA: C1 C2 :="
                ["H01 10 20"; "H02 5"; "H03 7 8 ;"] empty_document
      = Ok (3, set_params "DemandaPPA" (VTable t) empty_document)
      /\ table_rows ["C1"; "C2"] ["H01 10 20"; "H03 7 8 ;"] [] = Ok t
      /\ (forall l, row_accepted 2 l = true
                    <-> exists r more, line_row l = Some (r, more)
                                       /\ 2 <= List.length more)
      /\ (forall r, In r (keys t)
                    <-> exists l more,
                          In l ["H01 10 20"; "H02 5"; "H03 7 8 ;"]
                          /\ line_row l = Some (r, more)
                          /\ 2 <= List.length more)
      /\ (forall r, dict_get r t
                    = last_row ["C1"; "C2"] r ["H01 10 20"; "H02 5"; "H03 7 8 ;"] None)
      /\ NoDup (keys t).
Proof.
  split; [vm_compute; reflexivity|]. split; [reflexivity|].
  refine (C1_table_drops_short_rows_only
            "case.dat" "param DemandaPPA: C1 C2 :="
            ["H01 10 20"; "H02 5"; "H03 7 8 ;"] empty_document _ _ _ _);
    reflexivity.
Defined.

(** A row with more tokens than columns is not dropped: its surplus is
    cut and the row is kept. *)
Lemma C1_counterexample :
  line_row "H01 10 20 30 ;" = Some ("H01", ["10"; "20"; "30"])
  /\ header_cols "param T: C1 C2 :=" = ["C1"; "C2"]
  /\ parse_dat (file ("param T: C1 C2 :=" ++ nl ++ "H01 10 20 30 ;"))
     = Ok {| sets := [];
             params := [("T", VTable [("H01", [("C1", float_of_Z 10);
                                               ("C2", float_of_Z 20)])])] |}.
Proof. repeat split; vm_compute; reflexivity. Qed.

(** ** Values that are not numbers *)

(** C6, as the code has it. At a line recognised as a 1D param or a 2D
    table statement, when a value that the block reads is one that
    [float] refuses, the parse raises the ValueError of [float] for the
    first such value, whatever was read before and whatever follows: no
    document is returned. The text of the error quotes the refused token
    and nothing else. *)
Theorem C6_bad_value_raises_float_error :
  forall (dat_name raw : string) (rest : list string) (doc : Document) (v : string),
    m_scalar (_strip_comments raw) = None ->
    is_param_block (_strip_comments raw) = true ->
    first_bad (_strip_comments raw) (collect (_strip_comments raw) rest) = Some v ->
    parse_loop dat_name 0 (raw :: rest) doc = Raise (ValueError_float v)
    /\ message (ValueError_float v) = "could not convert string to float: " ++ repr v.
Proof.
  intros dat_name raw rest doc v Hs Hp Hbad.
  split; [|reflexivity].
  cbn [parse_loop]. unfold first_bad in Hbad.
  destruct (colon_before_assign (_strip_comments raw)) eqn:Hc.
  - rewrite statement_table by assumption.
    now rewrite (table_rows_bad _ _ _ v Hbad).
  - rewrite statement_param1d by assumption.
    now rewrite (param_rows_bad _ _ v Hbad).
Qed.

Lemma C6_witness :
  first_bad "param P :=" ["k abc"; ";"] = Some "abc"
  /\ parse_dat (file ("param P :=" ++ nl ++ "k abc" ++ nl ++ ";"))
     = Raise (ValueError_float "abc")
  /\ first_bad "param T: C1 C2 :=" ["H01 1 x"; "H02 y 2 ;"] = Some "x"
  /\ parse_dat (file ("param T: C1 C2 :=" ++ nl ++ "H01 1 x" ++ nl ++ "H02 y 2 ;"))
     = Raise (ValueError_float "x").
Proof.
  split; [reflexivity|]. split.
  - refine (proj1 (C6_bad_value_raises_float_error
                     "case.dat" "param P :=" ["k abc"; ";"] empty_document "abc" _ _ _));
      reflexivity.
  - split; [reflexivity|].
    refine (proj1 (C6_bad_value_raises_float_error
                     "case.dat" "param T: C1 C2 :=" ["H01 1 x"; "H02 y 2 ;"]
                     empty_document "x" _ _ _));
      reflexivity.
Defined.

(** The error of a refused value names neither the file nor the line. *)
Lemma C6_counterexample :
  exists e : exn,
    parse_dat (file ("param P :=" ++ nl ++ "k abc" ++ nl ++ ";")) = Raise e
    /\ message e = "could not convert string to float: 'abc'"
    /\ contains "case.dat" (message e) = false
    /\ contains "k abc" (message e) = false.
Proof.
  exists (ValueError_float "abc"). repeat split; vm_compute; reflexivity.
Qed.

(** ** Statements that declare a name again *)

(** A turn of the scan leaves the document as it is or writes one
    binding, the same whatever the document holds. *)
Lemma statement_effect (dat_name raw : string) (rest : list string)
  (doc0 doc0' : Document) (k : nat) :
  statement dat_name raw rest doc0 = Ok (k, doc0') ->
  (forall doc, statement dat_name raw rest doc = Ok (k, doc))
  \/ exists b, forall doc, statement dat_name raw rest doc = Ok (k, write b doc).
Proof.
  unfold statement.
  destruct (is_empty (_strip_comments raw)); [intros [= <- _]; now left|].
  destruct (m_scalar (_strip_comments raw)) as [[nm val]|].
  { intros [= <- _]. right. now exists (Bind_param nm (scalar_value (strip val))). }
  destruct (startswith "set " (_strip_comments raw)).
  { destruct (parse_set dat_name _) as [[nm elems]|e]; cbn [bind]; [|discriminate].
    intros [= <- _]. right. now exists (Bind_set nm elems). }
  destruct (is_param_block (_strip_comments raw) && negb _).
  { destruct (parse_param1d _ _) as [[nm m]|e]; cbn [bind]; [|discriminate].
    intros [= <- _]. right. now exists (Bind_param nm (VMap m)). }
  destruct (is_param_block (_strip_comments raw) && _).
  { destruct (parse_table _ _) as [[nm t]|e]; cbn [bind]; [|discriminate].
    intros [= <- _]. right. now exists (Bind_param nm (VTable t)). }
  intros [= <- _]. now left.
Qed.

Lemma write_empty_inj (b b' : binding) :
  write b' empty_document = write b empty_document -> b' = b.
Proof.
  destruct b, b'; cbn; intros [= ]; subst; reflexivity.
Qed.

Lemma write_empty_neq (b : binding) : empty_document <> write b empty_document.
Proof. destruct b; discriminate. Qed.

(** C10. When a statement that writes a binding (a set, or a param of
    any shape) is read while its name is declared already in the mapping
    of its kind, the turn succeeds as it does on an empty document, and
    afterwards the name has one entry, with the value of the later
    statement, at the place of the earlier one; nothing else changes. *)
Theorem C10_later_statement_replaces_earlier :
  forall (dat_name raw : string) (rest : list string) (k : nat) (b : binding)
         (doc : Document),
    statement dat_name raw rest empty_document = Ok (k, write b empty_document) ->
    well_keyed doc ->
    declared b doc ->
    statement dat_name raw rest doc = Ok (k, write b doc)
    /\ replaces b doc (write b doc)
    /\ well_keyed (write b doc).
Proof.
  intros dat_name raw rest k b doc Hrun [Ns Np] Hdecl.
  split.
  - destruct (statement_effect _ _ _ _ _ _ Hrun) as [H|[b' H]].
    + rewrite H in Hrun. injection Hrun as Hrun.
      now apply write_empty_neq in Hrun.
    + rewrite H in Hrun. injection Hrun as Hrun.
      apply write_empty_inj in Hrun as ->. apply H.
  - destruct b as [n elems|n v]; cbn in *.
    + repeat split.
      * apply dict_get_set_eq.
      * intros x. now apply dict_set_entry.
      * now apply keys_set_present.
      * now apply NoDup_keys_set.
      * assumption.
    + repeat split.
      * apply dict_get_set_eq.
      * intros x. now apply dict_set_entry.
      * now apply keys_set_present.
      * assumption.
      * now apply NoDup_keys_set.
Qed.

Lemma C10_witness :
  (statement "case.dat" "set S := b c ;" [] doc_C10
   = Ok (0, {| sets := [("S", ["b"; "c"]); ("T", ["t"])]; params := params doc_C10 |})
   /\ replaces (Bind_set "S" ["b"; "c"]) doc_C10 (write (Bind_set "S" ["b"; "c"]) doc_C10))
  /\ (statement "case.dat" "param P :=" ["x 2 ;"] doc_C10
      = Ok (1, {| sets := sets doc_C10;
                  params := [("P", VMap [("x", float_of_Z 2)]); ("Q", VStr "label")] |})
      /\ replaces (Bind_param "P" (VMap [("x", float_of_Z 2)])) doc_C10
                  (write (Bind_param "P" (VMap [("x", float_of_Z 2)])) doc_C10)).
Proof.
  assert (W : well_keyed doc_C10).
  { split; cbn; repeat constructor; cbn; intuition discriminate. }
  split.
  - refine ((fun H => conj (proj1 H) (proj1 (proj2 H)))
              (C10_later_statement_replaces_earlier
                 "case.dat" "set S := b c ;" [] 0 (Bind_set "S" ["b"; "c"]) doc_C10
                 _ W _)); [reflexivity | cbn; tauto].
  - refine ((fun H => conj (proj1 H) (proj1 (proj2 H)))
              (C10_later_statement_replaces_earlier
                 "case.dat" "param P :=" ["x 2 ;"] 1
                 (Bind_param "P" (VMap [("x", float_of_Z 2)])) doc_C10
                 _ W _)); [reflexivity | cbn; tauto].
Defined.

Example run_redeclared :
  parse_dat (file ("set S := a ;" ++ nl ++ "param P = 1;" ++ nl ++ "set T := t ;" ++ nl
                   ++ "set S := b c ;" ++ nl ++ "param P :=" ++ nl ++ "x 2 ;"))
  = Ok {| sets := [("S", ["b"; "c"]); ("T", ["t"])];
          params := [("P", VMap [("x", float_of_Z 2)])] |}.
Proof. vm_compute. reflexivity. Qed.

(** Every turn keeps the keys of the two mappings free of repetition. *)
Lemma statement_well_keyed (dat_name raw : string) (rest : list string)
  (doc doc' : Document) (k : nat) :
  well_keyed doc -> statement dat_name raw rest doc = Ok (k, doc') -> well_keyed doc'.
Proof.
  intros [Ns Np] H.
  destruct (statement_effect _ _ _ _ _ _ H) as [E|[b E]]; rewrite E in H;
    injection H as <-; [now split|].
  destruct b; split; cbn; try assumption; now apply NoDup_keys_set.
Qed.

(** ** Set statements over several lines *)

Lemma all_chars_impl (p q : ascii -> bool) (s : string) :
  (forall c, p c = true -> q c = true) -> all_chars p s = true -> all_chars q s = true.
Proof.
  intros Hpq. induction s as [|c s IH]; [reflexivity|].
  cbn [all_chars]. intros H. apply andb_true_iff in H as [Hc Hs].
  now rewrite (Hpq c Hc), IH.
Qed.

Lemma contains_char (c : ascii) (s : string) :
  contains (String c "") s = mem_char c s.
Proof.
  induction s as [|x s IH]; [reflexivity|].
  cbn [contains startswith mem_char]. rewrite IH.
  destruct (Ascii.eqb c x); [now destruct s | reflexivity].
Qed.

Lemma tok_space (a b : string) : tok (a ++ String " " b) = (tok a ++ tok b)%list.
Proof.
  unfold tok.
  rewrite (replace_foreign ":=" " := " a b " ") by (reflexivity || discriminate).
  rewrite (replace_foreign ";" " ; " _ _ " ") by (reflexivity || discriminate).
  now apply split_ws_append_space.
Qed.

Lemma tok_join (pieces : list string) :
  tok (join " " pieces) = flat_map tok pieces.
Proof.
  induction pieces as [|x l IH]; [reflexivity|].
  destruct l as [|y l].
  - cbn [join String.concat flat_map]. now rewrite app_nil_r.
  - change (join " " (x :: y :: l)) with (x ++ String " " (join " " (y :: l))).
    rewrite tok_space, IH. reflexivity.
Qed.

(** The tokens of a block are those of its lines, one line after the
    other: the set reader does not see where the lines end. *)
Lemma set_tokens_lines (block : list string) :
  set_tokens block = flat_map tok (map _strip_comments block).
Proof. unfold set_tokens, set_joined. apply tok_join. Qed.

Lemma plain_is_token (t : string) : plain t = true -> is_token t = true.
Proof.
  unfold plain, is_token. intros H.
  apply andb_true_iff in H as [H _]. apply andb_true_iff in H as [-> H].
  cbn [andb]. revert H. apply all_chars_impl.
  intros c Hc. unfold plain_char in Hc. unfold token_char.
  apply andb_true_iff in Hc as [Hc _]. exact Hc.
Qed.

Lemma plain_no_semicolon (t : string) : plain t = true -> mem_char ";" t = false.
Proof.
  unfold plain. intros H.
  apply andb_true_iff in H as [H _]. apply andb_true_iff in H as [_ H].
  apply (all_chars_not_mem plain_char); [exact H | reflexivity].
Qed.

Lemma tok_plain (t : string) : plain t = true -> tok t = [t].
Proof.
  intros H. pose proof (plain_no_semicolon t H) as Hsemi.
  unfold plain in H.
  apply andb_true_iff in H as [H Hc]. apply andb_true_iff in H as [Hne Hall].
  apply negb_true_iff in Hc. apply negb_true_iff in Hne.
  unfold tok. rewrite (replace_from_absent ":=") by exact Hc.
  rewrite replace_from_absent by (now rewrite contains_char).
  apply split_ws_word.
  - now destruct t.
  - revert Hall. apply all_chars_impl.
    intros c Hp. unfold plain_char in Hp. unfold nonspace.
    apply andb_true_iff in Hp as [Hp _]. now apply andb_true_iff in Hp as [Hp _].
Qed.

(** *** A line made of tokens and single blanks is left as it is *)

Lemma rstrip_with_append (sp : ascii -> bool) (a b : string) :
  is_empty (rstrip_with sp b) = false ->
  rstrip_with sp (a ++ b) = a ++ rstrip_with sp b.
Proof.
  intros Hb. induction a as [|x a IH]; [reflexivity|].
  cbn [append rstrip_with]. rewrite IH.
  destruct a; cbn [append is_empty]; [rewrite Hb|]; now rewrite andb_false_r.
Qed.

Lemma rstrip_token (t : string) :
  all_chars nonspace t = true -> rstrip_with isspace t = t.
Proof.
  induction t as [|c t IH]; [reflexivity|].
  cbn [all_chars rstrip_with]. intros H. apply andb_true_iff in H as [Hc Ht].
  unfold nonspace in Hc. apply negb_true_iff in Hc. now rewrite Hc, IH.
Qed.

Lemma is_token_nonspace (t : string) :
  is_token t = true -> t <> "" /\ all_chars nonspace t = true.
Proof.
  unfold is_token. intros H. apply andb_true_iff in H as [Hne Hall].
  split; [now destruct t|]. revert Hall. apply all_chars_impl.
  intros c Hc. unfold token_char in Hc. unfold nonspace.
  now apply andb_true_iff in Hc as [Hc _].
Qed.

Lemma join_tokens_rstrip (g : list string) :
  g <> [] -> forallb is_token g = true ->
  rstrip_with isspace (join " " g) = join " " g /\ is_empty (join " " g) = false.
Proof.
  induction g as [|t g IH]; [congruence|]. intros _ H.
  cbn [forallb] in H. apply andb_true_iff in H as [Ht Hg].
  destruct (is_token_nonspace t Ht) as [Hne Hns].
  destruct g as [|u g].
  - cbn [join String.concat]. split; [now apply rstrip_token | now destruct t].
  - change (join " " (t :: u :: g)) with (t ++ " " ++ join " " (u :: g)).
    destruct (IH ltac:(discriminate) Hg) as [IH1 IH2].
    split; [|now destruct t].
    rewrite <- append_assoc. rewrite rstrip_with_append; rewrite IH1; [reflexivity | exact IH2].
Qed.

Lemma mem_char_join_tokens (c : ascii) (g : list string) :
  Ascii.eqb c " " = false ->
  mem_char c (join " " g) = existsb (mem_char c) g.
Proof.
  intros Hc. induction g as [|t g IH]; [reflexivity|].
  destruct g as [|u g].
  - cbn [join String.concat existsb]. now rewrite orb_false_r.
  - change (join " " (t :: u :: g)) with (t ++ " " ++ join " " (u :: g)).
    rewrite !mem_char_append, IH. cbn [mem_char existsb]. now rewrite Hc.
Qed.

Lemma is_token_no_hash (t : string) : is_token t = true -> mem_char "#" t = false.
Proof.
  unfold is_token. intros H. apply andb_true_iff in H as [_ H].
  apply (all_chars_not_mem token_char); [exact H | reflexivity].
Qed.

Lemma strip_comments_tokens (g : list string) :
  forallb is_token g = true -> _strip_comments (join " " g) = join " " g.
Proof.
  intros H. apply strip_comments_plain.
  - rewrite mem_char_join_tokens by reflexivity.
    induction g as [|t g IH]; [reflexivity|].
    cbn [forallb existsb] in *. apply andb_true_iff in H as [Ht Hg].
    now rewrite (is_token_no_hash t Ht), IH.
  - destruct g as [|t g]; [reflexivity|].
    destruct (join_tokens_rstrip (t :: g) ltac:(discriminate) H) as [Hr _].
    unfold strip, strip_with.
    assert (Hl : lstrip_with isspace (join " " (t :: g)) = join " " (t :: g)).
    { cbn [forallb] in H. apply andb_true_iff in H as [Ht _].
      destruct (is_token_nonspace t Ht) as [Hne Hns].
      destruct (join_cons " " t g) as [tail ->].
      destruct t as [|c t]; [congruence|].
      cbn [all_chars] in Hns. apply andb_true_iff in Hns as [Hc _].
      unfold nonspace in Hc. apply negb_true_iff in Hc.
      cbn [append lstrip_with]. now rewrite Hc. }
    now rewrite Hl.
Qed.

Lemma app_last_split {A : Type} (a b X : list A) (z : A) :
  (a ++ b = X ++ [z])%list -> b <> [] ->
  exists Y, b = (Y ++ [z])%list /\ X = (a ++ Y)%list.
Proof.
  intros E Hb. destruct (exists_last Hb) as (Y & y & ->).
  rewrite app_assoc in E. apply app_inj_tail in E as [E ->].
  now exists Y.
Qed.

(** The lines of a statement laid out in groups of tokens: the block runs
    up to the group that holds the semicolon, the last token. *)
Lemma collect_groups (g : list string) (gs : list (list string))
  (X rest : list string) :
  (List.concat (g :: gs) = X ++ [";"])%list ->
  Forall (fun t => mem_char ";" t = false) X ->
  Forall (fun g' => g' <> []) gs ->
  collect (join " " g) (map (join " ") gs ++ rest)%list = map (join " ") gs.
Proof.
  revert g X. induction gs as [|g1 gs IH]; intros g X E HX Hgs.
  - cbn [List.concat] in E. rewrite app_nil_r in E. subst g.
    apply collect_closed. rewrite mem_char_join_tokens by reflexivity.
    rewrite existsb_app. cbn. apply orb_true_r.
  - inversion Hgs as [|? ? Hg1 Hgs']; subst.
    cbn [List.concat] in E.
    assert (Hne : (g1 ++ List.concat gs)%list <> []) by (destruct g1; [congruence | discriminate]).
    destruct (app_last_split g (g1 ++ List.concat gs)%list X ";" E Hne) as (Y & EY & ->).
    apply Forall_app in HX as [HXg HXY].
    cbn [map app]. rewrite collect_open.
    + f_equal. apply (IH g1 Y); assumption.
    + rewrite mem_char_join_tokens by reflexivity.
      apply not_true_is_false. intros H. apply existsb_exists in H as (t & Ht & Hm).
      rewrite Forall_forall in HXg. rewrite (HXg t Ht) in Hm. discriminate.
Qed.

Lemma flat_map_tok_fixed (g : list string) :
  Forall (fun t => tok t = [t]) g -> flat_map tok g = g.
Proof.
  induction 1 as [|t g Ht Hg IH]; [reflexivity|].
  cbn [flat_map]. now rewrite Ht, IH.
Qed.

(** The tokens of a block laid out in groups are the tokens of the groups. *)
Lemma set_tokens_groups (groups : list (list string)) :
  Forall (fun t => is_token t = true /\ tok t = [t]) (List.concat groups) ->
  map _strip_comments (map (join " ") groups) = map (join " ") groups
  /\ set_tokens (map (join " ") groups) = List.concat groups.
Proof.
  intros H.
  assert (Hs : map _strip_comments (map (join " ") groups) = map (join " ") groups).
  { induction groups as [|g groups IH]; [reflexivity|].
    cbn [List.concat] in H. apply Forall_app in H as [Hg Hgs].
    cbn [map]. rewrite IH by assumption. f_equal.
    apply strip_comments_tokens. apply forallb_forall.
    rewrite Forall_forall in Hg. intros t Ht. now apply Hg. }
  split; [exact Hs|].
  unfold set_tokens, set_joined. rewrite Hs. fold (tok (join " " (map (join " ") groups))).
  rewrite tok_join.
  induction groups as [|g groups IH]; [reflexivity|].
  cbn [List.concat] in H. apply Forall_app in H as [Hg Hgs].
  cbn [map flat_map List.concat]. rewrite tok_join.
  rewrite IH.
  - f_equal. apply flat_map_tok_fixed. revert Hg. apply Forall_impl. now intros t [_ Ht].
  - exact Hgs.
  - cbn [map] in Hs. now injection Hs.
Qed.

Lemma index_of_app_skip (x : string) (a b : list string) :
  Forall (fun t => t <> x) a ->
  index_of x (a ++ x :: b)%list = Some (List.length a).
Proof.
  induction 1 as [|t a Ht Ha IH]; cbn [app index_of List.length].
  - now rewrite String.eqb_refl.
  - apply String.eqb_neq in Ht. now rewrite Ht, IH.
Qed.

Lemma plain_not_assign (t : string) : plain t = true -> t <> ":=".
Proof. intros H ->. discriminate. Qed.

Lemma plain_not_semicolon (t : string) : plain t = true -> t <> ";".
Proof. intros H ->. discriminate. Qed.

(** Whatever the spacing and the line breaks of a block, when its tokens
    are [set], a name, [:=], elements without a semicolon token among
    them, and [;], the block gives the name and the elements; what
    follows the semicolon token is not read. *)
Lemma parse_set_tokens (dat_name S : string) (block es junk : list string) :
  set_tokens block = ("set" :: S :: ":=" :: es ++ ";" :: junk)%list ->
  S <> ":=" -> S <> ";" -> ~ In ";" es ->
  parse_set dat_name block = Ok (S, es).
Proof.
  intros Htok HS1 HS2 Hes. unfold parse_set.
  change (split_ws (replace ";" " ; " (set_joined block))) with (set_tokens block).
  rewrite Htok. cbn [nth_error mem_str existsb].
  rewrite String.eqb_refl, !orb_true_r. cbn [negb].
  assert (Hi1 : index_of ":=" ("set" :: S :: ":=" :: es ++ ";" :: junk)%list = Some 2).
  { apply (index_of_app_skip ":=" ["set"; S] (es ++ ";" :: junk)%list).
    repeat constructor; [discriminate | assumption]. }
  assert (Hi : index_of ";" ("set" :: S :: ":=" :: es ++ ";" :: junk)%list
               = Some (3 + List.length es)).
  { change ("set" :: S :: ":=" :: es ++ ";" :: junk)%list
      with (["set"; S; ":="] ++ es ++ ";" :: junk)%list.
    rewrite app_assoc, index_of_app_skip; [now rewrite length_app|].
    apply Forall_app. split.
    - repeat constructor; [discriminate | assumption | discriminate].
    - apply Forall_forall. intros t Ht ->. contradiction. }
  rewrite Hi1, Hi. unfold slice.
  replace (3 + List.length es - (2 + 1)) with (List.length es) by lia.
  cbn [Nat.add skipn].
  now rewrite firstn_app, firstn_all, Nat.sub_diag, firstn_O, app_nil_r.
Qed.

Example run_set_spacing :
  parse_dat (file ("  set HORAS:=H01" ++ tab ++ "H02  # first hours" ++ nl ++ nl
                   ++ "H03;  # done"))
  = Ok {| sets := [("HORAS", ["H01"; "H02"; "H03"])]; params := [] |}.
Proof. vm_compute. reflexivity. Qed.

(** C5, as the code has it. A set statement whose tokens [set], [S],
    [:=], the elements and [;] stand on one or more lines, separated by
    single blanks inside a line, gives [sets[S]] the elements in their
    order and spelling, wherever the line breaks fall, as long as the
    first line holds [set] and the name after it and no line of the
    statement is empty. The name and the elements are plain tokens; the
    scan goes on behind the line of the semicolon. *)
Theorem C5_set_statement_over_lines :
  forall (dat_name S : string) (es g0 : list string) (gs : list (list string))
         (rest : list string) (doc : Document),
    plain S = true ->
    forallb plain es = true ->
    List.concat (g0 :: gs) = ([":="] ++ es ++ [";"])%list ->
    Forall (fun g => g <> []) gs ->
    parse_loop dat_name 0
      (map (join " ") (("set" :: S :: g0) :: gs) ++ rest)%list doc
    = parse_loop dat_name 0 rest (set_sets S es doc).
Proof.
  intros dat_name S es g0 gs rest doc HS Hes Hcat Hgs.
  set (groups := ("set" :: S :: g0) :: gs).
  assert (Hall : List.concat groups = (["set"; S; ":="] ++ es ++ [";"])%list).
  { unfold groups. cbn [List.concat app] in *. now rewrite Hcat. }
  assert (Hplain : Forall (fun t => plain t = true) es).
  { apply Forall_forall. now apply forallb_forall. }
  assert (Htok : Forall (fun t => is_token t = true /\ tok t = [t]) (List.concat groups)).
  { rewrite Hall. repeat apply Forall_cons; [now split | | now split |].
    - split; [now apply plain_is_token | now apply tok_plain].
    - apply Forall_app. split; [|repeat constructor].
      revert Hplain. apply Forall_impl. intros t Ht.
      split; [now apply plain_is_token | now apply tok_plain]. }
  destruct (set_tokens_groups groups Htok) as [Hstrip Htokens].
  remember (join " " ("set" :: S :: g0)) as l0 eqn:El0.
  remember (map (join " ") gs) as ls eqn:Els.
  assert (Hlines : map (join " ") groups = l0 :: ls)
    by (unfold groups; cbn [map]; now rewrite El0, Els).
  rewrite Hlines in Hstrip, Htokens.
  assert (Hl0 : _strip_comments l0 = l0) by (cbn [map] in Hstrip; congruence).
  rewrite Hlines. cbn [app].
  assert (Hstart : startswith "set " (_strip_comments l0) = true).
  { rewrite Hl0, El0. destruct g0; reflexivity. }
  assert (Hcol : collect (_strip_comments l0) (ls ++ rest)%list = ls).
  { rewrite Hl0, El0, Els. apply (collect_groups _ gs (["set"; S; ":="] ++ es)%list).
    - exact Hall.
    - repeat apply Forall_cons; [reflexivity | now apply plain_no_semicolon | reflexivity |].
      revert Hplain. apply Forall_impl. intros t. apply plain_no_semicolon.
    - exact Hgs. }
  apply parse_loop_turn.
  rewrite statement_set by assumption. rewrite Hcol, Hl0.
  unfold parse_set.
  change (split_ws (replace ";" " ; " (set_joined (l0 :: ls))))
    with (set_tokens (l0 :: ls)).
  rewrite Htokens, Hall.
  cbn [app nth_error mem_str existsb].
  rewrite String.eqb_refl, !orb_true_r. cbn [negb].
  assert (Hi1 : index_of ":=" ("set" :: S :: ":=" :: es ++ [";"])%list = Some 2).
  { apply (index_of_app_skip ":=" ["set"; S] (es ++ [";"])%list).
    repeat constructor; [discriminate | now apply plain_not_assign]. }
  assert (Hi2 : index_of ";" ("set" :: S :: ":=" :: es ++ [";"])%list
                = Some (3 + List.length es)).
  { change ("set" :: S :: ":=" :: es ++ [";"])%list
      with (["set"; S; ":="] ++ es ++ [";"])%list.
    rewrite app_assoc, index_of_app_skip; [now rewrite length_app|].
    apply Forall_app. split.
    - repeat constructor; [discriminate | now apply plain_not_semicolon | discriminate].
    - revert Hplain. apply Forall_impl. intros t. apply plain_not_semicolon. }
  rewrite Hi1, Hi2. cbn [bind]. unfold slice.
  replace (3 + List.length es - (2 + 1)) with (List.length es) by lia.
  cbn [Nat.add skipn].
  now rewrite firstn_app, firstn_all, Nat.sub_diag, app_nil_r.
Qed.

Lemma C5_witness :
  plain "HORAS" = true
  /\ forallb plain ["H01"; "H02"; "H03"] = true
  /\ parse_dat (file ("set HORAS := H01" ++ nl ++ "H02" ++ nl ++ "H03 ;"))
     = Ok {| sets := [("HORAS", ["H01"; "H02"; "H03"])]; params := [] |}
  /\ parse_dat (file ("set HORAS" ++ nl ++ ":=" ++ nl ++ "H01 H02 H03" ++ nl ++ ";"))
     = Ok {| sets := [("HORAS", ["H01"; "H02"; "H03"])]; params := [] |}.
Proof.
  split; [reflexivity|]. split; [reflexivity|]. split.
  - refine (C5_set_statement_over_lines
              "case.dat" "HORAS" ["H01"; "H02"; "H03"] [":="; "H01"]
              [["H02"]; ["H03"; ";"]] [] empty_document _ _ _ _);
      [reflexivity | reflexivity | reflexivity | repeat constructor; discriminate].
  - refine (C5_set_statement_over_lines
              "case.dat" "HORAS" ["H01"; "H02"; "H03"] []
              [[":="]; ["H01"; "H02"; "H03"]; [";"]] [] empty_document _ _ _ _);
      [reflexivity | reflexivity | reflexivity | repeat constructor; discriminate].
Defined.

(** With the line break right after [set], no line starts with [set ]
    and the statement is passed over. *)
Lemma C5_counterexample :
  parse_dat (file ("set" ++ nl ++ "S := a b ;"))
  = Ok {| sets := []; params := [] |}.
Proof. vm_compute. reflexivity. Qed.

(** ** Scalar statements *)

Lemma re_match_one (it : item) (pat : list item) (c : ascii) (s : string) :
  rep it = One ->
  re_match (it :: pat) (String c s)
  = if cls it c then option_map (cons (String c "")) (re_match pat s) else None.
Proof.
  intros H. cbn [re_match]. rewrite H.
  destruct (cls it c); [|reflexivity]. now destruct (re_match pat s).
Qed.

Lemma re_match_star_nil (it : item) (pat : list item) :
  rep it = Star ->
  re_match (it :: pat) "" = option_map (cons "") (re_match pat "").
Proof. intros H. cbn [re_match]. rewrite H. now destruct (re_match pat ""). Qed.

Lemma re_match_star_cons (it : item) (pat : list item) (c : ascii) (s : string) :
  rep it = Star ->
  re_match (it :: pat) (String c s)
  = if cls it c then
      match re_match (it :: pat) s with
      | Some (g :: gs) => Some (String c g :: gs)
      | _ => option_map (cons "") (re_match pat (String c s))
      end
    else option_map (cons "") (re_match pat (String c s)).
Proof.
  intros H. cbn [re_match]. rewrite H.
  destruct (cls it c); [|now destruct (re_match pat (String c s))].
  match goal with |- match ?a with _ => _ end = match ?b with _ => _ end =>
    change a with b; destruct b as [[|g gs]|] end;
    try reflexivity; now destruct (re_match pat (String c s)).
Qed.

Lemma re_match_plus (it : item) (pat : list item) (c : ascii) (s : string) :
  rep it = Plus ->
  re_match (it :: pat) (String c s)
  = if cls it c then
      match re_match (Item (cls it) Star (grp it) :: pat) s with
      | Some (g :: gs) => Some (String c g :: gs)
      | _ => None
      end
    else None.
Proof.
  intros H. cbn [re_match]. rewrite H. cbn [rep cls].
  destruct (cls it c); reflexivity.
Qed.

(** A starred class that has matched from [s] on matches as well from
    a run of the class put before [s], and consumes the run too. *)
Lemma re_match_star_prepend (it : item) (pat : list item) (r s g : string)
  (gs : list string) :
  rep it = Star -> all_chars (cls it) r = true ->
  re_match (it :: pat) s = Some (g :: gs) ->
  re_match (it :: pat) (r ++ s) = Some ((r ++ g) :: gs).
Proof.
  intros Hrep Hr Hs. induction r as [|c r IH]; [exact Hs|].
  cbn [all_chars] in Hr. apply andb_true_iff in Hr as [Hc Hr].
  cbn [append]. rewrite re_match_star_cons by assumption.
  now rewrite Hc, (IH Hr).
Qed.

Lemma re_match_star_stop (it : item) (pat : list item) (t : string) :
  rep it = Star -> stops (cls it) t = true ->
  re_match (it :: pat) t = option_map (cons "") (re_match pat t).
Proof.
  intros Hrep Ht. destruct t as [|c t].
  - now apply re_match_star_nil.
  - rewrite re_match_star_cons by assumption.
    cbn [stops] in Ht. apply negb_true_iff in Ht. now rewrite Ht.
Qed.

Lemma re_match_star_run (it : item) (pat : list item) (r t : string)
  (gs : list string) :
  rep it = Star -> all_chars (cls it) r = true -> stops (cls it) t = true ->
  re_match pat t = Some gs ->
  re_match (it :: pat) (r ++ t) = Some (r :: gs).
Proof.
  intros Hrep Hr Ht Hgs.
  rewrite (re_match_star_prepend it pat r t "" gs); try assumption.
  - now rewrite append_nil_r.
  - rewrite re_match_star_stop by assumption. now rewrite Hgs.
Qed.

Lemma re_match_plus_run (it : item) (pat : list item) (c : ascii) (r t : string)
  (gs : list string) :
  rep it = Plus -> cls it c = true -> all_chars (cls it) r = true ->
  stops (cls it) t = true -> re_match pat t = Some gs ->
  re_match (it :: pat) (String c r ++ t) = Some (String c r :: gs).
Proof.
  intros Hrep Hc Hr Ht Hgs. cbn [append].
  rewrite re_match_plus by assumption. rewrite Hc.
  now rewrite (re_match_star_run (Item (cls it) Star (grp it)) pat r t gs).
Qed.

(** *** Character classes *)

Lemma space_not_word (c : ascii) : isspace c = true -> is_word c = false.
Proof. destruct c as [[] [] [] [] [] [] [] []]; vm_compute; congruence. Qed.

Lemma alpha_not_space (c : ascii) : is_alpha_us c = true -> isspace c = false.
Proof. destruct c as [[] [] [] [] [] [] [] []]; vm_compute; congruence. Qed.

Lemma space_not_semicolon (c : ascii) : isspace c = true -> not_semicolon c = true.
Proof. destruct c as [[] [] [] [] [] [] [] []]; vm_compute; congruence. Qed.

(** A text is a run of whitespace followed by a text that stops it. *)
Lemma span_space (s : string) :
  exists w r, s = w ++ r /\ all_chars isspace w = true /\ stops isspace r = true.
Proof.
  induction s as [|c s (w & r & E & Hw & Hr)].
  - exists "", "". repeat split.
  - destruct (isspace c) eqn:Hc.
    + exists (String c w), r. cbn. now rewrite E, Hc, Hw.
    + exists "", (String c s). cbn. now rewrite Hc.
Qed.

Lemma all_chars_last (p : ascii -> bool) (s : string) :
  s <> "" -> all_chars p s = true ->
  exists a z, s = a ++ String z "" /\ all_chars p a = true /\ p z = true.
Proof.
  induction s as [|c s IH]; [congruence|]. intros _ H.
  cbn [all_chars] in H. apply andb_true_iff in H as [Hc Hs].
  destruct s as [|d s'].
  - exists "", c. repeat split. exact Hc.
  - destruct (IH ltac:(discriminate) Hs) as (a & z & E & Ha & Hz).
    exists (String c a), z. cbn [append all_chars]. now rewrite <- E, Hc, Ha.
Qed.

(** The value group holds the text between the equals sign and the
    semicolon, short of whitespace at its ends at most. *)
Lemma re_match_value (rhs : string) :
  rhs <> "" -> all_chars not_semicolon rhs = true ->
  exists g0 g2,
    re_match value_re (rhs ++ ";") = Some [g0; g2; ""; ";"; ""]
    /\ strip g2 = strip rhs.
Proof.
  intros Hne Hns. unfold value_re.
  destruct (span_space rhs) as (w & r & -> & Hw & Hr).
  destruct r as [|c r].
  - rewrite append_nil_r in *.
    destruct (all_chars_last isspace w Hne Hw) as (a & z & -> & Ha & Hz).
    exists (a ++ ""), (String z ""). split.
    + rewrite append_assoc. cbn [append].
      apply re_match_star_prepend; [reflexivity | exact Ha |].
      rewrite re_match_star_cons by reflexivity. cbn [cls]. rewrite Hz.
      replace (re_match
                 (Item isspace Star 0
                  :: [Item not_semicolon Plus 2; Item isspace Star 0; lit ";";
                      Item isspace Star 0]) ";")
        with (@None (list string)) by reflexivity.
      rewrite re_match_plus by reflexivity. cbn [cls grp].
      rewrite (space_not_semicolon z Hz). reflexivity.
    + rewrite (strip_all_space (String z "")) by (cbn; now rewrite Hz).
      now rewrite strip_all_space.
  - exists w, (String c r). split.
    + rewrite all_chars_append in Hns. apply andb_true_iff in Hns as [_ Hns].
      cbn [all_chars] in Hns. apply andb_true_iff in Hns as [Hc Hcr].
      rewrite append_assoc.
      apply re_match_star_run; [reflexivity | exact Hw | exact Hr |].
      apply re_match_plus_run; try reflexivity; assumption.
    + unfold strip. now rewrite strip_with_space.
Qed.

(** A line of the shape param NAME = VALUE ; matches the pattern of a
    scalar statement, with the name and the value as its groups. *)
Lemma m_scalar_shape (ws1 ns ws2 rhs : string) (n0 : ascii) :
  ws1 <> "" -> all_chars isspace ws1 = true ->
  is_alpha_us n0 = true -> all_chars is_word ns = true ->
  all_chars isspace ws2 = true ->
  rhs <> "" -> all_chars not_semicolon rhs = true ->
  exists g2,
    m_scalar ("param" ++ ws1 ++ String n0 ns ++ ws2 ++ "=" ++ rhs ++ ";")
    = Some (String n0 ns, g2)
    /\ strip g2 = strip rhs.
Proof.
  intros Hw1ne Hw1 Hn0 Hns Hw2 Hrne Hrhs.
  destruct (re_match_value rhs Hrne Hrhs) as (g0 & g2 & Hv & Hstrip).
  exists g2. split; [|exact Hstrip].
  assert (E1 : re_match (lit "=" :: value_re) ("=" ++ rhs ++ ";")
               = Some ("=" :: [g0; g2; ""; ";"; ""])).
  { cbn [append]. rewrite re_match_one by reflexivity. cbn [cls lit].
    now rewrite Ascii.eqb_refl, Hv. }
  assert (E2 : re_match (Item isspace Star 0 :: lit "=" :: value_re)
                        (ws2 ++ "=" ++ rhs ++ ";")
               = Some (ws2 :: "=" :: [g0; g2; ""; ";"; ""])).
  { apply re_match_star_run; [reflexivity | exact Hw2 | reflexivity | exact E1]. }
  assert (E3 : re_match (Item is_word Star 1 :: Item isspace Star 0 :: lit "=" :: value_re)
                        (ns ++ ws2 ++ "=" ++ rhs ++ ";")
               = Some (ns :: ws2 :: "=" :: [g0; g2; ""; ";"; ""])).
  { apply re_match_star_run; [reflexivity | exact Hns | | exact E2].
    destruct ws2 as [|c ws2]; [reflexivity|].
    cbn [all_chars] in Hw2. apply andb_true_iff in Hw2 as [Hc _].
    cbn [append stops cls]. now rewrite (space_not_word c Hc). }
  assert (E4 : re_match (Item is_alpha_us One 1 :: Item is_word Star 1
                         :: Item isspace Star 0 :: lit "=" :: value_re)
                        (String n0 ns ++ ws2 ++ "=" ++ rhs ++ ";")
               = Some (String n0 "" :: ns :: ws2 :: "=" :: [g0; g2; ""; ";"; ""])).
  { change (String n0 ns ++ ws2 ++ "=" ++ rhs ++ ";")
      with (String n0 (ns ++ ws2 ++ "=" ++ rhs ++ ";")).
    rewrite re_match_one by reflexivity. cbn [cls].
    now rewrite Hn0, E3. }
  destruct ws1 as [|s1 ws1]; [congruence|].
  cbn [all_chars] in Hw1. apply andb_true_iff in Hw1 as [Hs1 Hw1].
  assert (E5 : re_match (Item isspace Plus 0 :: Item is_alpha_us One 1
                         :: Item is_word Star 1 :: Item isspace Star 0
                         :: lit "=" :: value_re)
                        (String s1 ws1 ++ String n0 ns ++ ws2 ++ "=" ++ rhs ++ ";")
               = Some (String s1 ws1 :: String n0 "" :: ns :: ws2 :: "="
                       :: [g0; g2; ""; ";"; ""])).
  { apply re_match_plus_run; try reflexivity; try assumption.
    cbn [append stops cls]. now rewrite (alpha_not_space n0 Hn0). }
  unfold m_scalar.
  change scalar_re
    with (lit "p" :: lit "a" :: lit "r" :: lit "a" :: lit "m"
          :: Item isspace Plus 0 :: Item is_alpha_us One 1
          :: Item is_word Star 1 :: Item isspace Star 0 :: lit "=" :: value_re).
  cbn [append]. rewrite !re_match_one by reflexivity. cbn [cls lit].
  rewrite !Ascii.eqb_refl.
  change (String s1 (ws1 ++ String n0 (ns ++ ws2 ++ String "=" (rhs ++ ";"))))
    with (String s1 ws1 ++ String n0 ns ++ ws2 ++ "=" ++ rhs ++ ";").
  rewrite E5. cbn [option_map group grp lit value_re Nat.eqb append].
  now rewrite !append_nil_r.
Qed.

(** C4. At a line of the shape param NAME = VALUE ; (one or more blanks
    after param, optional blanks around the equals sign, a value of one
    or more characters other than the semicolon, the semicolon last),
    the turn of the scan never raises and takes this line only; it binds
    NAME to the float of the value, stripped of the whitespace at its
    ends, when [float] accepts it, and to the stripped text itself
    otherwise. *)
Theorem C4_scalar_statement :
  forall (dat_name raw : string) (rest : list string) (doc : Document)
         (ws1 ns ws2 rhs : string) (n0 : ascii),
    _strip_comments raw = "param" ++ ws1 ++ String n0 ns ++ ws2 ++ "=" ++ rhs ++ ";" ->
    ws1 <> "" -> all_chars isspace ws1 = true ->
    is_alpha_us n0 = true -> all_chars is_word ns = true ->
    all_chars isspace ws2 = true ->
    rhs <> "" -> all_chars not_semicolon rhs = true ->
    let val := match py_float (strip rhs) with
               | Some x => VFloat x
               | None => VStr (strip rhs)
               end in
    statement dat_name raw rest doc = Ok (0, set_params (String n0 ns) val doc)
    /\ parse_loop dat_name 0 (raw :: rest) doc
       = parse_loop dat_name 0 rest (set_params (String n0 ns) val doc)
    /\ dict_get (String n0 ns) (params (set_params (String n0 ns) val doc)) = Some val.
Proof.
  intros dat_name raw rest doc ws1 ns ws2 rhs n0 Hline Hw1ne Hw1 Hn0 Hns Hw2 Hrne Hrhs val.
  destruct (m_scalar_shape ws1 ns ws2 rhs n0 Hw1ne Hw1 Hn0 Hns Hw2 Hrne Hrhs)
    as (g2 & Hm & Hstrip).
  assert (Hst : statement dat_name raw rest doc
                = Ok (0, set_params (String n0 ns) val doc)).
  { unfold statement. rewrite Hline, Hm. cbn [append is_empty].
    unfold scalar_value. now rewrite Hstrip. }
  repeat split.
  - exact Hst.
  - cbn [parse_loop]. rewrite Hst. now destruct rest.
  - cbn [set_params params]. apply dict_get_set_eq.
Qed.

(** [float] decides what is a number: it takes the infinities, the
    not-a-number and digits grouped by underscores. *)
Example run_scalar_values :
  parse_dat (file ("param A = nan;" ++ nl ++ "param B = -inf ;" ++ nl
                   ++ "param C = 1_000;" ++ nl ++ "param D = 1,5;" ++ nl
                   ++ "param E = ;"))
  = Ok {| sets := [];
          params := [("A", VFloat S754_nan); ("B", VFloat (S754_infinity true));
                     ("C", VFloat (float_of_Z 1000)); ("D", VStr "1,5");
                     ("E", VStr "")] |}.
Proof. vm_compute. reflexivity. Qed.

Lemma C4_witness :
  _strip_comments "param HedgeRate=0.8;" = "param" ++ " " ++ "HedgeRate" ++ "" ++ "=" ++ "0.8" ++ ";"
  /\ parse_dat (file "param HedgeRate=0.8;")
     = Ok {| sets := [];
             params := [("HedgeRate", VFloat (S754_finite false 7205759403792794 (-53)))] |}
  /\ parse_dat (file "  param   Label =  peak hours ;  # a label")
     = Ok {| sets := []; params := [("Label", VStr "peak hours")] |}.
Proof.
  split; [reflexivity|]. split.
  - refine (proj1 (proj2 (C4_scalar_statement
                            "case.dat" "param HedgeRate=0.8;" [] empty_document
                            " " "edgeRate" "" "0.8" "H" _ _ _ _ _ _ _ _)));
      (reflexivity || discriminate).
  - refine (proj1 (proj2 (C4_scalar_statement
                            "case.dat" "  param   Label =  peak hours ;  # a label" []
                            empty_document
                            "   " "abel" " " "  peak hours " "L" _ _ _ _ _ _ _ _)));
      (reflexivity || discriminate).
Defined.

(** ** The errors of the reader *)

Lemma param_rows_raise (data : list string) (m : dict pyfloat) (e : exn) :
  param_rows data m = Raise e -> exists v, e = ValueError_float v /\ py_float v = None.
Proof.
  revert m. induction data as [|l data IH]; intros m; [discriminate|].
  rewrite param_rows_cons.
  destruct (line_pair l) as [[k v]|]; [|apply IH].
  destruct (py_float v) eqn:E; [apply IH|].
  intros [= <-]. now exists v.
Qed.

Lemma row_dict_raise (cols vals : list string) (d : dict pyfloat) (e : exn) :
  List.length vals = List.length cols ->
  row_dict cols vals d = Raise e -> exists v, e = ValueError_float v /\ py_float v = None.
Proof.
  revert vals d. induction cols as [|c cols IH]; intros [|v vals] d; try discriminate.
  cbn [List.length row_dict]. intros [= Hlen].
  destruct (py_float v) eqn:E; [now apply IH|].
  intros [= <-]. now exists v.
Qed.

Lemma table_rows_raise (cols data : list string) (t : dict (dict pyfloat)) (e : exn) :
  table_rows cols data t = Raise e -> exists v, e = ValueError_float v /\ py_float v = None.
Proof.
  revert t. induction data as [|l data IH]; intros t; [discriminate|].
  rewrite table_rows_cons.
  destruct (line_row l) as [[row more]|]; [|apply IH].
  destruct (Nat.eqb _ _) eqn:Hlen; [|apply IH].
  apply Nat.eqb_eq in Hlen.
  destruct (row_dict cols _ []) as [d|e'] eqn:E; [apply IH|].
  intros [= <-]. now apply (row_dict_raise _ _ _ _ Hlen) in E.
Qed.

(** A turn raises one of three errors: the one of a malformed set
    block, the one of the search for the semicolon of a set block, or
    the one of [float] in a param block. The searches by position in the
    first line of a block do not fail. *)
Lemma statement_raise (dat_name raw : string) (rest : list string) (doc : Document)
  (e : exn) :
  statement dat_name raw rest doc = Raise e ->
  (exists msg, e = ValueError_malformed msg)
  \/ e = ValueError_index ";"
  \/ (exists v, e = ValueError_float v /\ py_float v = None).
Proof.
  unfold statement.
  destruct (is_empty (_strip_comments raw)); [discriminate|].
  destruct (m_scalar (_strip_comments raw)) as [[nm val]|]; [discriminate|].
  destruct (startswith "set " (_strip_comments raw)) eqn:Hset.
  { unfold parse_set.
    destruct (set_tokens_head raw (collect (_strip_comments raw) rest) Hset)
      as (t & ts & E).
    unfold set_tokens in E. rewrite E. cbn [nth_error].
    destruct (mem_str ":=" ("set" :: t :: ts)) eqn:Hm; cbn [negb bind].
    - destruct (mem_str_index _ _ Hm) as [i ->].
      destruct (index_of ";" ("set" :: t :: ts)); cbn [bind]; [discriminate|].
      intros [= <-]. right. now left.
    - intros [= <-]. left. eauto. }
  destruct (is_param_block (_strip_comments raw)) eqn:Hp; [|discriminate].
  destruct (colon_before_assign (_strip_comments raw)) eqn:Hc; cbn [negb andb].
  2:{
    rewrite parse_param1d_eq by (now apply is_param_block_prefix).
    destruct (param_rows _ []) as [m|e'] eqn:E; cbn [bind]; [discriminate|].
    intros [= <-]. right. right. now apply param_rows_raise in E. }
  rewrite parse_table_eq by (assumption || now apply is_param_block_prefix).
  destruct (table_rows _ _ []) as [t|e'] eqn:E; cbn [bind]; [discriminate|].
  intros [= <-]. right. right. now apply table_rows_raise in E.
Qed.

Lemma parse_loop_raise (dat_name : string) (lines : list string) (skip : nat)
  (doc : Document) (e : exn) :
  parse_loop dat_name skip lines doc = Raise e ->
  (exists msg, e = ValueError_malformed msg)
  \/ e = ValueError_index ";"
  \/ (exists v, e = ValueError_float v /\ py_float v = None).
Proof.
  revert skip doc. induction lines as [|raw rest IH]; intros skip doc; [discriminate|].
  cbn [parse_loop]. destruct skip as [|k]; [|apply IH].
  destruct (statement dat_name raw rest doc) as [[k doc']|e'] eqn:E; [apply IH|].
  intros [= <-]. now apply statement_raise in E.
Qed.

(** The document that the scan returns has each name once in each of
    its two mappings. *)
Lemma parse_loop_well_keyed (dat_name : string) (lines : list string) (skip : nat)
  (doc doc' : Document) :
  well_keyed doc -> parse_loop dat_name skip lines doc = Ok doc' -> well_keyed doc'.
Proof.
  revert skip doc. induction lines as [|raw rest IH]; intros skip doc W.
  - now intros [= <-].
  - cbn [parse_loop]. destruct skip as [|k]; [|now apply IH].
    destruct (statement dat_name raw rest doc) as [[k d]|e] eqn:E; [|discriminate].
    apply IH. now apply (statement_well_keyed _ _ _ _ _ _ W E).
Qed.

(** ** What a match has read *)

Lemma re_match_star_inv (it : item) (pat : list item) (s : string) (gs : list string) :
  rep it = Star -> re_match (it :: pat) s = Some gs ->
  exists g gs' s', gs = g :: gs' /\ s = g ++ s'
                   /\ all_chars (cls it) g = true /\ re_match pat s' = Some gs'.
Proof.
  intros Hrep. revert gs. induction s as [|c s IH]; intros gs.
  - rewrite re_match_star_nil by assumption.
    destruct (re_match pat "") as [gs'|] eqn:E; [|discriminate].
    intros [= <-]. now exists "", gs', "".
  - rewrite re_match_star_cons by assumption.
    assert (Hstop : option_map (cons "") (re_match pat (String c s)) = Some gs ->
      exists g gs' s', gs = g :: gs' /\ String c s = g ++ s'
                       /\ all_chars (cls it) g = true /\ re_match pat s' = Some gs').
    { destruct (re_match pat (String c s)) as [gs'|] eqn:E; [|discriminate].
      intros [= <-]. now exists "", gs', (String c s). }
    destruct (cls it c) eqn:Hc; [|exact Hstop].
    destruct (re_match (it :: pat) s) as [[|g gs']|] eqn:E; try exact Hstop.
    intros [= <-].
    destruct (IH _ eq_refl) as (g0 & gs0 & s0 & [= -> ->] & -> & Hg & Hm).
    exists (String c g0), gs0, s0. repeat split; try assumption.
    cbn [all_chars]. now rewrite Hc, Hg.
Qed.

(** A match reads the text from its start: the groups, in their order,
    make up the text, short of a final line feed at most. *)
Lemma re_match_sound (pat : list item) (s : string) (gs : list string) :
  re_match pat s = Some gs ->
  exists tl, s = consumed gs ++ tl /\ at_end tl = true /\ Forall2 item_read pat gs.
Proof.
  revert s gs. induction pat as [|it pat IH]; intros s gs.
  - cbn [re_match]. destruct (at_end s) eqn:E; [|discriminate].
    intros [= <-]. exists s. repeat split; [exact E | constructor].
  - destruct (rep it) eqn:Hrep.
    + destruct s as [|c s]; [cbn [re_match]; now rewrite Hrep|].
      rewrite re_match_one by assumption.
      destruct (cls it c) eqn:Hc; [|discriminate].
      destruct (re_match pat s) as [gs'|] eqn:E; [|discriminate].
      intros [= <-]. destruct (IH _ _ E) as (tl & -> & Htl & Hall).
      exists tl. repeat split; [exact Htl|]. constructor; [|exact Hall].
      split; [cbn; now rewrite Hc | now rewrite Hrep].
    + intros H.
      destruct (re_match_star_inv it pat s gs Hrep H) as (g & gs' & s' & -> & -> & Hg & Hm).
      destruct (IH _ _ Hm) as (tl & -> & Htl & Hall).
      exists tl. cbn [consumed]. rewrite append_assoc.
      repeat split; [exact Htl|]. constructor; [|exact Hall].
      split; [exact Hg | now rewrite Hrep].
    + destruct s as [|c s]; [cbn [re_match]; now rewrite Hrep|].
      rewrite re_match_plus by assumption.
      destruct (cls it c) eqn:Hc; [|discriminate].
      destruct (re_match (Item (cls it) Star (grp it) :: pat) s) as [[|g gs']|] eqn:E;
        try discriminate.
      intros [= <-].
      destruct (re_match_star_inv (Item (cls it) Star (grp it)) pat s _ eq_refl E)
        as (g0 & gs0 & s0 & [= -> ->] & -> & Hg & Hm).
      destruct (IH _ _ Hm) as (tl & -> & Htl & Hall).
      exists tl. cbn [consumed append]. rewrite append_assoc.
      repeat split; [exact Htl|]. constructor; [|exact Hall].
      split; [cbn [all_chars cls] in *; now rewrite Hc, Hg | now rewrite Hrep].
Qed.

Lemma item_read_lit (c : ascii) (g : string) :
  item_read (lit c) g -> g = String c "".
Proof.
  intros [Hall Hlen]. cbn [lit rep cls] in *.
  destruct g as [|x [|y g]]; try discriminate.
  cbn in Hall. rewrite andb_true_r in Hall. now apply Ascii.eqb_eq in Hall as ->.
Qed.

(** The lines that match the pattern of a scalar statement are the lines
    of the shape param NAME = VALUE ; and no others. *)
Lemma m_scalar_inv (line nm val : string) :
  m_scalar line = Some (nm, val) ->
  exists ws1 n0 ns ws2 g0 w3 w4 tl,
    line = "param" ++ ws1 ++ nm ++ ws2 ++ "=" ++ g0 ++ val ++ w3 ++ ";" ++ w4 ++ tl
    /\ nm = String n0 ns
    /\ ws1 <> "" /\ all_chars isspace ws1 = true
    /\ is_alpha_us n0 = true /\ all_chars is_word ns = true
    /\ all_chars isspace ws2 = true /\ all_chars isspace g0 = true
    /\ val <> "" /\ all_chars not_semicolon val = true
    /\ all_chars isspace w3 = true /\ all_chars isspace w4 = true
    /\ at_end tl = true.
Proof.
  unfold m_scalar. destruct (re_match scalar_re line) as [gs|] eqn:E; [|discriminate].
  destruct (re_match_sound _ _ _ E) as (tl & Hline & Htl & Hall). clear E.
  unfold scalar_re, value_re in Hall |- *. cbn [app] in Hall |- *.
  pose proof (Forall2_length Hall) as Hlen. cbn [List.length] in Hlen.
  destruct gs as [|a1 [|a2 [|a3 [|a4 [|a5 [|ws1 [|gn [|ns [|ws2 [|ge [|g0 [|v [|w3
    [|sc [|w4 [|x gs]]]]]]]]]]]]]]]]; try discriminate Hlen.
  repeat match goal with
         | H : Forall2 _ (_ :: _) (_ :: _) |- _ => inversion H; clear H; subst
         end.
  repeat match goal with
         | H : item_read (lit _) _ |- _ => apply item_read_lit in H; subst
         end.
  repeat match goal with
         | H : item_read _ _ |- _ => destruct H as [? ?]
         end.
  cbn [cls rep] in *.
  destruct gn as [|n0 [|? ?]]; try discriminate.
  cbn [group grp lit Nat.eqb]. rewrite !append_nil_r. cbn [append].
  intros [= <- <-].
  exists ws1, n0, ns, ws2, g0, w3, w4, tl.
  split; [|repeat split; try assumption].
  - cbn [consumed append]. repeat (rewrite !append_assoc; cbn [append]).
    reflexivity.
  - match goal with H : all_chars is_alpha_us _ = true |- _ =>
      cbn [all_chars] in H; now rewrite andb_true_r in H end.
Qed.

(** A line without a semicolon is not a scalar statement. *)
Lemma m_scalar_semicolon (line : string) :
  mem_char ";" line = false -> m_scalar line = None.
Proof.
  intros H. destruct (m_scalar line) as [[nm val]|] eqn:E; [|reflexivity].
  apply m_scalar_inv in E as (ws1 & n0 & ns & ws2 & g0 & w3 & w4 & tl & -> & _).
  rewrite !mem_char_append in H. cbn [mem_char append] in H.
  rewrite Ascii.eqb_refl in H. cbn [orb] in H.
  now rewrite !orb_true_r in H.
Qed.

(** * The reader as a whole *)

(** ** Comments and tokens *)

Lemma mem_char_before_self (c : ascii) (s : string) :
  mem_char c (before (String c "") s) = false.
Proof.
  unfold before. induction s as [|d s IH]; [reflexivity|].
  cbn [split1 startswith]. destruct (Ascii.eqb c d) eqn:E.
  - destruct s; reflexivity.
  - cbn [andb]. destruct (split1 (String c "") s) as [b a].
    cbn [fst mem_char] in *. now rewrite E, IH.
Qed.

Lemma before_append_char (c : ascii) (a b : string) :
  mem_char c a = false -> before (String c "") (a ++ String c b) = a.
Proof.
  unfold before. induction a as [|d a IH]; cbn [append mem_char split1 startswith].
  - intros _. rewrite Ascii.eqb_refl. destruct b; reflexivity.
  - intros H. apply orb_false_iff in H as [H1 H2]. rewrite H1. cbn [andb].
    specialize (IH H2). destruct (split1 (String c "") (a ++ String c b)) as [x y].
    cbn [fst] in *. now rewrite IH.
Qed.

Lemma strip_comments_no_hash (s : string) : mem_char "#" (_strip_comments s) = false.
Proof.
  destruct (mem_char "#" (_strip_comments s)) eqn:E; [|reflexivity].
  unfold _strip_comments, strip, strip_with in E.
  apply mem_char_rstrip, mem_char_lstrip in E.
  now rewrite mem_char_before_self in E.
Qed.

(** X1. The text that [_strip_comments] returns holds no [#] and has no
    whitespace at either end, and a second call leaves it as it is. *)
Theorem X1_strip_comments_clean (s : string) :
  mem_char "#" (_strip_comments s) = false
  /\ strip (_strip_comments s) = _strip_comments s
  /\ _strip_comments (_strip_comments s) = _strip_comments s.
Proof.
  split; [apply strip_comments_no_hash|]. split.
  - apply strip_with_idem.
  - apply strip_comments_idem.
Qed.

(** X2. [_strip_comments] reads a line up to its first [#] only: when
    the text [a] holds no [#], the line made of [a], a [#] and any text
    [b] gives [a] without the whitespace at its ends, as the line [a]
    alone does. *)
Theorem X2_comment_text_is_ignored (a b : string) :
  mem_char "#" a = false ->
  _strip_comments (a ++ String "#" b) = strip a /\ _strip_comments a = strip a.
Proof.
  intros H. unfold _strip_comments. split.
  - now rewrite before_append_char.
  - unfold before. now rewrite split1_absent.
Qed.

Lemma X2_witness :
  _strip_comments ("  set A := x ;  " ++ String "#" " the set; of A") = "set A := x ;"
  /\ _strip_comments "  set A := x ;  " = "set A := x ;".
Proof.
  exact (X2_comment_text_is_ignored "  set A := x ;  " " the set; of A" eq_refl).
Defined.

Lemma split_ws_replace_tab (s : string) : split_ws (replace tab " " s) = split_ws s.
Proof.
  unfold replace, tab.
  induction s as [|c s IH]; [reflexivity|].
  cbn [replace_from startswith length Nat.sub].
  destruct (Ascii.eqb "009" c) eqn:E.
  - apply Ascii.eqb_eq in E as <-.
    replace (startswith "" s) with true by (destruct s; reflexivity). cbn [andb append].
    cbn [split_ws]. change (isspace " ") with true. change (isspace "009") with true.
    cbn iota. exact IH.
  - cbn [andb]. cbn [split_ws]. rewrite IH.
    destruct (isspace c); [reflexivity|].
    destruct s as [|d s']; [reflexivity|].
    cbn [replace_from startswith length Nat.sub].
    destruct (Ascii.eqb "009" d) eqn:E'.
    + apply Ascii.eqb_eq in E' as <-.
      replace (startswith "" s') with true by (destruct s'; reflexivity). cbn [andb append].
      reflexivity.
    + cbn [andb]. reflexivity.
Qed.

Lemma tokenize_block_flat_map (lines : list string) :
  _tokenize_block lines = flat_map (fun ln => split_ws (_strip_comments ln)) lines.
Proof.
  induction lines as [|ln lines IH]; [reflexivity|].
  cbn [_tokenize_block flat_map]. rewrite split_ws_replace_tab, IH.
  destruct (_strip_comments ln); reflexivity.
Qed.

(** X3. [_tokenize_block] works line by line. The tokens of two lists
    of lines put one after the other are the tokens of the first
    followed by those of the second; and the tokens of a list are, line
    after line, the words between whitespace of the line without its
    comment: the replacement of tabs and the test for an empty line
    change nothing. *)
Theorem X3_tokenize_block_line_by_line (a b : list string) :
  _tokenize_block (a ++ b)%list = (_tokenize_block a ++ _tokenize_block b)%list
  /\ _tokenize_block a = flat_map (fun ln => split_ws (_strip_comments ln)) a.
Proof.
  split; [|apply tokenize_block_flat_map].
  rewrite !tokenize_block_flat_map. apply flat_map_app.
Qed.

Lemma token_chars (t : string) :
  all_chars nonspace t = true -> mem_char "#" t = false -> all_chars token_char t = true.
Proof.
  induction t as [|c t IH]; [reflexivity|].
  cbn [all_chars mem_char]. unfold token_char, nonspace in *.
  intros H1 H2. apply andb_true_iff in H1 as [Hc Ht].
  apply orb_false_iff in H2 as [Hh Hm].
  rewrite Hc, (IH Ht Hm). cbn [andb].
  rewrite Ascii.eqb_sym, Hh. reflexivity.
Qed.

(** X4. Every token that [_tokenize_block] returns is not empty, holds
    no whitespace and no [#], and has all its characters from one of the
    lines. *)
Theorem X4_tokenize_block_tokens (lines : list string) (t : string) :
  In t (_tokenize_block lines) ->
  is_token t = true
  /\ exists ln, In ln lines /\ forall c, mem_char c t = true -> mem_char c ln = true.
Proof.
  rewrite tokenize_block_flat_map. intros H.
  apply in_flat_map in H as (ln & Hln & Ht).
  apply split_ws_tokens in Ht as (Hne & Hns & Hc).
  split.
  - unfold is_token. destruct t as [|x t]; [congruence|]. cbn [is_empty negb andb].
    apply token_chars; [assumption|].
    destruct (mem_char "#" (String x t)) eqn:E; [|reflexivity].
    apply Hc in E. now rewrite strip_comments_no_hash in E.
  - exists ln. split; [assumption|]. intros c H.
    now apply mem_char_strip_comments, Hc.
Qed.

Lemma X4_witness :
  is_token "b" = true
  /\ exists ln, In ln ["a b # c"; ""; "d"]
                /\ forall c, mem_char c "b" = true -> mem_char c ln = true.
Proof.
  apply (X4_tokenize_block_tokens ["a b # c"; ""; "d"] "b").
  vm_compute. right. left. reflexivity.
Defined.

(** ** Lines that are no statement *)

Lemma startswith_prefix (p q s : string) :
  startswith (p ++ q) s = true -> startswith p s = true.
Proof.
  revert s. induction p as [|a p IH]; intros s; [destruct s; reflexivity|].
  destruct s as [|b s]; [discriminate|]. cbn [append startswith].
  intros H. apply andb_true_iff in H as [H1 H2]. now rewrite H1, (IH s H2).
Qed.

Lemma m_scalar_param (line : string) :
  startswith "param" line = false -> m_scalar line = None.
Proof.
  intros H. destruct (m_scalar line) as [[nm val]|] eqn:E; [|reflexivity].
  apply m_scalar_inv in E as (ws1 & n0 & ns & ws2 & g0 & w3 & w4 & tl & -> & _).
  now rewrite startswith_refl_append in H.
Qed.

Lemma statement_other (dat_name raw : string) (rest : list string) (doc : Document) :
  startswith "set " (_strip_comments raw) = false ->
  startswith "param" (_strip_comments raw) = false ->
  statement dat_name raw rest doc = Ok (0, doc).
Proof.
  intros Hs Hp. unfold statement.
  rewrite (m_scalar_param _ Hp), Hs.
  assert (Hb : is_param_block (_strip_comments raw) = false).
  { unfold is_param_block.
    destruct (startswith "param " (_strip_comments raw)) eqn:E; [|reflexivity].
    apply (startswith_prefix "param" " ") in E. congruence. }
  rewrite Hb. now destruct (is_empty (_strip_comments raw)).
Qed.

(** X5. Lines that are no statement are passed over. When each line of
    [other], without its comment, starts neither with [set ] nor with
    [param] (blank lines and comment lines are such lines), the scan of
    [other] followed by [rest] is the scan of [rest]: the document is
    unchanged and no error is raised. *)
Theorem X5_other_lines_are_skipped :
  forall (dat_name : string) (other rest : list string) (doc : Document),
    Forall (fun l => startswith "set " (_strip_comments l) = false
                     /\ startswith "param" (_strip_comments l) = false) other ->
    parse_loop dat_name 0 (other ++ rest)%list doc = parse_loop dat_name 0 rest doc.
Proof.
  intros dat_name other rest doc H.
  induction H as [|l other [Hs Hp] _ IH]; [reflexivity|].
  cbn [app parse_loop]. now rewrite (statement_other _ _ _ _ Hs Hp).
Qed.

Lemma X5_witness :
  parse_loop "case.dat" 0
    (["# data of the case"; ""; "settings := 1 ;"; "var x >= 0;"; "end;"]
     ++ ["set A := b ;"])%list empty_document
  = parse_loop "case.dat" 0 ["set A := b ;"] empty_document.
Proof.
  apply (X5_other_lines_are_skipped "case.dat"
           ["# data of the case"; ""; "settings := 1 ;"; "var x >= 0;"; "end;"]).
  repeat constructor.
Defined.

(** ** The errors of a parse *)

Lemma statement_errors (dat_name raw : string) (rest : list string) (doc : Document)
  (e : exn) :
  statement dat_name raw rest doc = Raise e ->
  (exists joined,
      startswith "set " (_strip_comments raw) = true
      /\ e = ValueError_malformed ("Malformed set block in " ++ dat_name ++ ": " ++ joined))
  \/ (startswith "set " (_strip_comments raw) = true /\ e = ValueError_index ";")
  \/ (exists v, is_param_block (_strip_comments raw) = true
                /\ e = ValueError_float v /\ py_float v = None).
Proof.
  unfold statement.
  destruct (is_empty (_strip_comments raw)); [discriminate|].
  destruct (m_scalar (_strip_comments raw)) as [[nm val]|]; [discriminate|].
  destruct (startswith "set " (_strip_comments raw)) eqn:Hset.
  { unfold parse_set.
    destruct (set_tokens_head raw (collect (_strip_comments raw) rest) Hset)
      as (t & ts & E).
    unfold set_tokens in E. rewrite E. cbn [nth_error].
    destruct (mem_str ":=" ("set" :: t :: ts)) eqn:Hm; cbn [negb bind].
    - destruct (mem_str_index _ _ Hm) as [i ->].
      destruct (index_of ";" ("set" :: t :: ts)); cbn [bind]; [discriminate|].
      intros [= <-]. right. left. now split.
    - intros [= <-]. left. eexists. split; reflexivity. }
  destruct (is_param_block (_strip_comments raw)) eqn:Hp; [|discriminate].
  destruct (colon_before_assign (_strip_comments raw)) eqn:Hc; cbn [negb andb].
  2:{
    rewrite parse_param1d_eq by (now apply is_param_block_prefix).
    destruct (param_rows _ []) as [m|e'] eqn:E; cbn [bind]; [discriminate|].
    intros [= <-]. right. right.
    apply param_rows_raise in E as (v & -> & Hv). now exists v. }
  rewrite parse_table_eq by (assumption || now apply is_param_block_prefix).
  destruct (table_rows _ _ []) as [t|e'] eqn:E; cbn [bind]; [discriminate|].
  intros [= <-]. right. right.
  apply table_rows_raise in E as (v & -> & Hv). now exists v.
Qed.

Lemma parse_loop_errors (dat_name : string) (lines : list string) (skip : nat)
  (doc : Document) (e : exn) :
  parse_loop dat_name skip lines doc = Raise e ->
  exists raw, In raw lines /\
  ((exists joined,
      startswith "set " (_strip_comments raw) = true
      /\ e = ValueError_malformed ("Malformed set block in " ++ dat_name ++ ": " ++ joined))
  \/ (startswith "set " (_strip_comments raw) = true /\ e = ValueError_index ";")
  \/ (exists v, is_param_block (_strip_comments raw) = true
                /\ e = ValueError_float v /\ py_float v = None)).
Proof.
  revert skip doc. induction lines as [|raw rest IH]; intros skip doc; [discriminate|].
  cbn [parse_loop]. destruct skip as [|k].
  2:{ intros H. destruct (IH _ _ H) as (r & Hr & Hx). exists r. split; [now right|exact Hx]. }
  destruct (statement dat_name raw rest doc) as [[k doc']|e'] eqn:E.
  - intros H. destruct (IH _ _ H) as (r & Hr & Hx). exists r. split; [now right|exact Hx].
  - intros [= <-]. exists raw. split; [now left|]. now apply statement_errors in E.
Qed.

(** X6. A parse raises one of three errors only, each at a line of the
    file. At a line that starts with [set ]: the ValueError of a
    malformed set block, whose text names the file, or the ValueError of
    the search for the semicolon among the tokens. At a line that starts
    with [param ] and holds [:=]: the ValueError of [float], for a value
    that [float] refuses. It never raises an IndexError, the error of an
    unpacking, or the error of a search for [:=]. *)
Theorem X6_errors_of_parse_dat :
  forall (dat_path : Path) (e : exn),
    parse_dat dat_path = Raise e ->
    exists raw,
      In raw (splitlines (read_text dat_path))
      /\ ((exists joined,
              startswith "set " (_strip_comments raw) = true
              /\ e = ValueError_malformed
                       ("Malformed set block in " ++ name dat_path ++ ": " ++ joined))
          \/ (startswith "set " (_strip_comments raw) = true /\ e = ValueError_index ";")
          \/ (exists v, is_param_block (_strip_comments raw) = true
                        /\ e = ValueError_float v /\ py_float v = None)).
Proof. intros dat_path e. apply parse_loop_errors. Qed.

Lemma X6_witness :
  parse_dat (file ("param P :=" ++ nl ++ "k 1,5 ;")) = Raise (ValueError_float "1,5")
  /\ exists raw,
      In raw (splitlines (read_text (file ("param P :=" ++ nl ++ "k 1,5 ;"))))
      /\ ((exists joined,
              startswith "set " (_strip_comments raw) = true
              /\ ValueError_float "1,5"
                 = ValueError_malformed
                     ("Malformed set block in "
                      ++ name (file ("param P :=" ++ nl ++ "k 1,5 ;")) ++ ": " ++ joined))
          \/ (startswith "set " (_strip_comments raw) = true
              /\ ValueError_float "1,5" = ValueError_index ";")
          \/ (exists v, is_param_block (_strip_comments raw) = true
                        /\ ValueError_float "1,5" = ValueError_float v
                        /\ py_float v = None)).
Proof.
  split; [vm_compute; reflexivity|].
  apply (X6_errors_of_parse_dat (file ("param P :=" ++ nl ++ "k 1,5 ;"))).
  vm_compute. reflexivity.
Defined.

(** ** Texts put one after the other *)

Lemma collect_length (last : string) (rest : list string) :
  List.length (collect last rest) <= List.length rest.
Proof.
  revert last. induction rest as [|l rest IH]; intros last; cbn [collect].
  - destruct (mem_char ";" last); cbn [List.length]; lia.
  - destruct (mem_char ";" last); cbn [List.length]; [lia|].
    specialize (IH l). lia.
Qed.

Lemma collect_app (x last : string) (l1 l2 : list string) :
  mem_char ";" last = true ->
  collect x ((l1 ++ [last]) ++ l2)%list = collect x (l1 ++ [last])%list.
Proof.
  intros H. revert x. induction l1 as [|l l1 IH]; intros x; cbn [app collect].
  - destruct (mem_char ";" x); [reflexivity|].
    now rewrite H, collect_closed.
  - destruct (mem_char ";" x); [reflexivity|]. now rewrite <- IH.
Qed.

Lemma statement_count (dat_name raw : string) (rest : list string) (doc doc' : Document)
  (k : nat) :
  statement dat_name raw rest doc = Ok (k, doc') -> k <= List.length rest.
Proof.
  pose proof (collect_length (_strip_comments raw) rest) as Hl.
  unfold statement.
  destruct (is_empty _); [intros [= <- _]; lia|].
  destruct (m_scalar _) as [[nm val]|]; [intros [= <- _]; lia|].
  destruct (startswith "set " _).
  { destruct (parse_set _ _) as [[n es]|]; cbn [bind]; [|discriminate].
    intros [= <- _]. exact Hl. }
  destruct (is_param_block _ && negb _).
  { destruct (parse_param1d _ _) as [[n m]|]; cbn [bind]; [|discriminate].
    intros [= <- _]. exact Hl. }
  destruct (is_param_block _ && _).
  { destruct (parse_table _ _) as [[n m]|]; cbn [bind]; [|discriminate].
    intros [= <- _]. exact Hl. }
  intros [= <- _]. lia.
Qed.

Lemma statement_collect (dat_name raw : string) (rest rest' : list string)
  (doc : Document) :
  collect (_strip_comments raw) rest' = collect (_strip_comments raw) rest ->
  statement dat_name raw rest' doc = statement dat_name raw rest doc.
Proof. intros H. unfold statement. now rewrite H. Qed.

Lemma parse_loop_app (dat_name last : string) (l1 l2 : list string) :
  mem_char ";" (_strip_comments last) = true ->
  forall (k : nat) (doc : Document),
    k <= List.length (l1 ++ [last])%list ->
    parse_loop dat_name k ((l1 ++ [last]) ++ l2)%list doc
    = (d <- parse_loop dat_name k (l1 ++ [last])%list doc ;; parse_loop dat_name 0 l2 d).
Proof.
  intros H. induction l1 as [|raw l1 IH]; intros k doc Hk.
  - cbn [app parse_loop]. cbn [app List.length] in Hk.
    destruct k as [|k].
    + rewrite (statement_collect dat_name last [] l2).
      2:{ now rewrite !collect_closed. }
      destruct (statement dat_name last [] doc) as [[k d]|e] eqn:E; [|reflexivity].
      apply statement_count in E. cbn [List.length] in E.
      replace k with 0 by lia. reflexivity.
    + replace k with 0 by lia. reflexivity.
  - cbn [app parse_loop]. cbn [app List.length] in Hk.
    destruct k as [|k]; [|apply IH; lia].
    rewrite (statement_collect dat_name raw (l1 ++ [last]) ((l1 ++ [last]) ++ l2)).
    2:{ apply collect_app. now apply mem_char_strip_comments. }
    destruct (statement dat_name raw (l1 ++ [last]) doc) as [[k d]|e] eqn:E; [|reflexivity].
    apply IH. now apply statement_count in E.
Qed.

(** X7. Texts read in sequence. When the last line of a first list of
    lines holds a semicolon outside its comment, the scan of the two
    lists one after the other is the scan of the first, followed by the
    scan of the second from the document reached; an error of the first
    part is the error of the whole. *)
Theorem X7_parse_of_texts_in_sequence :
  forall (dat_name last : string) (l1 l2 : list string) (doc : Document),
    mem_char ";" (_strip_comments last) = true ->
    parse_loop dat_name 0 ((l1 ++ [last]) ++ l2)%list doc
    = (d <- parse_loop dat_name 0 (l1 ++ [last])%list doc ;; parse_loop dat_name 0 l2 d).
Proof.
  intros dat_name last l1 l2 doc H. apply parse_loop_app; [assumption|lia].
Qed.

Lemma X7_witness :
  parse_loop "case.dat" 0
    ((["set A := x"] ++ ["y ;  # end of A"]) ++ ["param P :="; "k 1 ;"])%list empty_document
  = (d <- parse_loop "case.dat" 0 (["set A := x"] ++ ["y ;  # end of A"])%list
                     empty_document ;;
     parse_loop "case.dat" 0 ["param P :="; "k 1 ;"] d).
Proof.
  apply (X7_parse_of_texts_in_sequence "case.dat" "y ;  # end of A" ["set A := x"]).
  reflexivity.
Defined.

(** ** Where a block ends *)

(** X8. A 1D param block whose header holds no semicolon runs to the
    first following line that holds a semicolon, be it inside a comment:
    the mapping is read from the lines up to that one, and the scan
    resumes at the line after it. *)
Theorem X8_param_block_ends_at_first_semicolon :
  forall (dat_name raw l : string) (d1 rest : list string) (doc : Document),
    is_param_block (_strip_comments raw) = true ->
    colon_before_assign (_strip_comments raw) = false ->
    mem_char ";" (_strip_comments raw) = false ->
    Forall (fun x => mem_char ";" x = false) d1 ->
    mem_char ";" l = true ->
    parse_loop dat_name 0 (raw :: d1 ++ l :: rest)%list doc
    = (m <- param_rows (d1 ++ [l])%list [] ;;
       parse_loop dat_name 0 rest
         (set_params (param1d_name (_strip_comments raw)) (VMap m) doc)).
Proof.
  intros dat_name raw l d1 rest doc Hp Hc Hs Hd Hl.
  cbn [parse_loop].
  rewrite statement_param1d by (assumption || now apply m_scalar_semicolon).
  rewrite (collect_until _ _ _ _ Hs Hd Hl).
  destruct (param_rows (d1 ++ [l]) []) as [m|e]; cbn [bind]; [|reflexivity].
  replace (d1 ++ l :: rest)%list with ((d1 ++ [l]) ++ rest)%list
    by (now rewrite <- app_assoc).
  apply parse_loop_skip.
Qed.

Lemma X8_witness :
  parse_loop "case.dat" 0
    ("param P :=  # prices; in USD" :: ["a 1"] ++ "b 2  # last; row" :: ["c 3 ;"])%list
    empty_document
  = (m <- param_rows (["a 1"] ++ ["b 2  # last; row"])%list [] ;;
     parse_loop "case.dat" 0 ["c 3 ;"]
       (set_params (param1d_name (_strip_comments "param P :=  # prices; in USD"))
                   (VMap m) empty_document)).
Proof.
  apply X8_param_block_ends_at_first_semicolon;
    [reflexivity | reflexivity | reflexivity | repeat constructor | reflexivity].
Defined.

(** X9. A set block closed by a line whose only semicolon stands inside
    a comment is refused. The block ends at that line, since the raw
    line is searched for the semicolon; its tokens, taken without the
    comments, hold no semicolon; and the parse raises the ValueError of
    the search for the semicolon, or that of a malformed block when the
    tokens hold no [:=] either. *)
Theorem X9_set_block_closed_inside_a_comment :
  forall (dat_name raw l : string) (d1 rest : list string) (doc : Document),
    startswith "set " (_strip_comments raw) = true ->
    mem_char ";" (_strip_comments raw) = false ->
    Forall (fun x => mem_char ";" x = false) d1 ->
    mem_char ";" l = true ->
    mem_char ";" (_strip_comments l) = false ->
    parse_loop dat_name 0 (raw :: d1 ++ l :: rest)%list doc
    = Raise (if mem_str ":=" (set_tokens (_strip_comments raw :: d1 ++ [l])%list)
             then ValueError_index ";"
             else ValueError_malformed
                    ("Malformed set block in " ++ dat_name ++ ": "
                     ++ set_joined (_strip_comments raw :: d1 ++ [l])%list)).
Proof.
  intros dat_name raw l d1 rest doc Hset Hs Hd Hl Hl'.
  cbn [parse_loop]. rewrite statement_set by assumption.
  rewrite (collect_until _ _ _ _ Hs Hd Hl).
  assert (Hno : ~ In ";" (set_tokens (_strip_comments raw :: d1 ++ [l])%list)).
  { assert (E : set_tokens (_strip_comments raw :: d1 ++ [l])%list
                = set_tokens (map _strip_comments (_strip_comments raw :: d1 ++ [l])%list)).
    { unfold set_tokens, set_joined. rewrite map_map.
      now rewrite (map_ext (fun x => _strip_comments (_strip_comments x)) _strip_comments
                           strip_comments_idem). }
    rewrite E. apply set_tokens_no_semicolon.
    rewrite Forall_forall. intros x Hx.
    apply in_map_iff in Hx as (y & <- & Hy).
    destruct Hy as [<-|Hy]; [now rewrite strip_comments_idem|].
    apply in_app_iff in Hy as [Hy|[<-|[]]]; [|assumption].
    rewrite Forall_forall in Hd.
    destruct (mem_char ";" (_strip_comments y)) eqn:Ey; [|reflexivity].
    apply mem_char_strip_comments in Ey. now rewrite (Hd y Hy) in Ey. }
  destruct (set_tokens_head raw (d1 ++ [l])%list Hset) as (t & ts & E).
  unfold parse_set. fold (set_tokens (_strip_comments raw :: d1 ++ [l])%list).
  rewrite E in *. cbn [nth_error].
  destruct (mem_str ":=" ("set" :: t :: ts)) eqn:Hm; cbn [negb bind]; [|reflexivity].
  destruct (mem_str_index _ _ Hm) as [i ->].
  now rewrite (index_of_none _ _ Hno).
Qed.

Lemma X9_witness :
  parse_loop "case.dat" 0
    ("set A := x" :: ["y"] ++ "z  # the end;" :: [";"])%list empty_document
  = Raise (if mem_str ":=" (set_tokens (_strip_comments "set A := x"
                                         :: ["y"] ++ ["z  # the end;"])%list)
           then ValueError_index ";"
           else ValueError_malformed
                  ("Malformed set block in " ++ "case.dat" ++ ": "
                   ++ set_joined (_strip_comments "set A := x"
                                  :: ["y"] ++ ["z  # the end;"])%list)).
Proof.
  apply X9_set_block_closed_inside_a_comment;
    [reflexivity | reflexivity | repeat constructor | reflexivity | reflexivity].
Defined.

(** ** The lines that are scalar statements *)

Lemma lstrip_with_all_space (sp : ascii -> bool) (w : string) :
  all_chars sp w = true -> lstrip_with sp w = "".
Proof.
  induction w as [|c w IH]; [reflexivity|]. cbn [all_chars lstrip_with].
  intros H. apply andb_true_iff in H as [-> H]. now apply IH.
Qed.

Lemma rstrip_with_all_space (sp : ascii -> bool) (w : string) :
  all_chars sp w = true -> rstrip_with sp w = "".
Proof.
  intros H. pose proof (rstrip_with_empty sp w) as E. rewrite H in E.
  now destruct (rstrip_with sp w).
Qed.

Lemma rstrip_with_space_r (sp : ascii -> bool) (a w : string) :
  all_chars sp w = true -> rstrip_with sp (a ++ w) = rstrip_with sp a.
Proof.
  intros H. induction a as [|c a IH]; cbn [append rstrip_with].
  - now apply rstrip_with_all_space.
  - now rewrite IH.
Qed.

Lemma lstrip_with_append (sp : ascii -> bool) (a w : string) :
  all_chars sp a = false -> lstrip_with sp (a ++ w) = lstrip_with sp a ++ w.
Proof.
  induction a as [|c a IH]; [discriminate|]. cbn [all_chars append lstrip_with].
  destruct (sp c); [|reflexivity]. cbn [andb]. exact IH.
Qed.

Lemma strip_with_space_r (sp : ascii -> bool) (a w : string) :
  all_chars sp w = true -> strip_with sp (a ++ w) = strip_with sp a.
Proof.
  intros H. unfold strip_with. destruct (all_chars sp a) eqn:E.
  - rewrite (lstrip_with_space sp a w E), (lstrip_with_all_space sp w H).
    now rewrite (lstrip_with_all_space sp a E).
  - rewrite (lstrip_with_append sp a w E). now apply rstrip_with_space_r.
Qed.

Lemma at_end_space (tl : string) : at_end tl = true -> all_chars isspace tl = true.
Proof.
  destruct tl as [|c [|d tl]]; [reflexivity| |discriminate].
  cbn [at_end all_chars]. intros H. apply Ascii.eqb_eq in H as ->. reflexivity.
Qed.

(** A text without whitespace at its right end does not go on with
    whitespace only after any of its characters. *)
Lemma rstripped_tail (sp : ascii -> bool) (y a w : string) :
  rstrip_with sp y = a ++ w -> a <> "" -> all_chars sp w = true -> w = "".
Proof.
  intros E Ha Hw. destruct w as [|c b]; [reflexivity|]. exfalso.
  cbn [all_chars] in Hw. apply andb_true_iff in Hw as [Hc Hb].
  pose proof (rstrip_with_tail sp y a b c E Hc). congruence.
Qed.

(** X10. The lines that are scalar statements. A line, taken without
    its comment, matches the pattern of a scalar statement with the name
    [nm] and a value that strips to [v] exactly when it is made of the
    word param, one or more whitespace characters, the name (a letter or
    an underscore, then word characters), optional whitespace, an equals
    sign, a text of one or more characters other than the semicolon that
    strips to [v], and a semicolon at the very end. *)
Theorem X10_scalar_statement_shape :
  forall (raw nm v : string),
    (exists val, m_scalar (_strip_comments raw) = Some (nm, val) /\ strip val = v)
    <-> (exists (ws1 : string) (n0 : ascii) (ns ws2 rhs : string),
            _strip_comments raw = "param" ++ ws1 ++ nm ++ ws2 ++ "=" ++ rhs ++ ";"
            /\ nm = String n0 ns
            /\ ws1 <> "" /\ all_chars isspace ws1 = true
            /\ is_alpha_us n0 = true /\ all_chars is_word ns = true
            /\ all_chars isspace ws2 = true
            /\ rhs <> "" /\ all_chars not_semicolon rhs = true
            /\ strip rhs = v).
Proof.
  intros raw nm v. split.
  - intros (val & E & Hv).
    destruct (m_scalar_inv _ _ _ E)
      as (ws1 & n0 & ns & ws2 & g0 & w3 & w4 & tl & Hl & Hnm & Hw1ne & Hw1 & Hn0 & Hns
          & Hw2 & Hg0 & Hvne & Hval & Hw3 & Hw4 & Htl).
    assert (Hend : w4 ++ tl = "").
    { apply (rstripped_tail isspace (lstrip_with isspace (before "#" raw))
               ("param" ++ ws1 ++ nm ++ ws2 ++ "=" ++ g0 ++ val ++ w3 ++ ";")).
      - fold (strip_with isspace (before "#" raw)). fold (strip (before "#" raw)).
        fold (_strip_comments raw). rewrite Hl.
        repeat (rewrite !append_assoc; cbn [append]). reflexivity.
      - discriminate.
      - rewrite all_chars_append, Hw4. now apply at_end_space. }
    exists ws1, n0, ns, ws2, (g0 ++ val ++ w3).
    repeat split; try assumption.
    + rewrite Hl. rewrite Hend.
      repeat (rewrite !append_assoc; cbn [append]). reflexivity.
    + destruct g0, val; cbn [append]; congruence.
    + rewrite !all_chars_append, Hval.
      rewrite (all_chars_impl isspace not_semicolon g0 space_not_semicolon Hg0).
      now rewrite (all_chars_impl isspace not_semicolon w3 space_not_semicolon Hw3).
    + rewrite <- Hv. unfold strip.
      rewrite (strip_with_space isspace g0 _ Hg0).
      now apply strip_with_space_r.
  - intros (ws1 & n0 & ns & ws2 & rhs & Hl & -> & Hw1ne & Hw1 & Hn0 & Hns & Hw2
            & Hrne & Hrhs & Hv).
    destruct (m_scalar_shape ws1 ns ws2 rhs n0 Hw1ne Hw1 Hn0 Hns Hw2 Hrne Hrhs)
      as (g2 & E & Hs).
    exists g2. rewrite Hl. split; [exact E | congruence].
Qed.

(** ** The headers of the param blocks *)

Lemma before_colon_free (a : string) :
  mem_char ":" a = false -> before ":=" a = a.
Proof.
  unfold before. induction a as [|c a IH]; [reflexivity|].
  cbn [mem_char split1 startswith]. intros H. apply orb_false_iff in H as [H1 H2].
  rewrite H1. cbn [andb]. specialize (IH H2).
  destruct (split1 ":=" a) as [x y]. cbn [fst] in *. now rewrite IH.
Qed.

Lemma before_assign (a r : string) :
  mem_char "=" a = false -> before ":=" (a ++ ":=" ++ r) = a.
Proof.
  unfold before. induction a as [|c a IH]; [reflexivity|].
  cbn [mem_char]. intros H. apply orb_false_iff in H as [H1 H2].
  cbn [append split1].
  assert (E : startswith ":=" (String c (a ++ String ":" (String "=" r))) = false).
  { cbn [startswith]. destruct (Ascii.eqb ":" c); [|reflexivity]. cbn [andb].
    destruct a as [|d a]; [reflexivity|]. cbn [append].
    cbn [mem_char] in H2. apply orb_false_iff in H2 as [H2 _]. now rewrite H2. }
  cbn [append] in IH. rewrite E. specialize (IH H2).
  destruct (split1 ":=" (a ++ String ":" (String "=" r))) as [x y].
  cbn [fst] in *. now rewrite IH.
Qed.

Lemma before_char_append (c : ascii) (a b : string) :
  mem_char c a = false ->
  before (String c "") (a ++ b) = a ++ before (String c "") b.
Proof.
  unfold before. induction a as [|d a IH]; [reflexivity|].
  cbn [mem_char append split1 startswith]. intros H.
  apply orb_false_iff in H as [H1 H2]. rewrite H1. cbn [andb].
  specialize (IH H2). destruct (split1 (String c "") (a ++ b)) as [x y].
  cbn [fst] in *. now rewrite IH.
Qed.

(** A line with a colon before its first equals sign is no scalar statement. *)
Lemma m_scalar_colon (p q : string) :
  mem_char "=" p = false -> m_scalar (p ++ String ":" q) = None.
Proof.
  intros Hp. destruct (m_scalar (p ++ String ":" q)) as [[nm val]|] eqn:E; [|reflexivity].
  exfalso.
  destruct (m_scalar_inv _ _ _ E)
    as (ws1 & n0 & ns & ws2 & g0 & w3 & w4 & tl & Hl & Hnm & Hw1ne & Hw1 & Hn0 & Hns
        & Hw2 & _).
  assert (H1 : mem_char ":" (before "=" (p ++ String ":" q)) = true).
  { rewrite (before_char_append "=" p _ Hp), mem_char_append.
    unfold before. cbn [split1 startswith andb Ascii.eqb Bool.eqb].
    destruct (split1 "=" q). cbn [fst mem_char]. rewrite Ascii.eqb_refl.
    now rewrite orb_true_r. }
  assert (H2 : mem_char ":" (before "=" (p ++ String ":" q)) = false).
  { rewrite Hl.
    replace ("param" ++ ws1 ++ nm ++ ws2 ++ "=" ++ g0 ++ val ++ w3 ++ ";" ++ w4 ++ tl)
      with (("param" ++ ws1 ++ nm ++ ws2) ++ String "=" (g0 ++ val ++ w3 ++ ";" ++ w4 ++ tl))
      by (repeat (rewrite !append_assoc; cbn [append]); reflexivity).
    assert (Hw : forall w, all_chars isspace w = true -> forall c : ascii,
                   isspace c = false -> mem_char c w = false).
    { intros w Hw c Hc. now apply (all_chars_not_mem isspace). }
    assert (Hnm' : forall c : ascii, is_word c = false -> mem_char c nm = false).
    { intros c Hc. subst nm. cbn [mem_char].
      rewrite (all_chars_not_mem is_word c ns Hns Hc), orb_false_r.
      destruct (Ascii.eqb_spec c n0) as [->|]; [|reflexivity].
      destruct n0 as [[] [] [] [] [] [] [] []]; discriminate. }
    rewrite before_append_char.
    - rewrite !mem_char_append. rewrite (Hw ws1 Hw1), (Hw ws2 Hw2), Hnm' by reflexivity.
      reflexivity.
    - rewrite !mem_char_append. rewrite (Hw ws1 Hw1), (Hw ws2 Hw2), Hnm' by reflexivity.
      reflexivity. }
  congruence.
Qed.

Lemma split_ws_leading (w s : string) :
  all_chars isspace w = true -> split_ws (w ++ s) = split_ws s.
Proof.
  induction w as [|c w IH]; [reflexivity|]. cbn [all_chars append split_ws].
  intros H. apply andb_true_iff in H as [-> H]. now apply IH.
Qed.

Lemma split_ws_trailing (a w : string) :
  all_chars isspace w = true -> split_ws (a ++ w) = split_ws a.
Proof.
  destruct w as [|c w]; [now rewrite append_nil_r|].
  cbn [all_chars]. intros H. apply andb_true_iff in H as [Hc Hw].
  rewrite (split_ws_append_space a w c Hc), (split_ws_all_space w Hw).
  apply app_nil_r.
Qed.

Lemma rstrip_with_rest (sp : ascii -> bool) (s : string) :
  exists w, s = rstrip_with sp s ++ w /\ all_chars sp w = true.
Proof.
  induction s as [|c s (w & E & Hw)]; [now exists ""|].
  cbn [rstrip_with]. destruct (sp c && is_empty (rstrip_with sp s)) eqn:B.
  - exists (String c s). split; [reflexivity|].
    apply andb_true_iff in B as [Hc He]. rewrite rstrip_with_empty in He.
    cbn [all_chars]. now rewrite Hc, He.
  - exists w. cbn [append]. split; [now rewrite <- E | exact Hw].
Qed.

Lemma split_ws_strip (s : string) : split_ws (strip s) = split_ws s.
Proof.
  unfold strip, strip_with.
  assert (L : split_ws (lstrip_with isspace s) = split_ws s).
  { induction s as [|c s IH]; [reflexivity|]. cbn [lstrip_with].
    destruct (isspace c) eqn:E; [|reflexivity]. cbn [split_ws]. now rewrite E. }
  rewrite <- L.
  destruct (rstrip_with_rest isspace (lstrip_with isspace s)) as (w & E & Hw).
  rewrite E at 2. now rewrite split_ws_trailing.
Qed.

Lemma span_nonspace (r : string) :
  exists r1 r2, r = r1 ++ r2 /\ all_chars nonspace r1 = true /\ stops nonspace r2 = true.
Proof.
  induction r as [|c r (r1 & r2 & E & H1 & H2)]; [now exists "", ""|].
  destruct (nonspace c) eqn:Hc.
  - exists (String c r1), r2. cbn [append all_chars]. now rewrite Hc, <- E.
  - exists "", (String c r). cbn [append stops]. now rewrite Hc.
Qed.

(** The first token of a text that starts with a word: the word and the
    characters that follow it up to the next whitespace. *)
Lemma split_ws_prefix (w r : string) :
  w <> "" -> all_chars nonspace w = true ->
  exists r1 r2 ts, r = r1 ++ r2 /\ stops nonspace r2 = true
                   /\ split_ws (w ++ r) = (w ++ r1) :: ts.
Proof.
  intros Hne Hw. destruct (span_nonspace r) as (r1 & r2 & -> & H1 & H2).
  exists r1, r2. rewrite <- append_assoc.
  assert (Hw1 : split_ws (w ++ r1) = [w ++ r1]).
  { apply split_ws_word; [destruct w; [congruence|discriminate]|].
    now rewrite all_chars_append, Hw, H1. }
  destruct r2 as [|c r2].
  - exists []. rewrite !append_nil_r. now repeat split.
  - pose proof H2 as H2'. cbn [stops] in H2'. unfold nonspace in H2'.
    apply negb_true_iff, negb_false_iff in H2'.
    exists (split_ws r2). rewrite (split_ws_append_space _ _ c H2'), Hw1.
    now repeat split.
Qed.

Lemma strip_token (t : string) : all_chars nonspace t = true -> strip t = t.
Proof.
  intros H. unfold strip, strip_with.
  assert (L : lstrip_with isspace t = t).
  { destruct t as [|c t]; [reflexivity|]. cbn [all_chars] in H.
    apply andb_true_iff in H as [Hc _]. unfold nonspace in Hc.
    apply negb_true_iff in Hc. cbn [lstrip_with]. now rewrite Hc. }
  rewrite L. now apply rstrip_token.
Qed.

Lemma space_mem (w : string) (c : ascii) :
  all_chars isspace w = true -> isspace c = false -> mem_char c w = false.
Proof. intros Hw Hc. now apply (all_chars_not_mem isspace). Qed.

Lemma statement_param1d_header :
  forall (dat_name raw ws NAME w2 r : string) (rest : list string) (doc : Document),
    _strip_comments raw = "param " ++ ws ++ NAME ++ w2 ++ ":=" ++ r ->
    all_chars isspace ws = true -> all_chars isspace w2 = true ->
    NAME <> "" -> all_chars nonspace NAME = true ->
    mem_char ":" NAME = false -> mem_char "=" NAME = false ->
    statement dat_name raw rest doc
    = (mapping <- param_rows (collect (_strip_comments raw) rest) [] ;;
       Ok (List.length (collect (_strip_comments raw) rest),
           set_params NAME (VMap mapping) doc)).
Proof.
  intros dat_name raw ws NAME w2 r rest doc Hl Hws Hw2 Hne Hns Hcol Heq.
  assert (Hp_eq : mem_char "=" ("param " ++ ws ++ NAME ++ w2) = false).
  { rewrite !mem_char_append, Heq.
    now rewrite (space_mem ws "=" Hws), (space_mem w2 "=" Hw2) by reflexivity. }
  assert (Hp_col : mem_char ":" ("param " ++ ws ++ NAME ++ w2) = false).
  { rewrite !mem_char_append, Hcol.
    now rewrite (space_mem ws ":" Hws), (space_mem w2 ":" Hw2) by reflexivity. }
  assert (Hl' : _strip_comments raw = ("param " ++ ws ++ NAME ++ w2) ++ ":=" ++ r).
  { rewrite Hl. repeat (rewrite !append_assoc; cbn [append]). reflexivity. }
  assert (Hname : param1d_name (_strip_comments raw) = NAME).
  { unfold param1d_name. rewrite Hl.
    change ("param " ++ ws ++ NAME ++ w2 ++ ":=" ++ r)
      with ("param" ++ String " " (ws ++ NAME ++ w2 ++ ":=" ++ r)).
    rewrite split_ws_append_space by reflexivity.
    rewrite (split_ws_leading ws _ Hws).
    change (split_ws "param") with ["param"]. cbn [app].
    destruct w2 as [|c w2].
    - cbn [append].
      destruct (split_ws_prefix NAME (":=" ++ r) Hne Hns) as (r1 & r2 & ts & Er & Hst & E).
      cbn [append] in E. rewrite E.
      destruct r1 as [|x1 [|x2 r1]].
      + cbn [append] in Er. subst r2. discriminate.
      + cbn [append] in Er. injection Er as <- Er. subst r2. discriminate.
      + cbn [append] in Er. injection Er as <- <- Er.
        change (NAME ++ String ":" (String "=" r1)) with (NAME ++ ":=" ++ r1).
        rewrite (before_assign NAME r1 Heq). now apply strip_token.
    - cbn [all_chars] in Hw2. apply andb_true_iff in Hw2 as [Hc Hw2].
      cbn [append]. rewrite (split_ws_append_space NAME _ c Hc).
      rewrite (split_ws_word NAME Hne Hns). cbn [app].
      rewrite (before_colon_free NAME Hcol). now apply strip_token. }
  rewrite statement_param1d.
  - now rewrite Hname.
  - rewrite Hl'. change (":=" ++ r) with (String ":" ("=" ++ r)).
    now apply m_scalar_colon.
  - unfold is_param_block. rewrite Hl' at 2. rewrite contains_append_r.
    rewrite Hl. now rewrite startswith_refl_append.
  - unfold colon_before_assign. rewrite Hl'. now rewrite before_assign.
Qed.

(** X11. The name of a 1D param block. At a line param NAME := ...,
    with [:=] glued to the name or after whitespace, where NAME is a
    token without [:] and [=], the turn reads a 1D block and binds NAME
    to the mapping of the lines that follow; what stands after [:=] on
    the header line is not read. *)
Theorem X11_param1d_header :
  forall (dat_name raw ws NAME w2 r : string) (rest : list string) (doc : Document),
    _strip_comments raw = "param " ++ ws ++ NAME ++ w2 ++ ":=" ++ r ->
    all_chars isspace ws = true -> all_chars isspace w2 = true ->
    NAME <> "" -> all_chars nonspace NAME = true ->
    mem_char ":" NAME = false -> mem_char "=" NAME = false ->
    statement dat_name raw rest doc
    = (mapping <- param_rows (collect (_strip_comments raw) rest) [] ;;
       Ok (List.length (collect (_strip_comments raw) rest),
           set_params NAME (VMap mapping) doc)).
Proof. exact statement_param1d_header. Qed.

Lemma X11_witness :
  statement "case.dat" "  param  Precio:= a 9  # USD" ["a 1"; "b 2 ;"; "c 3"] empty_document
  = (mapping <- param_rows (collect (_strip_comments "  param  Precio:= a 9  # USD")
                                    ["a 1"; "b 2 ;"; "c 3"]) [] ;;
     Ok (List.length (collect (_strip_comments "  param  Precio:= a 9  # USD")
                              ["a 1"; "b 2 ;"; "c 3"]),
         set_params "Precio" (VMap mapping) empty_document)).
Proof.
  refine (X11_param1d_header "case.dat" "  param  Precio:= a 9  # USD" " " "Precio" ""
            " a 9" _ _ _ _ _ _ _ _ _); (reflexivity || discriminate).
Defined.

Lemma split1_char_append (c : ascii) (a b : string) :
  mem_char c a = false -> split1 (String c "") (a ++ String c b) = (a, Some b).
Proof.
  induction a as [|d a IH]; cbn [append mem_char split1 startswith].
  - intros _. rewrite Ascii.eqb_refl. now destruct b.
  - intros H. apply orb_false_iff in H as [H1 H2]. rewrite H1. cbn [andb].
    now rewrite (IH H2).
Qed.

Lemma filter_all {A : Type} (f : A -> bool) (l : list A) :
  (forall x, In x l -> f x = true) -> filter f l = l.
Proof.
  induction l as [|x l IH]; [reflexivity|]. intros H. cbn [filter].
  rewrite (H x (or_introl eq_refl)). f_equal. apply IH. intros y Hy. apply H. now right.
Qed.

Lemma statement_table_header :
  forall (dat_name raw T colstext r : string) (rest : list string) (doc : Document),
    _strip_comments raw = "param " ++ T ++ ":" ++ colstext ++ ":=" ++ r ->
    mem_char ":" T = false -> mem_char "=" T = false ->
    mem_char "=" colstext = false ->
    statement dat_name raw rest doc
    = (table <- table_rows (split_ws colstext) (collect (_strip_comments raw) rest) [] ;;
       Ok (List.length (collect (_strip_comments raw) rest),
           set_params (strip T) (VTable table) doc)).
Proof.
  intros dat_name raw T colstext r rest doc Hl Hcol Heq Hc.
  assert (Hl' : _strip_comments raw = ("param " ++ T ++ ":" ++ colstext) ++ ":=" ++ r).
  { rewrite Hl. repeat (rewrite !append_assoc; cbn [append]). reflexivity. }
  assert (Hp : mem_char "=" ("param " ++ T ++ ":" ++ colstext) = false).
  { now rewrite !mem_char_append, Heq, Hc. }
  assert (Hs : split1 ":" (drop (length "param ") (_strip_comments raw))
               = (T, Some (colstext ++ ":=" ++ r))).
  { rewrite Hl. cbn [length append drop].
    now apply (split1_char_append ":" T). }
  assert (Hname : table_name (_strip_comments raw) = strip T).
  { unfold table_name. now rewrite Hs. }
  assert (Hcols : header_cols (_strip_comments raw) = split_ws colstext).
  { unfold header_cols. rewrite Hs. cbn [snd]. unfold table_cols.
    rewrite (before_assign colstext r Hc), split_ws_replace_tab, split_ws_strip.
    apply filter_all. intros t Ht. apply split_ws_tokens in Ht as (Hne & _).
    now destruct t. }
  rewrite statement_table.
  - now rewrite Hname, Hcols.
  - rewrite Hl.
    replace ("param " ++ T ++ ":" ++ colstext ++ ":=" ++ r)
      with (("param " ++ T) ++ String ":" (colstext ++ ":=" ++ r))
      by (repeat (rewrite !append_assoc; cbn [append]); reflexivity).
    apply m_scalar_colon. now rewrite mem_char_append, Heq.
  - unfold is_param_block. rewrite Hl' at 2. rewrite contains_append_r.
    rewrite Hl. now rewrite startswith_refl_append.
  - unfold colon_before_assign. rewrite Hl', (before_assign _ r Hp).
    rewrite !mem_char_append. cbn [mem_char Ascii.eqb Bool.eqb orb].
    now rewrite !orb_true_r.
Qed.

(** X12. The header of a table. At a line param T: COLS := ..., where
    T holds neither [:] nor [=] and COLS holds no [=], the turn reads a
    table: its name is T without the whitespace at its ends, and its
    columns are the words between whitespace of COLS. *)
Theorem X12_table_header :
  forall (dat_name raw T colstext r : string) (rest : list string) (doc : Document),
    _strip_comments raw = "param " ++ T ++ ":" ++ colstext ++ ":=" ++ r ->
    mem_char ":" T = false -> mem_char "=" T = false ->
    mem_char "=" colstext = false ->
    statement dat_name raw rest doc
    = (table <- table_rows (split_ws colstext) (collect (_strip_comments raw) rest) [] ;;
       Ok (List.length (collect (_strip_comments raw) rest),
           set_params (strip T) (VTable table) doc)).
Proof. exact statement_table_header. Qed.

Lemma X12_witness :
  statement "case.dat" "param Demanda : C1  C2:=  # MWh" ["H01 1 2"; "H02 3 4 ;"]
            empty_document
  = (table <- table_rows (split_ws " C1  C2")
                (collect (_strip_comments "param Demanda : C1  C2:=  # MWh")
                         ["H01 1 2"; "H02 3 4 ;"]) [] ;;
     Ok (List.length (collect (_strip_comments "param Demanda : C1  C2:=  # MWh")
                              ["H01 1 2"; "H02 3 4 ;"]),
         set_params (strip "Demanda ") (VTable table) empty_document)).
Proof.
  refine (X12_table_header "case.dat" "param Demanda : C1  C2:=  # MWh" "Demanda "
            " C1  C2" "" _ _ _ _ _ _); reflexivity.
Defined.

(** ** The row of a table *)

Lemma dict_set_absent {V : Type} (d : dict V) (k : string) (v : V) :
  ~ In k (keys d) -> dict_set k v d = (d ++ [(k, v)])%list.
Proof.
  induction d as [|[k' v'] d IH]; [reflexivity|]. cbn [keys map fst In dict_set app].
  intros H. destruct (String.eqb_spec k' k) as [->|Hne]; [tauto|].
  f_equal. apply IH. unfold keys. tauto.
Qed.

Lemma row_dict_fresh (cols vals : list string) (xs : list pyfloat) (d : dict pyfloat) :
  NoDup cols -> (forall c, In c cols -> ~ In c (keys d)) ->
  List.length vals = List.length cols ->
  map py_float vals = map Some xs ->
  row_dict cols vals d = Ok (d ++ combine cols xs)%list.
Proof.
  intros Hnd. revert vals xs d.
  induction Hnd as [|c cols Hc Hnd IH]; intros vals xs d Hd Hlen Hv.
  - cbn [row_dict combine]. now rewrite app_nil_r.
  - destruct vals as [|v vals]; destruct xs as [|x xs]; try discriminate.
    cbn [List.length] in Hlen. injection Hlen as Hlen.
    cbn [map] in Hv. injection Hv as Hv Hvs. cbn [row_dict combine]. rewrite Hv.
    rewrite (dict_set_absent d c x) by (apply Hd; now left).
    rewrite (IH vals xs (d ++ [(c, x)])%list).
    + now rewrite <- app_assoc.
    + intros c' Hc'. unfold keys. rewrite map_app, in_app_iff. cbn [map fst In].
      intros [H|[H|[]]].
      * apply (Hd c'); [now right | exact H].
      * congruence.
    + exact Hlen.
    + exact Hvs.
Qed.

(** X13. A row of a table binds the columns, in their declared order,
    to the floats of its values: when the columns are pairwise distinct,
    the values are bare tokens, as the tokens of a data line are, one
    for each column, and [float] accepts them, the row is the list of
    the pairs of a column and the float of the value at the same
    position. *)
Theorem X13_row_binds_columns_in_order :
  forall (cols vals : list string) (xs : list pyfloat),
    NoDup cols ->
    List.length vals = List.length cols ->
    forallb bare vals = true ->
    map py_float vals = map Some xs ->
    row_dict cols vals [] = Ok (combine cols xs).
Proof.
  intros cols vals xs Hnd Hlen _ Hv.
  now rewrite (row_dict_fresh cols vals xs [] Hnd (fun c _ H => H) Hlen Hv).
Qed.

Lemma X13_witness :
  row_dict ["C1"; "C2"; "C3"] ["1"; "-2.5"; "1e3"] []
  = Ok (combine ["C1"; "C2"; "C3"]
                [float_of_Z 1; S754_finite true 5629499534213120 (-51); float_of_Z 1000]).
Proof.
  apply X13_row_binds_columns_in_order.
  - repeat constructor; cbn [In]; intuition discriminate.
  - reflexivity.
  - reflexivity.
  - vm_compute. reflexivity.
Defined.

(** ** The names that a document holds *)

Lemma first_char_split (c : ascii) (s : string) :
  mem_char c s = true -> exists a b, s = a ++ String c b /\ mem_char c a = false.
Proof.
  induction s as [|d s IH]; [discriminate|]. cbn [mem_char].
  destruct (Ascii.eqb c d) eqn:E.
  - intros _. apply Ascii.eqb_eq in E as <-. now exists "", s.
  - cbn [orb]. intros H. destruct (IH H) as (a & b & -> & Ha).
    exists (String d a), b. cbn [append mem_char]. now rewrite E, Ha.
Qed.

Lemma replace_char_first (c : ascii) (new a b : string) :
  mem_char c a = false ->
  replace (String c "") new (a ++ String c b) = a ++ new ++ replace (String c "") new b.
Proof.
  unfold replace. induction a as [|d a IH]; cbn [append mem_char replace_from startswith].
  - intros _. rewrite Ascii.eqb_refl.
    replace (startswith "" b) with true by (now destruct b). reflexivity.
  - intros H. apply orb_false_iff in H as [H1 H2]. rewrite H1. cbn [andb].
    now rewrite (IH H2).
Qed.

Lemma mem_char_replace_char (c : ascii) (new s : string) :
  mem_char c new = false -> mem_char c (replace (String c "") new s) = false.
Proof.
  intros Hn. unfold replace. induction s as [|d s IH]; [reflexivity|].
  cbn [replace_from startswith length Nat.sub].
  destruct (Ascii.eqb c d) eqn:E.
  - replace (startswith "" s) with true by (now destruct s). cbn [andb].
    now rewrite mem_char_append, Hn, IH.
  - cbn [andb mem_char]. now rewrite E, IH.
Qed.

(** The semicolon is a token of its own in a text where blanks have
    been put around each semicolon. *)
Lemma semicolon_tokens (s t : string) :
  In t (split_ws (replace ";" " ; " s)) -> t = ";" \/ mem_char ";" t = false.
Proof.
  remember (length s) as n eqn:Hn. revert s Hn t.
  induction n as [n IH] using lt_wf_ind. intros s Hn t Ht.
  destruct (mem_char ";" s) eqn:E.
  - destruct (first_char_split ";" s E) as (a & b & -> & Ha).
    rewrite (replace_char_first ";" " ; " a b Ha) in Ht.
    change (a ++ " ; " ++ replace ";" " ; " b)
      with (a ++ String " " (";" ++ String " " (replace ";" " ; " b))) in Ht.
    rewrite !split_ws_append_space in Ht by reflexivity.
    change (split_ws ";") with [";"] in Ht.
    apply in_app_iff in Ht as [Ht|Ht].
    + right. apply split_ws_tokens in Ht as (_ & _ & Hc).
      destruct (mem_char ";" t) eqn:Et; [|reflexivity].
      apply Hc in Et. congruence.
    + apply in_app_iff in Ht as [[<-|[]]|Ht]; [now left|].
      apply (IH (length b)) with (s := b); [|reflexivity|exact Ht].
      subst n. rewrite length_append. cbn [length]. lia.
  - right. rewrite replace_from_absent in Ht by (now rewrite contains_char).
    apply split_ws_tokens in Ht as (_ & _ & Hc).
    destruct (mem_char ";" t) eqn:Et; [|reflexivity].
    apply Hc in Et. congruence.
Qed.

Lemma bare_chars (t : string) :
  t <> "" -> all_chars nonspace t = true ->
  mem_char "#" t = false -> mem_char ";" t = false -> bare t = true.
Proof.
  intros Hne Hns Hh Hs. unfold bare.
  destruct t as [|x t]; [congruence|]. cbn [is_empty negb andb].
  revert Hns Hh Hs. generalize (String x t). clear. intros t.
  induction t as [|c t IH]; [reflexivity|].
  cbn [all_chars mem_char]. unfold plain_char, nonspace in *.
  intros H1 H2 H3. apply andb_true_iff in H1 as [Hc Ht].
  apply orb_false_iff in H2 as [Hh Hm]. apply orb_false_iff in H3 as [Hs Hm'].
  rewrite Hc, (IH Ht Hm Hm'). cbn [andb].
  rewrite (Ascii.eqb_sym c "#"), Hh, (Ascii.eqb_sym c ";"), Hs. reflexivity.
Qed.

(** The tokens of a set block other than the semicolon. *)
Lemma set_tokens_bare (block : list string) (t : string) :
  In t (set_tokens block) -> t = ";" \/ bare t = true.
Proof.
  intros Ht. unfold set_tokens in Ht.
  destruct (semicolon_tokens _ _ Ht) as [->|Hs]; [now left|]. right.
  apply split_ws_tokens in Ht as (Hne & Hns & Hc).
  apply bare_chars; try assumption.
  destruct (mem_char "#" t) eqn:E; [|reflexivity]. exfalso.
  apply Hc in E. apply mem_char_replace_from in E as [E|E]; [|discriminate].
  unfold set_joined in E. apply mem_char_replace_from in E as [E|E]; [|discriminate].
  apply mem_char_join in E as [E|(x & Hx & E)]; [discriminate|].
  apply in_map_iff in Hx as (l & <- & _).
  now rewrite strip_comments_no_hash in E.
Qed.

Lemma index_of_firstn (x : string) (l : list string) (n : nat) :
  index_of x l = Some n -> ~ In x (firstn n l).
Proof.
  revert n. induction l as [|y l IH]; intros n; [discriminate|].
  cbn [index_of]. destruct (String.eqb_spec y x) as [->|Hne].
  - intros [= <-]. cbn [firstn]. tauto.
  - destruct (index_of x l) as [m|]; [|discriminate]. cbn [option_map].
    intros [= <-]. cbn [firstn In]. intros [H|H]; [congruence|].
    now apply (IH m).
Qed.

Lemma slice_firstn {A : Type} (start stop : nat) (l : list A) (e : A) :
  In e (slice start stop l) -> In e (firstn stop l).
Proof.
  unfold slice. revert stop l. induction start as [|s IH]; intros stop l.
  - now rewrite Nat.sub_0_r.
  - destruct l as [|x l]; [cbn [skipn]; now rewrite firstn_nil|].
    destruct stop as [|st]; [cbn [Nat.sub firstn]; tauto|].
    cbn [skipn Nat.sub firstn In]. intros H. right. now apply IH.
Qed.

Lemma in_firstn {A : Type} (n : nat) (l : list A) (e : A) :
  In e (firstn n l) -> In e l.
Proof.
  intros H. rewrite <- (firstn_skipn n l). apply in_or_app. now left.
Qed.

Lemma parse_set_bare (dat_name : string) (block : list string) (nm : string)
  (elems : list string) (e : string) :
  parse_set dat_name block = Ok (nm, elems) -> In e elems -> bare e = true.
Proof.
  unfold parse_set. fold (set_tokens block).
  destruct (nth_error (set_tokens block) 1); [|discriminate].
  destruct (negb (mem_str ":=" (set_tokens block))); [discriminate|].
  destruct (index_of ":=" (set_tokens block)) as [i|]; [|discriminate].
  destruct (index_of ";" (set_tokens block)) as [stop|] eqn:Es; [|discriminate].
  intros [= _ <-] He. apply slice_firstn in He.
  destruct (set_tokens_bare block e (in_firstn _ _ _ He)) as [->|H]; [|exact H].
  now apply index_of_firstn in Es.
Qed.

Lemma in_dict_set {V : Type} (d : dict V) (k k' : string) (v v' : V) :
  In (k', v') (dict_set k v d) -> (k' = k /\ v' = v) \/ In (k', v') d.
Proof.
  induction d as [|[k0 v0] d IH]; cbn [dict_set In].
  - intros [[= <- <-]|[]]. now left.
  - destruct (String.eqb_spec k0 k) as [->|Hne]; cbn [In].
    + intros [[= <- <-]|H]; [now left | right; now right].
    + intros [H|H]; [right; now left|]. destruct (IH H) as [H'|H']; [now left|].
      right. now right.
Qed.

(** The tokens of a data line of a param block. *)
Lemma data_tokens_bare (l t : string) :
  In t (data_tokens (_strip_comments l)) -> bare t = true.
Proof.
  unfold data_tokens. rewrite split_ws_replace_tab. intros Ht.
  apply split_ws_tokens in Ht as (Hne & Hns & Hc).
  apply bare_chars; try assumption.
  - destruct (mem_char "#" t) eqn:E; [|reflexivity]. exfalso.
    apply Hc in E. destruct (mem_char ";" (_strip_comments l)).
    + apply mem_char_replace_from in E as [E|E]; [|discriminate].
      now rewrite strip_comments_no_hash in E.
    + now rewrite strip_comments_no_hash in E.
  - destruct (mem_char ";" t) eqn:E; [|reflexivity]. exfalso.
    apply Hc in E. destruct (mem_char ";" (_strip_comments l)) eqn:El.
    + now rewrite mem_char_replace_char in E.
    + congruence.
Qed.

Lemma param_rows_bare (data : list string) (m0 m : dict pyfloat) :
  param_rows data m0 = Ok m ->
  (forall k, In k (keys m0) -> bare k = true) ->
  forall k, In k (keys m) -> bare k = true.
Proof.
  revert m0. induction data as [|l data IH]; intros m0.
  - now intros [= <-].
  - cbn [param_rows]. destruct (is_empty (_strip_comments l)); [apply IH|].
    destruct (data_tokens (_strip_comments l)) as [|k [|v ts]] eqn:E; try apply IH.
    destruct (py_float v) as [x|]; [|discriminate].
    intros H H0. apply (IH _ H). intros k' Hk'.
    apply keys_set_in in Hk' as [->|Hk']; [|now apply H0].
    apply (data_tokens_bare l). rewrite E. now left.
Qed.

Lemma table_rows_bare (cols data : list string) (t0 t : dict (dict pyfloat)) :
  table_rows cols data t0 = Ok t ->
  (forall k, In k (keys t0) -> bare k = true) ->
  forall k, In k (keys t) -> bare k = true.
Proof.
  revert t0. induction data as [|l data IH]; intros t0.
  - now intros [= <-].
  - cbn [table_rows]. destruct (is_empty (_strip_comments l)); [apply IH|].
    destruct (data_tokens (_strip_comments l)) as [|row more] eqn:E; [apply IH|].
    destruct (negb _); [apply IH|].
    destruct (row_dict cols _ []) as [d|]; [|discriminate].
    intros H H0. apply (IH _ H). intros k' Hk'.
    apply keys_set_in in Hk' as [->|Hk']; [|now apply H0].
    apply (data_tokens_bare l). rewrite E. now left.
Qed.

Lemma statement_bare (dat_name raw : string) (rest : list string)
  (doc doc' : Document) (k : nat) :
  statement dat_name raw rest doc = Ok (k, doc') ->
  bare_sets doc /\ bare_keys doc -> bare_sets doc' /\ bare_keys doc'.
Proof.
  unfold statement. intros H [Hs Hk].
  destruct (is_empty _); [injection H as _ <-; now split|].
  destruct (m_scalar _) as [[nm val]|].
  { injection H as _ <-. split; [exact Hs|].
    intros n v x Hn Hx. cbn [set_params params] in Hn.
    apply in_dict_set in Hn as [[-> ->]|Hn]; [|now apply (Hk n v)].
    unfold scalar_value in Hx. now destruct (py_float (strip val)). }
  destruct (startswith "set " _).
  { destruct (parse_set _ _) as [[n es]|] eqn:E; cbn [bind] in H; [|discriminate].
    injection H as _ <-. split; [|exact Hk].
    intros n' es' e Hn He. cbn [set_sets sets] in Hn.
    apply in_dict_set in Hn as [[-> ->]|Hn]; [|now apply (Hs n' es')].
    now apply (parse_set_bare _ _ _ _ _ E). }
  destruct (is_param_block _ && negb _).
  { unfold parse_param1d in H.
    destruct (nth_error _ 1); [|discriminate].
    destruct (param_rows _ []) as [m|] eqn:E; cbn [bind] in H; [|discriminate].
    injection H as _ <-. split; [exact Hs|].
    intros n v x Hn Hx. cbn [set_params params] in Hn.
    apply in_dict_set in Hn as [[-> ->]|Hn]; [|now apply (Hk n v)].
    cbn [value_keys] in Hx. apply (param_rows_bare _ _ _ E); [|exact Hx].
    intros ? []. }
  destruct (is_param_block _ && _).
  { unfold parse_table in H.
    destruct (split1 ":" _) as [np [rs|]]; [|discriminate].
    destruct (table_rows _ _ []) as [t|] eqn:E; cbn [bind] in H; [|discriminate].
    injection H as _ <-. split; [exact Hs|].
    intros n v x Hn Hx. cbn [set_params params] in Hn.
    apply in_dict_set in Hn as [[-> ->]|Hn]; [|now apply (Hk n v)].
    cbn [value_keys] in Hx. apply (table_rows_bare _ _ _ _ E); [|exact Hx].
    intros ? []. }
  injection H as _ <-. now split.
Qed.

Lemma parse_loop_bare (dat_name : string) (lines : list string) (skip : nat)
  (doc doc' : Document) :
  parse_loop dat_name skip lines doc = Ok doc' ->
  bare_sets doc /\ bare_keys doc -> bare_sets doc' /\ bare_keys doc'.
Proof.
  revert skip doc. induction lines as [|raw rest IH]; intros skip doc.
  - now intros [= <-].
  - cbn [parse_loop]. destruct skip as [|k]; [|apply IH].
    destruct (statement dat_name raw rest doc) as [[k d]|e] eqn:E; [|discriminate].
    intros H W. apply (IH _ _ H). now apply (statement_bare _ _ _ _ _ _ E).
Qed.

Lemma dict_get_in {V : Type} (d : dict V) (k : string) (v : V) :
  dict_get k d = Some v -> In (k, v) d.
Proof.
  induction d as [|[k' v'] d IH]; [discriminate|]. cbn [dict_get In].
  destruct (String.eqb_spec k' k) as [->|Hne].
  - intros [= ->]. now left.
  - intros H. right. now apply IH.
Qed.

Lemma parse_dat_bare (dat_path : Path) (doc : Document) :
  parse_dat dat_path = Ok doc -> bare_sets doc /\ bare_keys doc.
Proof.
  intros H. apply (parse_loop_bare _ _ _ _ _ H).
  split; intros ? ? ? [].
Qed.

(** X14. Each element of each set of a parsed document is a bare token:
    it is not empty and holds no whitespace, no [#] and no [;]. *)
Theorem X14_set_elements_are_bare_tokens :
  forall (dat_path : Path) (doc : Document) (nm e : string) (elems : list string),
    parse_dat dat_path = Ok doc ->
    dict_get nm (sets doc) = Some elems ->
    In e elems ->
    bare e = true.
Proof.
  intros dat_path doc nm e elems H Hg He.
  destruct (parse_dat_bare _ _ H) as [Hs _].
  apply (Hs nm elems e); [now apply dict_get_in | exact He].
Qed.

Lemma X14_witness :
  parse_dat (file ("set HORAS:=H01 H02;  # hours" ++ nl ++ "param P = 1;"))
  = Ok {| sets := [("HORAS", ["H01"; "H02"])]; params := [("P", VFloat (float_of_Z 1))] |}
  /\ bare "H02" = true.
Proof.
  split; [vm_compute; reflexivity|].
  apply (X14_set_elements_are_bare_tokens
           (file ("set HORAS:=H01 H02;  # hours" ++ nl ++ "param P = 1;"))
           {| sets := [("HORAS", ["H01"; "H02"])];
              params := [("P", VFloat (float_of_Z 1))] |}
           "HORAS" "H02" ["H01"; "H02"]).
  - vm_compute. reflexivity.
  - reflexivity.
  - right. left. reflexivity.
Defined.

(** X15. Each key of a 1D mapping and each row identifier of a table of
    a parsed document is a bare token: it is not empty and holds no
    whitespace, no [#] and no [;]. *)
Theorem X15_param_keys_are_bare_tokens :
  forall (dat_path : Path) (doc : Document) (nm k : string) (v : value),
    parse_dat dat_path = Ok doc ->
    dict_get nm (params doc) = Some v ->
    In k (value_keys v) ->
    bare k = true.
Proof.
  intros dat_path doc nm k v H Hg Hk.
  destruct (parse_dat_bare _ _ H) as [_ Hp].
  apply (Hp nm v k); [now apply dict_get_in | exact Hk].
Qed.

Lemma X15_witness :
  parse_dat (file ("param P :=" ++ nl ++ "b" ++ tab ++ "2 # c 3" ++ nl ++ "a;1"))
  = Ok {| sets := [];
          params := [("P", VMap [("b", float_of_Z 2); ("a", float_of_Z 1)])] |}
  /\ bare "a" = true.
Proof.
  split; [vm_compute; reflexivity|].
  apply (X15_param_keys_are_bare_tokens
           (file ("param P :=" ++ nl ++ "b" ++ tab ++ "2 # c 3" ++ nl ++ "a;1"))
           {| sets := [];
              params := [("P", VMap [("b", float_of_Z 2); ("a", float_of_Z 1)])] |}
           "P" "a" (VMap [("b", float_of_Z 2); ("a", float_of_Z 1)])).
  - vm_compute. reflexivity.
  - reflexivity.
  - right. left. reflexivity.
Defined.

(** ** What the reader looks at in a line *)

Lemma same_line_map (a b : list string) :
  Forall2 same_line a b -> map _strip_comments a = map _strip_comments b.
Proof.
  induction 1 as [|x y a b [H _] _ IH]; [reflexivity|]. cbn [map]. now rewrite H, IH.
Qed.

Lemma same_line_length (a b : list string) :
  Forall2 same_line a b -> List.length a = List.length b.
Proof. induction 1; cbn [List.length]; congruence. Qed.

Lemma collect_same (x x' : string) (rest rest' : list string) :
  mem_char ";" x = mem_char ";" x' ->
  Forall2 same_line rest rest' ->
  Forall2 same_line (collect x rest) (collect x' rest').
Proof.
  intros Hx H. revert x x' Hx.
  induction H as [|l l' rest rest' Hl _ IH]; intros x x' Hx; cbn [collect]; rewrite <- Hx.
  - destruct (mem_char ";" x); constructor.
  - destruct (mem_char ";" x); constructor; [exact Hl|].
    apply IH. apply Hl.
Qed.

Lemma param_rows_ext (a b : list string) (m : dict pyfloat) :
  map _strip_comments a = map _strip_comments b -> param_rows a m = param_rows b m.
Proof.
  revert b m. induction a as [|x a IH]; intros [|y b] m; try discriminate; [reflexivity|].
  cbn [map]. intros [= H1 H2]. cbn [param_rows]. rewrite H1.
  destruct (is_empty (_strip_comments y)); [now apply IH|].
  destruct (data_tokens (_strip_comments y)) as [|k [|v ts]]; try now apply IH.
  destruct (py_float v); [now apply IH | reflexivity].
Qed.

Lemma table_rows_ext (cols a b : list string) (t : dict (dict pyfloat)) :
  map _strip_comments a = map _strip_comments b -> table_rows cols a t = table_rows cols b t.
Proof.
  revert b t. induction a as [|x a IH]; intros [|y b] t; try discriminate; [reflexivity|].
  cbn [map]. intros [= H1 H2]. cbn [table_rows]. rewrite H1.
  destruct (is_empty (_strip_comments y)); [now apply IH|].
  destruct (data_tokens (_strip_comments y)) as [|row more]; [now apply IH|].
  destruct (negb _); [now apply IH|].
  destruct (row_dict cols _ []); [now apply IH | reflexivity].
Qed.

Lemma statement_same (dat_name raw raw' : string) (rest rest' : list string)
  (doc : Document) :
  same_line raw raw' -> Forall2 same_line rest rest' ->
  statement dat_name raw rest doc = statement dat_name raw' rest' doc.
Proof.
  intros [Hr _] H. unfold statement. rewrite <- Hr.
  pose proof (collect_same (_strip_comments raw) (_strip_comments raw) rest rest' eq_refl H)
    as Hc.
  pose proof (same_line_map _ _ Hc) as Hm.
  pose proof (same_line_length _ _ Hc) as Hlen.
  destruct (is_empty _); [reflexivity|].
  destruct (m_scalar _) as [[nm val]|]; [reflexivity|].
  destruct (startswith "set " _).
  { unfold parse_set, set_joined. cbn [map]. now rewrite Hm, Hlen. }
  destruct (is_param_block _ && negb _).
  { unfold parse_param1d. now rewrite (param_rows_ext _ _ [] Hm), Hlen. }
  destruct (is_param_block _ && _); [|reflexivity].
  unfold parse_table.
  destruct (split1 ":" _) as [np [rs|]]; [|reflexivity].
  now rewrite (table_rows_ext _ _ _ [] Hm), Hlen.
Qed.

Lemma parse_loop_same (dat_name : string) (lines lines' : list string) :
  Forall2 same_line lines lines' ->
  forall (skip : nat) (doc : Document),
    parse_loop dat_name skip lines doc = parse_loop dat_name skip lines' doc.
Proof.
  induction 1 as [|raw raw' rest rest' Hr H IH]; intros skip doc; [reflexivity|].
  cbn [parse_loop]. destruct skip as [|k]; [|apply IH].
  rewrite (statement_same dat_name raw raw' rest rest' doc Hr H).
  destruct (statement dat_name raw' rest' doc) as [[k d]|e]; [apply IH | reflexivity].
Qed.

(** X16. The scan looks at a line only through its text without comment
    and outer whitespace, and through the presence of a semicolon
    anywhere in the line: two lists of lines that agree on both, line by
    line, give the same result, the same document or the same error. *)
Theorem X16_parse_reads_stripped_text_and_semicolons :
  forall (dat_name : string) (lines lines' : list string) (doc : Document),
    Forall2 same_line lines lines' ->
    parse_loop dat_name 0 lines doc = parse_loop dat_name 0 lines' doc.
Proof. intros dat_name lines lines' doc H. now apply parse_loop_same. Qed.

Lemma X16_witness :
  parse_loop "case.dat" 0
    ["   set A := x   # first; element"; tab ++ "y  # second"; "z ;"] empty_document
  = parse_loop "case.dat" 0 ["set A := x#;"; "y"; "z ;  # end of A"] empty_document.
Proof.
  apply X16_parse_reads_stripped_text_and_semicolons.
  repeat constructor.
Defined.

(** ** Blocks written one entry per line *)

Lemma bare_inv (t : string) :
  bare t = true ->
  t <> "" /\ all_chars nonspace t = true /\ mem_char "#" t = false
  /\ mem_char ";" t = false /\ is_token t = true.
Proof.
  unfold bare, is_token. intros H. apply andb_true_iff in H as [Hne Hp].
  assert (Hn : all_chars nonspace t = true).
  { apply (all_chars_impl plain_char); [|exact Hp]. unfold plain_char, nonspace.
    intros c Hc. apply andb_true_iff in Hc as [Hc _]. now apply andb_true_iff in Hc as [Hc _]. }
  assert (Ht : all_chars token_char t = true).
  { apply (all_chars_impl plain_char); [|exact Hp]. unfold plain_char, token_char.
    intros c Hc. now apply andb_true_iff in Hc as [Hc _]. }
  repeat split.
  - intros ->. discriminate.
  - exact Hn.
  - now apply (all_chars_not_mem plain_char).
  - now apply (all_chars_not_mem plain_char).
  - now rewrite Hne, Ht.
Qed.

Lemma bare_tokens (g : list string) :
  forallb bare g = true ->
  forallb is_token g = true /\ existsb (mem_char ";") g = false.
Proof.
  induction g as [|t g IH]; [now split|]. cbn [forallb existsb].
  intros H. apply andb_true_iff in H as [Ht Hg].
  destruct (bare_inv t Ht) as (_ & _ & _ & Hs & Hk). destruct (IH Hg) as [H1 H2].
  now rewrite Hs, Hk, H1, H2.
Qed.

Lemma split_ws_join_tokens (g : list string) :
  forallb is_token g = true -> split_ws (join " " g) = g.
Proof.
  induction g as [|t g IH]; [reflexivity|]. cbn [forallb].
  intros H. apply andb_true_iff in H as [Ht Hg].
  destruct (is_token_nonspace t Ht) as [Hne Hns].
  destruct g as [|u g].
  - cbn [join String.concat]. now apply split_ws_word.
  - change (join " " (t :: u :: g)) with (t ++ String " " (join " " (u :: g))).
    rewrite split_ws_append_space by reflexivity.
    now rewrite (split_ws_word t Hne Hns), (IH Hg).
Qed.

(** The tokens that a param block reads in a line of bare tokens. *)
Lemma data_tokens_join (g : list string) :
  g <> [] -> forallb bare g = true ->
  is_empty (_strip_comments (join " " g)) = false
  /\ data_tokens (_strip_comments (join " " g)) = g.
Proof.
  intros Hne H. destruct (bare_tokens g H) as [Ht Hs].
  rewrite (strip_comments_tokens g Ht).
  split; [now apply join_tokens_rstrip|].
  unfold data_tokens. rewrite mem_char_join_tokens by reflexivity. rewrite Hs.
  now rewrite split_ws_replace_tab, split_ws_join_tokens.
Qed.

Lemma param_rows_semicolon (m : dict pyfloat) : param_rows [";"] m = Ok m.
Proof. reflexivity. Qed.

Lemma table_rows_semicolon (cols : list string) (t : dict (dict pyfloat)) :
  table_rows cols [";"] t = Ok t.
Proof. reflexivity. Qed.

Lemma param_rows_pairs (ks vs : list string) (xs : list pyfloat) (tail : list string)
  (m0 : dict pyfloat) :
  NoDup ks -> (forall k, In k ks -> ~ In k (keys m0)) ->
  forallb bare ks = true -> forallb bare vs = true ->
  map py_float vs = map Some xs ->
  param_rows (map (fun kv => join " " [fst kv; snd kv]) (combine ks vs) ++ tail)%list m0
  = param_rows tail (m0 ++ combine ks xs)%list.
Proof.
  intros Hnd. revert vs xs m0.
  induction Hnd as [|k ks Hk Hnd IH]; intros vs xs m0 Hf Hbk Hbv Hv.
  - cbn [combine map app]. now rewrite app_nil_r.
  - destruct vs as [|v vs]; destruct xs as [|x xs]; try discriminate.
    + cbn [combine map app]. now rewrite app_nil_r.
    + cbn [map] in Hv. injection Hv as Hv Hvs.
      cbn [forallb] in Hbk, Hbv.
      apply andb_true_iff in Hbk as [Hbk Hbks]. apply andb_true_iff in Hbv as [Hbv Hbvs].
      cbn [combine map app fst snd]. cbn [param_rows].
      destruct (data_tokens_join [k; v]) as [He Ht];
        [discriminate | cbn [forallb]; now rewrite Hbk, Hbv |].
      rewrite He, Ht, Hv.
      rewrite (dict_set_absent m0 k x) by (apply Hf; now left).
      rewrite (IH vs xs (m0 ++ [(k, x)])%list); try assumption.
      * now rewrite <- app_assoc.
      * intros k' Hk'. unfold keys. rewrite map_app, in_app_iff. cbn [map fst In].
        intros [H|[H|[]]].
        -- apply (Hf k'); [now right | exact H].
        -- congruence.
Qed.

Lemma strip_fixed (c z : ascii) (a : string) :
  isspace c = false -> isspace z = false ->
  strip (String c (a ++ String z "")) = String c (a ++ String z "").
Proof.
  intros Hc Hz. unfold strip, strip_with. cbn [lstrip_with]. rewrite Hc.
  change (String c (a ++ String z "")) with (String c a ++ String z "").
  now apply rstrip_with_fixed.
Qed.

(** X17. A 1D block written with one pair per line is read as written.
    The header param NAME :=, one line KEY VALUE for each pair, and a
    line with the semicolon bind NAME to the mapping from the keys, in
    their order, to the floats of the values, when NAME, the keys and
    the values are bare tokens (NAME without [:] and [=]), the keys are
    pairwise distinct and [float] accepts each value; the scan goes on
    after the line of the semicolon. *)
Theorem X17_param1d_block_one_pair_per_line :
  forall (dat_name NAME : string) (ks vs : list string) (xs : list pyfloat)
         (rest : list string) (doc : Document),
    bare NAME = true -> mem_char ":" NAME = false -> mem_char "=" NAME = false ->
    NoDup ks -> forallb bare ks = true -> forallb bare vs = true ->
    map py_float vs = map Some xs ->
    parse_loop dat_name 0
      (("param " ++ NAME ++ " :=")%string
       :: map (fun kv => join " " [fst kv; snd kv]) (combine ks vs) ++ ";" :: rest)%list doc
    = parse_loop dat_name 0 rest (set_params NAME (VMap (combine ks xs)) doc).
Proof.
  intros dat_name NAME ks vs xs rest doc HN Hcol Heq Hnd Hbk Hbv Hv.
  destruct (bare_inv NAME HN) as (Hne & Hns & Hh & Hs & _).
  set (header := "param " ++ NAME ++ " :=").
  set (d1 := map (fun kv => join " " [fst kv; snd kv]) (combine ks vs)).
  assert (Hsc : _strip_comments header = header).
  { apply strip_comments_plain.
    - unfold header. now rewrite !mem_char_append, Hh.
    - unfold header.
      replace ("param " ++ NAME ++ " :=")
        with (String "p" (("aram " ++ NAME ++ " :") ++ String "=" ""))
        by (repeat (rewrite !append_assoc; cbn [append]); reflexivity).
      now apply strip_fixed. }
  assert (Hd1 : Forall (fun x => mem_char ";" x = false) d1).
  { unfold d1. clear -Hbk Hbv. revert vs Hbv.
    induction ks as [|k ks IH]; intros [|v vs] Hbv; cbn [combine map]; try constructor.
    - cbn [forallb] in Hbk, Hbv.
      apply andb_true_iff in Hbk as [Hk _]. apply andb_true_iff in Hbv as [Hv' _].
      destruct (bare_inv k Hk) as (_ & _ & _ & Hks & _).
      destruct (bare_inv v Hv') as (_ & _ & _ & Hvs & _).
      cbn [fst snd]. rewrite mem_char_join_tokens by reflexivity.
      cbn [existsb]. now rewrite Hks, Hvs.
    - cbn [forallb] in Hbk, Hbv.
      apply andb_true_iff in Hbk as [_ Hk]. apply andb_true_iff in Hbv as [_ Hv'].
      now apply IH. }
  assert (Hsemi : mem_char ";" (_strip_comments header) = false).
  { rewrite Hsc. unfold header. now rewrite !mem_char_append, Hs. }
  cbn [parse_loop].
  rewrite (statement_param1d_header dat_name header "" NAME " " "" _ doc);
    try assumption; try reflexivity.
  rewrite (collect_until _ ";" d1 rest Hsemi Hd1 eq_refl).
  unfold d1 at 1.
  rewrite (param_rows_pairs ks vs xs [";"] [] Hnd (fun _ _ H => H) Hbk Hbv Hv).
  cbn [app]. rewrite param_rows_semicolon. cbn [bind].
  replace (d1 ++ ";" :: rest)%list with ((d1 ++ [";"]) ++ rest)%list
    by (now rewrite <- app_assoc).
  apply parse_loop_skip.
Qed.

Lemma X17_witness :
  parse_loop "case.dat" 0
    (("param " ++ "Precio" ++ " :=")%string
     :: map (fun kv => join " " [fst kv; snd kv]) (combine ["H01"; "H02"] ["1.5"; "2"])
        ++ ";" :: ["set A := b ;"])%list empty_document
  = parse_loop "case.dat" 0 ["set A := b ;"]
      (set_params "Precio"
         (VMap (combine ["H01"; "H02"]
                        [S754_finite false 6755399441055744 (-52); float_of_Z 2]))
         empty_document).
Proof.
  apply X17_param1d_block_one_pair_per_line; try reflexivity.
  repeat constructor; cbn [In]; intuition discriminate.
Defined.

Lemma table_rows_lines (cols rs : list string) (vss : list (list string))
  (xss : list (list pyfloat)) (tail : list string) (t0 : dict (dict pyfloat)) :
  NoDup cols ->
  NoDup rs -> (forall r, In r rs -> ~ In r (keys t0)) ->
  forallb bare rs = true ->
  Forall2 (fun vals xs => List.length vals = List.length cols
                          /\ forallb bare vals = true
                          /\ map py_float vals = map Some xs) vss xss ->
  table_rows cols (map (fun rv => join " " (fst rv :: snd rv)) (combine rs vss) ++ tail)%list t0
  = table_rows cols tail (t0 ++ combine rs (map (combine cols) xss))%list.
Proof.
  intros Hc Hnd. revert vss xss t0.
  induction Hnd as [|r rs Hr Hnd IH]; intros vss xss t0 Hf Hb H.
  - cbn [combine map app]. now rewrite app_nil_r.
  - destruct H as [|vals xs vss xss (Hlen & Hbv & Hv) H].
    + cbn [combine map app]. now rewrite app_nil_r.
    + cbn [forallb] in Hb. apply andb_true_iff in Hb as [Hbr Hbrs].
      cbn [combine map app fst snd]. cbn [table_rows].
      destruct (data_tokens_join (r :: vals)) as [He Ht];
        [discriminate | cbn [forallb]; now rewrite Hbr, Hbv |].
      rewrite He, Ht.
      rewrite <- Hlen, firstn_all, Nat.eqb_refl. cbn [negb].
      rewrite (row_dict_fresh cols vals xs [] Hc (fun _ _ F => F) Hlen Hv). cbn [app].
      rewrite (dict_set_absent t0 r _) by (apply Hf; now left).
      rewrite (IH vss xss); try assumption.
      * now rewrite <- app_assoc.
      * intros r' Hr'. unfold keys. rewrite map_app, in_app_iff. cbn [map fst In].
        intros [F|[F|[]]].
        -- apply (Hf r'); [now right | exact F].
        -- congruence.
Qed.

(** X18. A table written with one row per line is read as written. The
    header param T: C1 ... Cn :=, one line ROW V1 ... Vn for each row,
    and a line with the semicolon bind T to the table that gives each
    row identifier, in order, the pairs of a column and the float of its
    value, when the names are bare tokens (T without [:] and [=], the
    columns without [=]), the columns and the row identifiers are
    pairwise distinct, and each row has one value that [float] accepts
    for each column. *)
Theorem X18_table_block_one_row_per_line :
  forall (dat_name T : string) (cols rs : list string) (vss : list (list string))
         (xss : list (list pyfloat)) (rest : list string) (doc : Document),
    bare T = true -> mem_char ":" T = false -> mem_char "=" T = false ->
    NoDup cols -> forallb bare cols = true ->
    existsb (mem_char "=") cols = false ->
    NoDup rs -> forallb bare rs = true ->
    Forall2 (fun vals xs => List.length vals = List.length cols
                            /\ forallb bare vals = true
                            /\ map py_float vals = map Some xs) vss xss ->
    parse_loop dat_name 0
      (("param " ++ T ++ ": " ++ join " " cols ++ " :=")%string
       :: map (fun rv => join " " (fst rv :: snd rv)) (combine rs vss) ++ ";" :: rest)%list doc
    = parse_loop dat_name 0 rest
        (set_params T (VTable (combine rs (map (combine cols) xss))) doc).
Proof.
  intros dat_name T cols rs vss xss rest doc HT Hcol Heq Hndc Hbc Hceq Hndr Hbr H.
  destruct (bare_inv T HT) as (Hne & Hns & Hh & Hs & _).
  destruct (bare_tokens cols Hbc) as [Htc Hsc'].
  set (header := "param " ++ T ++ ": " ++ join " " cols ++ " :=").
  set (d1 := map (fun rv => join " " (fst rv :: snd rv)) (combine rs vss)).
  assert (Hhash : mem_char "#" (join " " cols) = false).
  { rewrite mem_char_join_tokens by reflexivity. clear -Htc.
    induction cols as [|c cols IH]; [reflexivity|]. cbn [forallb existsb] in *.
    apply andb_true_iff in Htc as [Hc Hcs]. now rewrite (is_token_no_hash c Hc), IH. }
  assert (Hsc : _strip_comments header = header).
  { apply strip_comments_plain.
    - unfold header. now rewrite !mem_char_append, Hh, Hhash.
    - unfold header.
      replace ("param " ++ T ++ ": " ++ join " " cols ++ " :=")
        with (String "p" (("aram " ++ T ++ ": " ++ join " " cols ++ " :") ++ String "=" ""))
        by (repeat (rewrite !append_assoc; cbn [append]); reflexivity).
      now apply strip_fixed. }
  assert (Hd1 : Forall (fun x => mem_char ";" x = false) d1).
  { unfold d1. clear -Hbr H. revert rs Hbr.
    induction H as [|vals xs vss xss (_ & Hbv & _) _ IH]; intros [|r rs] Hbr;
      cbn [combine map]; try constructor.
    - cbn [forallb] in Hbr. apply andb_true_iff in Hbr as [Hr _].
      cbn [fst snd]. rewrite mem_char_join_tokens by reflexivity.
      destruct (bare_tokens (r :: vals)) as [_ E]; [|exact E].
      cbn [forallb]. now rewrite Hr, Hbv.
    - cbn [forallb] in Hbr. apply andb_true_iff in Hbr as [_ Hr]. now apply IH. }
  assert (Hsemi : mem_char ";" (_strip_comments header) = false).
  { rewrite Hsc. unfold header. rewrite !mem_char_append, Hs.
    rewrite mem_char_join_tokens by reflexivity. now rewrite Hsc'. }
  assert (Hshape : _strip_comments header
                   = "param " ++ T ++ ":" ++ (" " ++ join " " cols ++ " ") ++ ":=" ++ "").
  { rewrite Hsc. unfold header.
    repeat (rewrite !append_assoc; cbn [append]). reflexivity. }
  assert (Hcols : split_ws (" " ++ join " " cols ++ " ") = cols).
  { rewrite (split_ws_leading " " _ eq_refl), (split_ws_trailing _ " " eq_refl).
    now apply split_ws_join_tokens. }
  cbn [parse_loop].
  rewrite (statement_table_header dat_name header T (" " ++ join " " cols ++ " ") "" _ doc
             Hshape Hcol Heq).
  2:{ rewrite !mem_char_append. rewrite mem_char_join_tokens by reflexivity.
      now rewrite Hceq. }
  rewrite Hcols, (strip_token T Hns).
  rewrite (collect_until _ ";" d1 rest Hsemi Hd1 eq_refl).
  unfold d1 at 1.
  rewrite (table_rows_lines cols rs vss xss [";"] [] Hndc Hndr (fun _ _ F => F) Hbr H).
  cbn [app]. rewrite table_rows_semicolon. cbn [bind].
  replace (d1 ++ ";" :: rest)%list with ((d1 ++ [";"]) ++ rest)%list
    by (now rewrite <- app_assoc).
  apply parse_loop_skip.
Qed.

Lemma X18_witness :
  parse_loop "case.dat" 0
    (("param " ++ "Demanda" ++ ": " ++ join " " ["C1"; "C2"] ++ " :=")%string
     :: map (fun rv => join " " (fst rv :: snd rv))
            (combine ["H01"; "H02"] [["1"; "2"]; ["3"; "1.5"]])
        ++ ";" :: ["param P = 1;"])%list empty_document
  = parse_loop "case.dat" 0 ["param P = 1;"]
      (set_params "Demanda"
         (VTable (combine ["H01"; "H02"]
                    (map (combine ["C1"; "C2"])
                         [[float_of_Z 1; float_of_Z 2];
                          [float_of_Z 3; S754_finite false 6755399441055744 (-52)]])))
         empty_document).
Proof.
  apply X18_table_block_one_row_per_line; try reflexivity.
  - repeat constructor; cbn [In]; intuition discriminate.
  - repeat constructor; cbn [In]; intuition discriminate.
  - repeat constructor.
Defined.
